(** * Resume analysis functions: versioning, provenance chain and PDF pipeline

    A shallow embedding of [functions/index.js] (the Cloud Functions
    [analyzeResumeText], [onResumeUploaded], [generateNewAnalysis] and
    [generatePdf]) and the properties of its specification.

    Conventions of the embedding.
    - A JavaScript string is the list of its UTF-16 code units ([jstring]);
      [js "..."] writes an ASCII literal.
    - A JavaScript value that came out of [JSON.parse] is a [value];
      [undefined] is [None] in an [option value].
    - An [async] function is a program ([prog]) over the effects it awaits:
      Firestore reads and transactions, the Vertex AI model, Cloud Storage,
      the PDF service, the logger.  Programs are run against a [World]
      (the Firestore collections, the bucket, the log) and an [Env] that
      answers for the external services; several programs are interleaved
      effect by effect by a schedule. *)

From Stdlib Require Import ZArith NArith String Ascii List Lia.
From stdpp Require Import gmap strings list fin_maps pretty.

Open Scope N_scope.

(** ** JavaScript strings and values *)

Abbreviation jstring := (list N).

Definition js (s : string) : jstring := N_of_ascii <$> list_ascii_of_string s.
Arguments js : simpl never.

(** The code unit of the double quote. *)
Definition dq : N := 34.
Definition quoted (s : jstring) : jstring := dq :: s ++ [dq].

(** Template-literal rendering of a count, by its decimal digits: what
    [`${n}`] gives for the integers below [2^53]. *)
Definition dec (n : nat) : jstring := js (pretty n).
Arguments dec : simpl never.

(** A count read from a document is a JavaScript number, an IEEE-754
    double.  [to_double x] is the double nearest to the non-negative
    integer [x] (round to nearest, ties to even): an integer below [2^53]
    is a double; from [2^53] on only the 53 leading bits are kept.  Counts
    beyond the largest double cannot be read and are not considered. *)
Definition to_double (x : N) : N :=
  if x <? 2 ^ 53 then x
  else
    let e := N.log2 x - 52 in
    let q := N.shiftr x e in
    let r := x - N.shiftl q e in
    let half := 2 ^ (e - 1) in
    N.shiftl (if (half <? r) || ((r =? half) && N.odd q) then q + 1 else q) e.

(** [n + 1] on a count: the operand is a double, and so is the sum. *)
Definition js_add1 (n : nat) : nat :=
  N.to_nat (to_double (to_double (N.of_nat n) + 1)).

(** A count below [2^53], where [n + 1] is exact. *)
Definition safe_count (n : nat) : Prop := N.of_nat n < 2 ^ 53.

(** A JSON number is kept as the exact decimal its literal denotes:
    [(-1)^n_neg * n_mant * 10^n_exp]. *)
Record number := Number { n_neg : bool; n_mant : N; n_exp : Z }.

(** [ToBoolean] of a number is false exactly when it is [+0] or [-0] as a
    double: the decimal is zero or rounds to zero (at most [2^-1075]). *)
Definition number_is_zero (n : number) : bool :=
  (n_mant n =? 0) ||
  ((n_exp n <? 0)%Z && (n_mant n * 2 ^ 1075 <=? 10 ^ Z.to_N (- n_exp n))).

Unset Elimination Schemes.
Inductive value :=
| VNull
| VBool (b : bool)
| VNum (n : number)
| VStr (s : jstring)
| VArr (l : list value)
| VObj (m : gmap jstring value).
Set Elimination Schemes.

(** [ToBoolean]; [undefined] is [None]. *)
Definition truthy (v : option value) : bool :=
  match v with
  | None | Some VNull => false
  | Some (VBool b) => b
  | Some (VNum n) => negb (number_is_zero n)
  | Some (VStr s) => match s with [] => false | _ => true end
  | Some (VArr _) | Some (VObj _) => true
  end.

(** An exception, by its [message]. *)
Inductive result (A : Type) :=
| Ok (a : A)
| Thrown (msg : jstring).
Arguments Ok {A} a.
Arguments Thrown {A} msg.

(** [v.k] for the own data properties of a parsed JSON value, for keys that
    are not inherited ones; reading a property of [null] is a TypeError. *)
Definition prop (v : value) (k : jstring) : result (option value) :=
  match v with
  | VNull => Thrown (js "Cannot read properties of null")
  | VObj m => Ok (m !! k)
  | _ => Ok None
  end.

(** ** [JSON.parse] *)

Definition isc (c : N) (a : ascii) : bool := c =? N_of_ascii a.

Definition is_ws (c : N) : bool := (c =? 32) || (c =? 9) || (c =? 10) || (c =? 13).

Fixpoint skip_ws (s : list N) : list N :=
  match s with
  | c :: r => if is_ws c then skip_ws r else s
  | [] => []
  end.

Fixpoint strip_prefix (p s : list N) : option (list N) :=
  match p, s with
  | [], _ => Some s
  | a :: p', b :: s' => if a =? b then strip_prefix p' s' else None
  | _ :: _, [] => None
  end.

Definition digit_of (c : N) : option N :=
  if (48 <=? c) && (c <=? 57) then Some (c - 48) else None.

Definition hex_of (c : N) : option N :=
  if (48 <=? c) && (c <=? 57) then Some (c - 48)
  else if (97 <=? c) && (c <=? 102) then Some (c - 87)
  else if (65 <=? c) && (c <=? 70) then Some (c - 55)
  else None.

Fixpoint take_digits (s : list N) : list N * list N :=
  match s with
  | c :: r =>
      match digit_of c with
      | Some d => let '(ds, rest) := take_digits r in (d :: ds, rest)
      | None => ([], s)
      end
  | [] => ([], [])
  end.

Definition digits_value (ds : list N) : N :=
  fold_left (fun acc d => 10 * acc + d) ds 0.

(** int: [0] or a non-zero digit followed by digits. *)
Definition lex_int (s : list N) : option (list N * list N) :=
  match s with
  | c :: r =>
      if c =? 48 then Some ([0], r)
      else match take_digits s with
           | ([], _) => None
           | (ds, rest) => Some (ds, rest)
           end
  | [] => None
  end.

(** frac: nothing, or [.] and at least one digit. *)
Definition lex_frac (s : list N) : option (list N * list N) :=
  match s with
  | c :: r =>
      if isc c "." then
        match take_digits r with
        | ([], _) => None
        | (ds, rest) => Some (ds, rest)
        end
      else Some ([], s)
  | [] => Some ([], [])
  end.

(** exp: nothing, or [e]/[E], an optional sign and at least one digit. *)
Definition lex_exp (s : list N) : option (Z * list N) :=
  match s with
  | c :: r =>
      if isc c "e" || isc c "E" then
        let '(neg, r') :=
          match r with
          | sg :: r1 =>
              if isc sg "-" then (true, r1)
              else if isc sg "+" then (false, r1) else (false, r)
          | [] => (false, r)
          end in
        match take_digits r' with
        | ([], _) => None
        | (ds, rest) =>
            let e := Z.of_N (digits_value ds) in
            Some (if neg then (- e)%Z else e, rest)
        end
      else Some (0%Z, s)
  | [] => Some (0%Z, [])
  end.

Definition lex_number (s : list N) : option (number * list N) :=
  let '(neg, s1) :=
    match s with
    | c :: r => if isc c "-" then (true, r) else (false, s)
    | [] => (false, s)
    end in
  match lex_int s1 with
  | None => None
  | Some (ids, s2) =>
      match lex_frac s2 with
      | None => None
      | Some (fds, s3) =>
          match lex_exp s3 with
          | None => None
          | Some (e, s4) =>
              Some (Number neg (digits_value (ids ++ fds))
                           (e - Z.of_nat (length fds)), s4)
          end
      end
  end.

(** The characters of a string literal after its opening quote, up to and
    including the closing quote; [acc] holds the code units read so far, in
    reverse. *)
Fixpoint lex_string (s : list N) (acc : list N) : option (jstring * list N) :=
  match s with
  | [] => None
  | c :: r =>
      if c =? dq then Some (rev acc, r)
      else if isc c "\" then
        match r with
        | [] => None
        | e :: r1 =>
            if e =? dq then lex_string r1 (dq :: acc)
            else if isc e "\" then lex_string r1 (92 :: acc)
            else if isc e "/" then lex_string r1 (47 :: acc)
            else if isc e "b" then lex_string r1 (8 :: acc)
            else if isc e "f" then lex_string r1 (12 :: acc)
            else if isc e "n" then lex_string r1 (10 :: acc)
            else if isc e "r" then lex_string r1 (13 :: acc)
            else if isc e "t" then lex_string r1 (9 :: acc)
            else if isc e "u" then
              match r1 with
              | h1 :: h2 :: h3 :: h4 :: r2 =>
                  match hex_of h1, hex_of h2, hex_of h3, hex_of h4 with
                  | Some a, Some b, Some c', Some d =>
                      lex_string r2 (((a * 16 + b) * 16 + c') * 16 + d :: acc)
                  | _, _, _, _ => None
                  end
              | _ => None
              end
            else None
        end
      else if c <? 32 then None
      else lex_string r (c :: acc)
  end.

(** Recursive descent; [fuel] bounds the nesting of the calls. *)
Fixpoint parse_value (fuel : nat) (s : list N) : option (value * list N) :=
  match fuel with
  | O => None
  | S fuel =>
      match skip_ws s with
      | [] => None
      | c :: r =>
          if isc c "{" then
            match skip_ws r with
            | c' :: r' =>
                if isc c' "}" then Some (VObj ∅, r')
                else parse_members fuel (c' :: r') ∅
            | [] => None
            end
          else if isc c "[" then
            match skip_ws r with
            | c' :: r' =>
                if isc c' "]" then Some (VArr [], r')
                else parse_elements fuel (c' :: r') []
            | [] => None
            end
          else if c =? dq then
            match lex_string r [] with
            | Some (str, rest) => Some (VStr str, rest)
            | None => None
            end
          else if isc c "t" then
            match strip_prefix (js "rue") r with
            | Some rest => Some (VBool true, rest)
            | None => None
            end
          else if isc c "f" then
            match strip_prefix (js "alse") r with
            | Some rest => Some (VBool false, rest)
            | None => None
            end
          else if isc c "n" then
            match strip_prefix (js "ull") r with
            | Some rest => Some (VNull, rest)
            | None => None
            end
          else
            match lex_number (c :: r) with
            | Some (n, rest) => Some (VNum n, rest)
            | None => None
            end
      end
  end
with parse_elements (fuel : nat) (s : list N) (acc : list value)
  : option (value * list N) :=
  match fuel with
  | O => None
  | S fuel =>
      match parse_value fuel s with
      | None => None
      | Some (v, r) =>
          match skip_ws r with
          | c :: r' =>
              if isc c "," then parse_elements fuel r' (v :: acc)
              else if isc c "]" then Some (VArr (rev (v :: acc)), r')
              else None
          | [] => None
          end
      end
  end
with parse_members (fuel : nat) (s : list N) (acc : gmap jstring value)
  : option (value * list N) :=
  match fuel with
  | O => None
  | S fuel =>
      match skip_ws s with
      | c :: r =>
          if c =? dq then
            match lex_string r [] with
            | Some (k, r1) =>
                match skip_ws r1 with
                | c1 :: r2 =>
                    if isc c1 ":" then
                      match parse_value fuel r2 with
                      | Some (v, r3) =>
                          match skip_ws r3 with
                          | c3 :: r4 =>
                              if isc c3 "," then parse_members fuel r4 (<[k:=v]> acc)
                              else if isc c3 "}" then Some (VObj (<[k:=v]> acc), r4)
                              else None
                          | [] => None
                          end
                      | None => None
                      end
                    else None
                | [] => None
                end
            | None => None
            end
          else None
      | [] => None
      end
  end.

(** [JSON.parse(text)] for a string [text]: one value, surrounded by white
    space only; anything else is a SyntaxError.  The fuel never runs out
    ([JSON_parse_fuel]); the limits of the engine (stack depth, memory) are
    not modelled. *)
Definition JSON_parse (text : jstring) : result value :=
  match parse_value (2 * length text + 2) text with
  | Some (v, rest) =>
      match skip_ws rest with
      | [] => Ok v
      | _ :: _ => Thrown (js "Unexpected token in JSON")
      end
  | None => Thrown (js "Unexpected token in JSON")
  end.

(** The parsing step of the three functions:
    [try { parsed = JSON.parse(raw); } catch { parsed = {rawText: raw}; }] *)
Definition parse (raw : jstring) : value :=
  match JSON_parse raw with
  | Ok v => v
  | Thrown _ => VObj {[ js "rawText" := VStr raw ]}
  end.

Definition summary_json : jstring :=
  js "{" ++ quoted (js "summary") ++ js ":" ++ quoted (js "x") ++ js "}".

(** ** String helpers of the runtime *)

(** [a || b] on values that are strings or [undefined]. *)
Definition nonempty (o : option jstring) : bool :=
  match o with Some (_ :: _) => true | _ => false end.

Definition or_str (o : option jstring) (d : jstring) : jstring :=
  match o with Some (c :: s) => c :: s | _ => d end.

(** White space and line terminators, as [String.prototype.trim] strips them. *)
Definition is_js_space (c : N) : bool :=
  ((9 <=? c) && (c <=? 13)) || (c =? 32) || (c =? 160) || (c =? 5760)
  || ((8192 <=? c) && (c <=? 8202)) || (c =? 8232) || (c =? 8233)
  || (c =? 8239) || (c =? 8287) || (c =? 12288) || (c =? 65279).

Fixpoint trim_start (s : jstring) : jstring :=
  match s with
  | c :: r => if is_js_space c then trim_start r else s
  | [] => []
  end.

Definition trim (s : jstring) : jstring := rev (trim_start (rev (trim_start s))).

(** [s.replace(/c/g, d)] and [s.replace("c", d)] for a single character. *)
Definition replace_all (c : ascii) (d : jstring) (s : jstring) : jstring :=
  concat ((fun x => if isc x c then d else [x]) <$> s).

Fixpoint replace_first (c : ascii) (d : jstring) (s : jstring) : jstring :=
  match s with
  | x :: r => if isc x c then d ++ r else x :: replace_first c d r
  | [] => []
  end.

(** [a.join(sep)] on an array of strings. *)
Fixpoint join (sep : jstring) (l : list jstring) : jstring :=
  match l with
  | [] => []
  | [x] => x
  | x :: r => x ++ sep ++ join sep r
  end.

(** ** Firestore documents and Cloud Storage objects *)

Abbreviation timestamp := nat (only parsing).
Abbreviation buffer := (list N) (only parsing).

Definition GENERATION_MODEL : jstring := js "gemini-2.5-flash".

(** A document of collection [file]; a field that is absent reads
    [undefined] ([None]).  The map [analysis] is keyed by position. *)
Record FileDoc := {
  f_owner : option jstring;
  f_path : option jstring;
  f_numAnalysis : option nat;
  f_analysis : gmap nat jstring;
  f_filename : option jstring;
  f_type : option jstring;
  f_lastUpdate : option timestamp;
  f_uploadDate : option timestamp }.

(** A document of collection [analysis]; [null] is [None]. *)
Record AnalysisDoc := {
  a_owner : jstring;
  a_fileID : jstring;
  a_content : value;
  a_generateTime : timestamp;
  a_model : jstring;
  a_userRating : option value;
  a_userComment : option value;
  a_nextAnalysis : option jstring }.

(** The field [files] of a document of collection [user]. *)
Record UserDoc := { u_files : list jstring }.

(** The payload posted to the rendering service. *)
Record McpPayload := {
  mp_text : value;
  mp_title : jstring;
  mp_pageSize : jstring;
  mp_margins : jstring;
  mp_fontFamily : jstring;
  mp_lineHeight : number;
  mp_headerHtml : jstring;
  mp_footerHtml : jstring;
  mp_pageNumbers : bool }.

(** The fields [generatePdf] merges into a version document. *)
Record VersionDoc := {
  v_pdf_url : value;
  v_gcs_uri : value;
  v_firebase_path : jstring;
  v_fileID : jstring;
  v_generated_at : timestamp;
  v_page_count : value;
  v_bytes : value;
  v_title : value;
  v_generation_params : McpPayload }.

Record Blob := {
  b_data : buffer;
  b_owner : jstring;
  b_originalTitle : jstring;
  b_generatedAt : jstring }.

Inductive level := Debug | Info | Warn | Error | Console.
Record LogEntry := { lg_level : level; lg_msg : jstring; lg_detail : list jstring }.

(** ** Transactions

    The update function passed to [runTransaction] is a [tx]: it reads
    through the transaction, buffers writes, may log and may throw. *)

Inductive write :=
| UpdateFile (id : jstring) (numAnalysis : nat) (pos : nat) (analysisID : jstring)
    (* update(fileRef, {lastUpdate: serverTimestamp(), numAnalysis,
                        [`analysis.${pos}`]: analysisID}) *)
| SetAnalysis (id : jstring) (mk : timestamp -> AnalysisDoc)
| UpdateNextAnalysis (id : jstring) (next : jstring)
    (* update(analysisRef, {nextAnalysis: next}) *)
| SetFile (id : jstring) (mk : timestamp -> FileDoc)
| UpdateUserFiles (uid : jstring) (fileID : jstring)
    (* update(userRef, {files: arrayUnion(fileID)}) *)
| SetVersionMerge (uid rid vid : jstring) (mk : timestamp -> VersionDoc).

Inductive tx (A : Type) : Type :=
| TxRet (a : A)
| TxThrow (msg : jstring)
| TxLog (l : level) (msg : jstring) (k : tx A)
| TxDoc (coll id : jstring) (k : jstring -> tx A)   (* collection(coll).doc(id) *)
| TxAutoId (coll : jstring) (k : jstring -> tx A)   (* collection(coll).doc() *)
| TxGetFile (id : jstring) (k : option FileDoc -> tx A)
| TxWrite (w : write) (k : tx A).
Arguments TxRet {A} a.
Arguments TxThrow {A} msg.
Arguments TxLog {A} l msg k.
Arguments TxDoc {A} coll id k.
Arguments TxAutoId {A} coll k.
Arguments TxGetFile {A} id k.
Arguments TxWrite {A} w k.

(** ** Effects and programs *)

(** The entries of the structured resume fields. *)
Record Education := {
  schoolName : option jstring;
  edu_duration : option jstring;
  edu_descriptions : option (list jstring) }.
Record Work := {
  company : option jstring;
  position : option jstring;
  work_duration : option jstring;
  work_descriptions : option (list jstring) }.
Record Project := {
  proj_name : option jstring;
  proj_duration : option jstring;
  proj_descriptions : option (list jstring) }.

(** The body of a [generatePdf] request, its fields at the types of the
    [txt_to_pdf] tool schema; an absent field is [None]. *)
Record PdfRequest := {
  name : option jstring; phone : option jstring; email : option jstring;
  summary : option jstring;
  education : option (list Education);
  workExperience : option (list Work);
  projectExperience : option (list Project);
  skills : option (list jstring);
  publications : option (list jstring);
  title : option jstring; pageSize : option jstring; margins : option jstring;
  fontFamily : option jstring; lineHeight : option number;
  headerHtml : option jstring; footerHtml : option jstring;
  pageNumbers : option bool;
  userId : option jstring; resumeId : option jstring; versionId : option jstring }.

(** A model prompt, by the call site and the data interpolated into its
    template; the fixed text of the templates is left out, and so is the
    rendering of the data ([JSON.stringify], [ToString]). *)
Inductive Prompt :=
| AnalysisPrompt (text : jstring)
| RegenPrompt (text : jstring) (previous : value) (userRating userComment : option value)
| PdfPrompt (req : PdfRequest) (resumeText : jstring).

(** A [node-fetch] response: [ok], and what [text()] and [json()] resolve to. *)
Record HttpResponse := {
  r_ok : bool;
  r_text : result jstring;
  r_json : result value }.

(** The operations a function awaits or calls on the outside, with the type
    of their answer.  [Doc coll id] is [collection(coll).doc(id)], which
    throws when [id] is not a string or not a valid document path. *)
Inductive eff : Type -> Type :=
| Log (l : level) (msg : jstring) (detail : list jstring) : eff unit
| Doc (coll : jstring) (id : option value) : eff (result jstring)
| GetAnalysis (id : jstring) : eff (result (option AnalysisDoc))
| GetFile (id : jstring) : eff (result (option FileDoc))
| BucketDownload (bucket : option jstring) (path : jstring) : eff (result buffer)
| PdfParse (b : buffer) : eff (result (option jstring))
| Generate (p : Prompt) : eff (result (option jstring))
| RunTransaction {A : Type} (t : tx A) : eff (result A)
| Now : eff jstring
| FetchPost (url : jstring) (payload : McpPayload) : eff (result HttpResponse)
| FetchBuffer (url : option value) : eff (result buffer)
| FileSave (path : jstring) (b : Blob) : eff (result unit).

Inductive prog (A : Type) : Type :=
| Ret (a : A)
| Throw (msg : jstring)
| Vis {X : Type} (e : eff X) (k : X -> prog A).
Arguments Ret {A} a.
Arguments Throw {A} msg.
Arguments Vis {A X} e k.

Fixpoint bind {A B} (p : prog A) (f : A -> prog B) : prog B :=
  match p with
  | Ret a => f a
  | Throw m => Throw m
  | Vis e k => Vis e (fun x => bind (k x) f)
  end.

(** [try { p } catch (error) { h error.message }] *)
Fixpoint try_catch {A} (p : prog A) (h : jstring -> prog A) : prog A :=
  match p with
  | Ret a => Ret a
  | Throw m => h m
  | Vis e k => Vis e (fun x => try_catch (k x) h)
  end.

(** An effect that cannot fail, and [await] of one that may reject. *)
Definition perform {X} (e : eff X) : prog X := Vis e Ret.

Definition await {X} (e : eff (result X)) : prog X :=
  Vis e (fun r => match r with Ok x => Ret x | Thrown m => Throw m end).

(** A synchronous operation that may throw. *)
Definition lift {X} (r : result X) : prog X :=
  match r with Ok x => Ret x | Thrown m => Throw m end.

Notation "x <- p ;; q" := (bind p (fun x => q))
  (at level 20, p at level 99, q at level 200, format "x  <-  p  ;;  '/' q").
Notation "p ;; q" := (bind p (fun _ => q))
  (at level 100, q at level 200, right associativity, format "p  ;;  '/' q").

(** ** The world: Firestore, the bucket, the log *)

Record Store := {
  files : gmap jstring FileDoc;
  analyses : gmap jstring AnalysisDoc;
  users : gmap jstring UserDoc;
  versions : gmap (jstring * jstring * jstring) VersionDoc }.

(** What a function did to the outside, in order. *)
Inductive event :=
| EvRead (coll id : jstring)
| EvDownload (path : jstring)
| EvPdfParse
| EvModel (p : Prompt)
| EvCommit (ws : list write)
| EvAbort (msg : jstring)
| EvNow
| EvFetchPost (url : jstring)
| EvFetchBuffer
| EvSave (path : jstring).

Record World := {
  w_store : Store;
  w_blobs : gmap jstring Blob;
  w_log : list LogEntry;
  w_trace : list event;
  w_clock : nat }.

(** The answers of the external services, by the time ([w_clock]) of the
    call: the model, Cloud Storage, [pdf-parse], the rendering service, the
    clock, the ids Firestore draws, and the failures Firestore may report
    (unavailability, contention after its retries, rejected data).
    [env_doc_path_ok] is the path validation of the Firestore client; a
    document is keyed by the string that names it. *)
Record Env := {
  env_doc_path_ok : jstring -> bool;
  env_read_fault : nat -> option jstring;
  env_tx_fault : nat -> option jstring;
  env_auto_id : nat -> nat -> jstring;
  env_download : nat -> option jstring -> jstring -> result buffer;
  env_pdfParse : nat -> buffer -> result (option jstring);
  env_model : nat -> Prompt -> result (option jstring);
  env_now : nat -> jstring;
  env_fetch_post : nat -> jstring -> McpPayload -> result HttpResponse;
  env_fetch_buffer : nat -> option value -> result buffer;
  env_save_fault : nat -> option jstring }.

Definition set_store (s : Store) (w : World) : World :=
  {| w_store := s; w_blobs := w_blobs w; w_log := w_log w;
     w_trace := w_trace w; w_clock := w_clock w |}.

Definition add_log (l : list LogEntry) (w : World) : World :=
  {| w_store := w_store w; w_blobs := w_blobs w; w_log := w_log w ++ l;
     w_trace := w_trace w; w_clock := w_clock w |}.

Definition add_event (e : event) (w : World) : World :=
  {| w_store := w_store w; w_blobs := w_blobs w; w_log := w_log w;
     w_trace := w_trace w ++ [e]; w_clock := S (w_clock w) |}.

Definition put_blob (path : jstring) (b : Blob) (w : World) : World :=
  {| w_store := w_store w; w_blobs := <[path := b]> (w_blobs w);
     w_log := w_log w; w_trace := w_trace w; w_clock := w_clock w |}.

(** One buffered write applied to the store; an [update] of a document that
    does not exist fails. *)
Definition apply_write (now : timestamp) (w : write) (s : Store) : option Store :=
  match w with
  | UpdateFile id n pos aid =>
      match files s !! id with
      | Some d =>
          let d' := {| f_owner := f_owner d; f_path := f_path d;
                       f_numAnalysis := Some n;
                       f_analysis := <[pos := aid]> (f_analysis d);
                       f_filename := f_filename d; f_type := f_type d;
                       f_lastUpdate := Some now;
                       f_uploadDate := f_uploadDate d |} in
          Some {| files := <[id := d']> (files s); analyses := analyses s;
                  users := users s; versions := versions s |}
      | None => None
      end
  | SetAnalysis id mk =>
      Some {| files := files s; analyses := <[id := mk now]> (analyses s);
              users := users s; versions := versions s |}
  | UpdateNextAnalysis id next =>
      match analyses s !! id with
      | Some d =>
          let d' := {| a_owner := a_owner d; a_fileID := a_fileID d;
                       a_content := a_content d;
                       a_generateTime := a_generateTime d;
                       a_model := a_model d; a_userRating := a_userRating d;
                       a_userComment := a_userComment d;
                       a_nextAnalysis := Some next |} in
          Some {| files := files s; analyses := <[id := d']> (analyses s);
                  users := users s; versions := versions s |}
      | None => None
      end
  | SetFile id mk =>
      Some {| files := <[id := mk now]> (files s); analyses := analyses s;
              users := users s; versions := versions s |}
  | UpdateUserFiles uid fid =>
      match users s !! uid with
      | Some u =>
          let fs := if bool_decide (fid ∈ u_files u) then u_files u
                    else u_files u ++ [fid] in
          Some {| files := files s; analyses := analyses s;
                  users := <[uid := {| u_files := fs |}]> (users s);
                  versions := versions s |}
      | None => None
      end
  | SetVersionMerge uid rid vid mk =>
      Some {| files := files s; analyses := analyses s; users := users s;
              versions := <[(uid, rid, vid) := mk now]> (versions s) |}
  end.

(** The buffered writes commit together or not at all. *)
Fixpoint commit (now : timestamp) (ws : list write) (s : Store) : option Store :=
  match ws with
  | [] => Some s
  | w :: r =>
      match apply_write now w s with
      | Some s' => commit now r s'
      | None => None
      end
  end.

(** The update function run against the store as the transaction sees it:
    its result, the writes it buffered and what it logged.  [n] counts the
    automatic ids drawn so far.  A read after a write is refused. *)
Fixpoint tx_run {A} (env : Env) (clock n : nat) (s : Store) (t : tx A)
    (ws : list write) (lg : list LogEntry)
  : result A * list write * list LogEntry :=
  match t with
  | TxRet a => (Ok a, ws, lg)
  | TxThrow m => (Thrown m, ws, lg)
  | TxLog l m k =>
      tx_run env clock n s k ws
        (lg ++ [{| lg_level := l; lg_msg := m; lg_detail := [] |}])
  | TxDoc coll id k =>
      if env_doc_path_ok env id then tx_run env clock n s (k id) ws lg
      else (Thrown (js "not a valid resource path"), ws, lg)
  | TxAutoId coll k => tx_run env clock (S n) s (k (env_auto_id env clock n)) ws lg
  | TxGetFile id k =>
      match ws with
      | [] => tx_run env clock n s (k (files s !! id)) ws lg
      | _ :: _ => (Thrown (js "reads must be executed before all writes"), ws, lg)
      end
  | TxWrite w k => tx_run env clock n s k (ws ++ [w]) lg
  end.

(** [runTransaction]: the update function runs in isolation against the
    current store and its writes are committed atomically; when it throws,
    when Firestore reports a failure or when an [update] finds no document,
    nothing is written and the promise rejects. *)
Definition run_transaction {A} (env : Env) (t : tx A) (w : World)
  : result A * World :=
  let '(r, ws, lg) := tx_run env (w_clock w) 0 (w_store w) t [] [] in
  let w1 := add_log lg w in
  match r with
  | Thrown m => (Thrown m, add_event (EvAbort m) w1)
  | Ok a =>
      match env_tx_fault env (w_clock w) with
      | Some m => (Thrown m, add_event (EvAbort m) w1)
      | None =>
          match commit (w_clock w) ws (w_store w) with
          | Some s' => (Ok a, add_event (EvCommit ws) (set_store s' w1))
          | None =>
              let m := js "NOT_FOUND: No document to update" in
              (Thrown m, add_event (EvAbort m) w1)
          end
      end
  end.

Definition read {A} (env : Env) (coll id : jstring) (x : option A) (w : World)
  : result (option A) * World :=
  (match env_read_fault env (w_clock w) with
   | Some m => Thrown m
   | None => Ok x
   end, add_event (EvRead coll id) w).

Definition handle (env : Env) {X} (e : eff X) (w : World) : X * World :=
  match e in eff X return X * World with
  | Log l m d =>
      (tt, add_log [{| lg_level := l; lg_msg := m; lg_detail := d |}] w)
  | Doc coll id =>
      (match id with
       | Some (VStr s) =>
           if env_doc_path_ok env s then Ok s
           else Thrown (js "not a valid resource path")
       | _ => Thrown (js "not a valid resource path")
       end, w)
  | GetAnalysis id => read env (js "analysis") id (analyses (w_store w) !! id) w
  | GetFile id => read env (js "file") id (files (w_store w) !! id) w
  | BucketDownload b path =>
      (env_download env (w_clock w) b path, add_event (EvDownload path) w)
  | PdfParse b => (env_pdfParse env (w_clock w) b, add_event EvPdfParse w)
  | Generate p => (env_model env (w_clock w) p, add_event (EvModel p) w)
  | RunTransaction t => run_transaction env t w
  | Now => (env_now env (w_clock w), add_event EvNow w)
  | FetchPost url payload =>
      (env_fetch_post env (w_clock w) url payload, add_event (EvFetchPost url) w)
  | FetchBuffer url =>
      (env_fetch_buffer env (w_clock w) url, add_event EvFetchBuffer w)
  | FileSave path b =>
      match env_save_fault env (w_clock w) with
      | Some m => (Thrown m, add_event (EvSave path) w)
      | None => (Ok tt, add_event (EvSave path) (put_blob path b w))
      end
  end.

(** A function run to completion, alone. *)
Fixpoint run {A} (env : Env) (p : prog A) (w : World) : result A * World :=
  match p with
  | Ret a => (Ok a, w)
  | Throw m => (Thrown m, w)
  | Vis e k => let '(x, w') := handle env e w in run env (k x) w'
  end.

(** Concurrent invocations: each [Vis] is one atomic step on the shared
    world, and a schedule names the invocation that moves next. *)
Definition step {A} (env : Env) (p : prog A) (w : World) : prog A * World :=
  match p with
  | Vis e k => let '(x, w') := handle env e w in (k x, w')
  | _ => (p, w)
  end.

Fixpoint run_schedule {A} (env : Env) (sched : list nat) (ps : list (prog A))
    (w : World) : list (prog A) * World :=
  match sched with
  | [] => (ps, w)
  | i :: sched' =>
      match ps !! i with
      | Some p =>
          let '(p', w') := step env p w in
          run_schedule env sched' (<[i := p']> ps) w'
      | None => run_schedule env sched' ps w
      end
  end.

(** The outcome of an invocation that has finished. *)
Definition outcome {A} (p : prog A) : option (result A) :=
  match p with
  | Ret a => Some (Ok a)
  | Throw m => Some (Thrown m)
  | Vis _ _ => None
  end.

(** ** The functions of [index.js] *)

Definition nl : jstring := [10].

Definition log (l : level) (msg : jstring) (detail : list jstring) : prog unit :=
  perform (Log l msg detail).

(** *** [analyzeResumeText] *)

(** The update function of the versioning transaction (lines 116-145): it
    reads the file document through the transaction and allocates the next
    position from what it read. *)
Definition analysis_tx (fileID fileRef : jstring) (parsed : value) : tx unit :=
  TxGetFile fileRef (fun fileDoc =>
    match fileDoc with
    | None =>
        TxLog Error (js "File document not found for fileID: " ++ fileID)
          (TxRet tt)
    | Some d =>
        let currentNumAnalysis := default 0%nat (f_numAnalysis d) in
        let newIdx := js_add1 currentNumAnalysis in
        let analysisID := fileID ++ js "-" ++ dec newIdx in
        TxWrite (UpdateFile fileRef newIdx newIdx analysisID)
          (TxDoc (js "analysis") analysisID (fun analysisRef =>
             TxWrite (SetAnalysis analysisRef (fun now =>
                        {| a_owner := or_str (f_owner d) [];
                           a_fileID := fileID;
                           a_content := parsed;
                           a_generateTime := now;
                           a_model := GENERATION_MODEL;
                           a_userRating := None;
                           a_userComment := None;
                           a_nextAnalysis := None |}))
               (TxRet tt)))
    end).

Definition analyzeResumeText (text fileID filePath : jstring) : prog value :=
  try_catch
    ((if (length (trim text) <? 100)%nat
      then log Warn (js "Resume text too short or empty.") []
      else Ret tt) ;;
     t <- await (Generate (AnalysisPrompt text)) ;;
     let raw := or_str t (js "{}") in
     let parsed := parse raw in
     fileRef <- await (Doc (js "file") (Some (VStr fileID))) ;;
     await (RunTransaction (analysis_tx fileID fileRef parsed)) ;;
     log Info (js "Analysis saved in Firestore for file") [fileID; filePath] ;;
     Ret parsed)
    (fun error =>
       log Error (js "analyzeResumeText error:") [error] ;;
       Throw error).

(** *** [onResumeUploaded] *)

Record StorageObject := {
  o_name : option jstring;
  o_bucket : option jstring;
  o_fileID : option jstring }.     (* object.metadata?.fileID *)

Definition ends_with (suffix s : jstring) : bool :=
  match strip_prefix (rev suffix) (rev s) with Some _ => true | None => false end.

Definition onResumeUploaded (object : StorageObject) : prog unit :=
  try_catch
    (let filePath := or_str (o_name object) [] in
     match filePath with
     | [] => log Warn (js "No object.name in event; exiting.") []
     | _ :: _ =>
         if negb (ends_with (js ".pdf") filePath) then
           log Debug (js "Skipping non-PDF file: " ++ filePath) []
         else if negb (nonempty (o_bucket object)) then
           log Error (js "Missing bucket in event data.") []
         else
           buffer <- await (BucketDownload (o_bucket object) filePath) ;;
           t <- await (PdfParse buffer) ;;
           let resumeText := or_str t [] in
           (if (length (trim resumeText) <? 100)%nat
            then log Warn (js "Resume text too short or empty.") []
            else Ret tt) ;;
           match o_fileID object with
           | Some (c :: s) =>
               analyzeResumeText resumeText (c :: s) filePath ;;
               Ret tt
           | _ => log Error (js "File ID not found in metadata.") []
           end
     end)
    (fun e =>
       log Error (js "onResumeUploaded error") [e] ;;
       Throw e).

(** *** HTTP responses *)

Record PdfResult := {
  pr_pdf_url : option value;
  pr_firebase_path : jstring;
  pr_gcs_uri : option value;
  pr_page_count : option value;
  pr_bytes : option value;
  pr_title : option value;
  pr_rendered_at : option value;
  pr_fileID : jstring }.

Inductive Payload :=
| ErrorBody (error : jstring) (detail : option jstring)
| NewAnalysisBody (newAnalysisID : jstring)
| PdfBody (success : bool) (r : PdfResult).

(** [res.status(status).send(payload)] *)
Record Response := { status : nat; payload : Payload }.

Definition send (st : nat) (p : Payload) : prog Response :=
  Ret {| status := st; payload := p |}.

Definition send_error (st : nat) (msg : string) : prog Response :=
  send st (ErrorBody (js msg) None).

(** *** [generateNewAnalysis] *)

(** The update function of lines 419-445: it performs no read; the position
    and the new id were computed before the transaction started, from the
    snapshot [fileDoc]. *)
Definition regen_tx (fileRef fileID : jstring) (fileDoc : FileDoc)
    (analysisID : jstring) (parsed : value) (newIndex : nat)
    (newAnalysisID : jstring) : tx unit :=
  TxWrite (UpdateFile fileRef newIndex newIndex newAnalysisID)
    (TxDoc (js "analysis") newAnalysisID (fun newAnalysisRef =>
       match f_owner fileDoc with
       | None => TxThrow (js "Cannot use undefined as a Firestore value")
       | Some owner =>
           TxWrite (SetAnalysis newAnalysisRef (fun now =>
                      {| a_owner := owner;
                         a_fileID := fileID;
                         a_content := parsed;
                         a_generateTime := now;
                         a_model := GENERATION_MODEL;
                         a_userRating := None;
                         a_userComment := None;
                         a_nextAnalysis := None |}))
             (TxDoc (js "analysis") analysisID (fun previousRef =>
                TxWrite (UpdateNextAnalysis previousRef newAnalysisID)
                  (TxRet tt)))
       end)).

(** [req.body] is [None] when there is no body. *)
Definition body_field (body : option value) (k : string) : result (option value) :=
  match body with
  | None => Thrown (js "Cannot destructure property of undefined")
  | Some v => prop v (js k)
  end.

Definition generateNewAnalysis (body : option value) : prog Response :=
  try_catch
    (fileID <- lift (body_field body "fileID") ;;
     analysisID <- lift (body_field body "analysisID") ;;
     userRating <- lift (body_field body "userRating") ;;
     userComment <- lift (body_field body "userComment") ;;
     if negb (truthy fileID) || negb (truthy analysisID)
        || negb (truthy userRating) || negb (truthy userComment)
     then send_error 400 "Missing required parameters."
     else
       analysisRef <- await (Doc (js "analysis") analysisID) ;;
       analysisDoc <- await (GetAnalysis analysisRef) ;;
       match analysisDoc with
       | None => send_error 404 "Analysis document not found."
       | Some analysisData =>
           fileRef <- await (Doc (js "file") fileID) ;;
           fileDoc <- await (GetFile fileRef) ;;
           match fileDoc with
           | None => send_error 404 "File document not found."
           | Some fd =>
               match f_path fd with
               | Some (c :: p) =>
                   let filePath := c :: p in
                   buffer <- await (BucketDownload None filePath) ;;
                   t <- await (PdfParse buffer) ;;
                   let text := or_str t [] in
                   r <- await (Generate (RegenPrompt text (a_content analysisData)
                                           userRating userComment)) ;;
                   let raw := or_str r (js "{}") in
                   let parsed := parse raw in
                   fileRef <- await (Doc (js "file") fileID) ;;
                   let numAnalysis := default 0%nat (f_numAnalysis fd) in
                   let newIndex := js_add1 numAnalysis in
                   let newAnalysisID := fileRef ++ js "-" ++ dec newIndex in
                   await (RunTransaction
                            (regen_tx fileRef fileRef fd analysisRef parsed
                               newIndex newAnalysisID)) ;;
                   send 200 (NewAnalysisBody newAnalysisID)
               | _ => send_error 400 "File path not found in document."
               end
           end
       end)
    (fun error =>
       log Console (js "Detailed error:") [error] ;;
       send 500 (ErrorBody error None)).

(** *** [generatePdf] *)

(** [if (o) text += f(o)] for a string field. *)
Definition when_set (o : option jstring) (f : jstring -> jstring) : jstring :=
  match o with Some (c :: s) => f (c :: s) | _ => [] end.

Definition bullets (descs : list jstring) : jstring :=
  concat ((fun desc => [8226; 32] ++ desc ++ nl) <$> descs).

(** [if (d && d.length > 0) d.forEach(...)] *)
Definition descriptions_text (d : option (list jstring)) : jstring :=
  match d with Some (x :: l) => bullets (x :: l) | _ => [] end.

Definition section {A} (heading : string) (entries : option (list A))
    (f : A -> jstring) : jstring :=
  match entries with
  | Some (x :: l) => js heading ++ nl ++ concat (f <$> (x :: l))
  | _ => []
  end.

(** Step 2: the resume text from the structured fields. *)
Definition format_resume (req : PdfRequest) : jstring :=
  when_set (name req) (fun n => n ++ nl)
  ++ when_set (phone req) (fun p => js "Phone: " ++ p ++ nl)
  ++ when_set (email req) (fun e => js "Email: " ++ e ++ nl ++ nl)
  ++ when_set (summary req) (fun s => js "SUMMARY" ++ nl ++ s ++ nl ++ nl)
  ++ section "EDUCATION" (education req) (fun edu =>
       or_str (schoolName edu) [] ++ js " - " ++ or_str (edu_duration edu) []
       ++ nl ++ descriptions_text (edu_descriptions edu) ++ nl)
  ++ section "WORK EXPERIENCE" (workExperience req) (fun work =>
       or_str (company work) [] ++ js " - " ++ or_str (position work) []
       ++ js " (" ++ or_str (work_duration work) [] ++ js ")"
       ++ nl ++ descriptions_text (work_descriptions work) ++ nl)
  ++ section "PROJECTS" (projectExperience req) (fun project =>
       or_str (proj_name project) [] ++ js " - "
       ++ or_str (proj_duration project) []
       ++ nl ++ descriptions_text (proj_descriptions project) ++ nl)
  ++ match skills req with
     | Some (x :: l) => js "SKILLS" ++ nl ++ join (js ", ") (x :: l) ++ nl ++ nl
     | _ => []
     end
  ++ match publications req with
     | Some (x :: l) => js "PUBLICATIONS" ++ nl ++ bullets (x :: l)
     | _ => []
     end.

(** Step 4: [now.toISOString()] with [:] and [.] replaced by [-], the first
    [T] by [-] and the first [Z] removed. *)
Definition file_timestamp (iso : jstring) : jstring :=
  replace_first "Z" []
    (replace_first "T" (js "-")
       (replace_all "." (js "-") (replace_all ":" (js "-") iso))).

Definition pdfServiceUrl : jstring :=
  js "https://mcp-server-636025066641.us-west1.run.app/".

(** A property of a value already known not to be [null]. *)
Definition get (v : value) (k : string) : option value :=
  match prop v (js k) with Ok o => o | Thrown _ => None end.

(** [x || null] *)
Definition or_null (o : option value) : value :=
  match o with
  | Some v => if truthy (Some v) then v else VNull
  | None => VNull
  end.

Definition mcp_payload (req : PdfRequest) (enhanced : option value)
    (resumeText pdfTitle : jstring) : McpPayload :=
  {| mp_text := match enhanced with
                | Some v => if truthy (Some v) then v else VStr resumeText
                | None => VStr resumeText
                end;
     mp_title := pdfTitle;
     mp_pageSize := or_str (pageSize req) (js "Letter");
     mp_margins := or_str (margins req) (js "36px");
     mp_fontFamily :=
       or_str (fontFamily req)
         (js "Inter, system-ui, -apple-system, Arial, sans-serif");
     mp_lineHeight :=
       match lineHeight req with
       | Some n => if number_is_zero n then Number false 15 (-1) else n
       | None => Number false 15 (-1)
       end;
     mp_headerHtml := or_str (headerHtml req) [];
     mp_footerHtml := or_str (footerHtml req) [];
     mp_pageNumbers :=
       match pageNumbers req with Some false => false | _ => true end |}.

(** The metadata transaction (lines 712-757); it returns the id of the new
    file document.  A field that is [undefined] is refused by Firestore. *)
Definition metadata_tx (req : PdfRequest) (uid pdfTitle filePath : jstring)
    (pdfData : value) (mcpPayload : McpPayload) : tx jstring :=
  TxAutoId (js "file") (fun fileID =>
    TxWrite (SetFile fileID (fun now =>
               {| f_owner := Some uid;
                  f_path := Some filePath;
                  f_numAnalysis := Some 0%nat;
                  f_analysis := ∅;
                  f_filename := Some pdfTitle;
                  f_type := Some (js "Generated");
                  f_lastUpdate := Some now;
                  f_uploadDate := Some now |}))
      (TxDoc (js "user") uid (fun userRef =>
         TxWrite (UpdateUserFiles userRef fileID)
           (if nonempty (resumeId req) && nonempty (versionId req) then
              TxDoc (js "users") uid (fun u =>
                TxDoc (js "resumes") (or_str (resumeId req) []) (fun r =>
                  TxDoc (js "versions") (or_str (versionId req) []) (fun v =>
                    match get pdfData "pdf_url", get pdfData "gcs_uri",
                          get pdfData "title" with
                    | Some pdf_url, Some gcs_uri, Some ttl =>
                        TxWrite (SetVersionMerge u r v (fun now =>
                                   {| v_pdf_url := pdf_url;
                                      v_gcs_uri := gcs_uri;
                                      v_firebase_path := filePath;
                                      v_fileID := fileID;
                                      v_generated_at := now;
                                      v_page_count := or_null (get pdfData "page_count");
                                      v_bytes := or_null (get pdfData "bytes");
                                      v_title := ttl;
                                      v_generation_params := mcpPayload |}))
                          (TxRet fileID)
                    | _, _, _ =>
                        TxThrow (js "Cannot use undefined as a Firestore value")
                    end)))
            else TxRet fileID)))).

Definition generatePdf (req : PdfRequest) : prog Response :=
  try_catch
    (if negb (nonempty (userId req))
        || (negb (nonempty (name req)) && negb (nonempty (summary req)))
     then send_error 400
            "Missing required parameters: userId and resume content (name or summary)."
     else
       let uid := or_str (userId req) [] in
       let resumeText := format_resume req in
       r <- await (Generate (PdfPrompt req resumeText)) ;;
       let raw := or_str r (js "{}") in
       let aiResponse := parse raw in
       iso <- perform Now ;;
       let timestamp := file_timestamp iso in
       let pdfTitle := or_str (title req) (js "Resume") in
       let fileName := pdfTitle ++ js "-" ++ timestamp ++ js ".pdf" in
       let filePath := uid ++ js "/" ++ fileName in
       enhanced <- lift (prop aiResponse (js "enhanced_text")) ;;
       let mcpPayload := mcp_payload req enhanced resumeText pdfTitle in
       pdfResponse <- await (FetchPost pdfServiceUrl mcpPayload) ;;
       if negb (r_ok pdfResponse) then
         errorText <- lift (r_text pdfResponse) ;;
         log Error (js "PDF generation failed") [errorText] ;;
         send 500 (ErrorBody (js "PDF generation failed") (Some errorText))
       else
         pdfData <- lift (r_json pdfResponse) ;;
         pdf_url <- lift (prop pdfData (js "pdf_url")) ;;
         pdfBuffer <- await (FetchBuffer pdf_url) ;;
         await (FileSave filePath
                  {| b_data := pdfBuffer; b_owner := uid;
                     b_originalTitle := pdfTitle; b_generatedAt := iso |}) ;;
         log Info (js "PDF saved to Firebase Storage: " ++ filePath) [] ;;
         fileID <- await (RunTransaction
                            (metadata_tx req uid pdfTitle filePath pdfData
                               mcpPayload)) ;;
         try_catch
           (analyzeResumeText resumeText fileID filePath ;;
            log Info (js "Analysis completed for generated resume") [fileID])
           (fun analysisError =>
              log Error (js "Failed to analyze generated resume:") [analysisError]) ;;
         send 200 (PdfBody true
                     {| pr_pdf_url := get pdfData "pdf_url";
                        pr_firebase_path := filePath;
                        pr_gcs_uri := get pdfData "gcs_uri";
                        pr_page_count := get pdfData "page_count";
                        pr_bytes := get pdfData "bytes";
                        pr_title := get pdfData "title";
                        pr_rendered_at := get pdfData "rendered_at";
                        pr_fileID := fileID |}))
    (fun error =>
       log Error (js "generatePdf error:") [error] ;;
       send 500 (ErrorBody error None)).

(** ** Data of the examples and abbreviations of the statements *)

(** The text of a JSON object whose only member is [rawText]. *)
Definition raw_text_json : jstring :=
  js "{" ++ quoted (js "rawText") ++ js ":" ++ quoted (js "not json") ++ js "}".

Definition decodes (raw : jstring) : bool :=
  match JSON_parse raw with Ok _ => true | Thrown _ => false end.

Definition missing_parameters : Response :=
  {| status := 400;
     payload := ErrorBody (js "Missing required parameters.") None |}.

Definition request (fileID analysisID : jstring) (userRating userComment : value)
  : option value :=
  Some (VObj (<[js "fileID" := VStr fileID]>
             (<[js "analysisID" := VStr analysisID]>
             (<[js "userRating" := userRating]>
             {[ js "userComment" := userComment ]})))).

Definition rendering_failed (errorText : jstring) : Response :=
  {| status := 500;
     payload := ErrorBody (js "PDF generation failed") (Some errorText) |}.

Definition analysis_error (e : jstring) : LogEntry :=
  {| lg_level := Error; lg_msg := js "analyzeResumeText error:";
     lg_detail := [e] |}.

Definition analysis_saved (fileID filePath : jstring) : LogEntry :=
  {| lg_level := Info; lg_msg := js "Analysis saved in Firestore for file";
     lg_detail := [fileID; filePath] |}.

Definition analysis_failed (e : jstring) : LogEntry :=
  {| lg_level := Error; lg_msg := js "Failed to analyze generated resume:";
     lg_detail := [e] |}.

(** The world after the length check at the head of [analyzeResumeText]. *)
Definition warn_short (text : jstring) (w : World) : World :=
  if (length (trim text) <? 100)%nat
  then add_log [{| lg_level := Warn;
                   lg_msg := js "Resume text too short or empty.";
                   lg_detail := [] |}] w
  else w.

(** The title, the storage path and the success payload of a [generatePdf]
    run, as the function computes them. *)
Definition pdf_title (req : PdfRequest) : jstring := or_str (title req) (js "Resume").

Definition pdf_path (req : PdfRequest) (iso : jstring) : jstring :=
  or_str (userId req) [] ++ js "/"
  ++ (pdf_title req ++ js "-" ++ file_timestamp iso ++ js ".pdf").

Definition pdf_blob (req : PdfRequest) (iso : jstring) (data : buffer) : Blob :=
  {| b_data := data; b_owner := or_str (userId req) [];
     b_originalTitle := pdf_title req; b_generatedAt := iso |}.

Definition pdf_saved (req : PdfRequest) (iso : jstring) : LogEntry :=
  {| lg_level := Info;
     lg_msg := js "PDF saved to Firebase Storage: " ++ pdf_path req iso;
     lg_detail := [] |}.

Definition pdf_success (req : PdfRequest) (iso : jstring) (pdfData : value)
    (fileID : jstring) : Response :=
  {| status := 200;
     payload := PdfBody true
       {| pr_pdf_url := get pdfData "pdf_url";
          pr_firebase_path := pdf_path req iso;
          pr_gcs_uri := get pdfData "gcs_uri";
          pr_page_count := get pdfData "page_count";
          pr_bytes := get pdfData "bytes";
          pr_title := get pdfData "title";
          pr_rendered_at := get pdfData "rendered_at";
          pr_fileID := fileID |} |}.

(** *** A sample environment and sample worlds *)

Definition pdf_data : value :=
  VObj (<[js "pdf_url" := VStr (js "https://pdf/1")]>
       (<[js "gcs_uri" := VStr (js "gs://pdf/1")]>
       {[ js "title" := VStr (js "Resume") ]})).

(** Every service answers; the model returns [{"summary":"x"}]. *)
Definition env_ok : Env :=
  {| env_doc_path_ok := fun s => match s with [] => false | _ => true end;
     env_read_fault := fun _ => None;
     env_tx_fault := fun _ => None;
     env_auto_id := fun c n => js "auto" ++ dec c ++ js "x" ++ dec n;
     env_download := fun _ _ _ => Ok (js "%PDF");
     env_pdfParse := fun _ _ => Ok (Some (js "Jane Doe, engineer"));
     env_model := fun _ _ => Ok (Some summary_json);
     env_now := fun _ => js "2025-01-02T03:04:05.678Z";
     env_fetch_post := fun _ _ _ =>
       Ok {| r_ok := true; r_text := Ok (js "{}"); r_json := Ok pdf_data |};
     env_fetch_buffer := fun _ _ => Ok (js "%PDF");
     env_save_fault := fun _ => None |}.

(** As [env_ok], but the rendering service answers 502 with body [boom]. *)
Definition env_render_fails : Env :=
  {| env_doc_path_ok := env_doc_path_ok env_ok;
     env_read_fault := env_read_fault env_ok;
     env_tx_fault := env_tx_fault env_ok;
     env_auto_id := env_auto_id env_ok;
     env_download := env_download env_ok;
     env_pdfParse := env_pdfParse env_ok;
     env_model := env_model env_ok;
     env_now := env_now env_ok;
     env_fetch_post := fun _ _ _ =>
       Ok {| r_ok := false; r_text := Ok (js "boom");
             r_json := Thrown (js "invalid json") |};
     env_fetch_buffer := env_fetch_buffer env_ok;
     env_save_fault := env_save_fault env_ok |}.

(** As [env_ok], but the model is unavailable for analysis prompts. *)
Definition env_analysis_fails : Env :=
  {| env_doc_path_ok := env_doc_path_ok env_ok;
     env_read_fault := env_read_fault env_ok;
     env_tx_fault := env_tx_fault env_ok;
     env_auto_id := env_auto_id env_ok;
     env_download := env_download env_ok;
     env_pdfParse := env_pdfParse env_ok;
     env_model := fun _ p =>
       match p with
       | AnalysisPrompt _ => Thrown (js "model unavailable")
       | _ => Ok (Some summary_json)
       end;
     env_now := env_now env_ok;
     env_fetch_post := env_fetch_post env_ok;
     env_fetch_buffer := env_fetch_buffer env_ok;
     env_save_fault := env_save_fault env_ok |}.

Definition empty_store : Store :=
  {| files := ∅; analyses := ∅; users := ∅; versions := ∅ |}.

Definition world_of (s : Store) : World :=
  {| w_store := s; w_blobs := ∅; w_log := []; w_trace := []; w_clock := 0 |}.

(** A store with the user [u1] and nothing else. *)
Definition store_user : Store :=
  {| files := ∅; analyses := ∅;
     users := {[ js "u1" := {| u_files := [] |} ]}; versions := ∅ |}.

Definition pdf_request : PdfRequest :=
  {| name := Some (js "Jane Doe"); phone := None; email := None;
     summary := Some (js "Engineer");
     education := None; workExperience := None; projectExperience := None;
     skills := Some [js "Rocq"; js "JavaScript"]; publications := None;
     title := None; pageSize := None; margins := None; fontFamily := None;
     lineHeight := None; headerHtml := None; footerHtml := None;
     pageNumbers := None;
     userId := Some (js "u1"); resumeId := None; versionId := None |}.

(** Whether a buffered write touches the collection [analysis]. *)
Definition writes_analysis (w : write) : bool :=
  match w with
  | SetAnalysis _ _ | UpdateNextAnalysis _ _ => true
  | _ => false
  end.

Definition file_not_found (fileID : jstring) : LogEntry :=
  {| lg_level := Error;
     lg_msg := js "File document not found for fileID: " ++ fileID;
     lg_detail := [] |}.

(** The id [generateNewAnalysis] and [analyzeResumeText] derive for the
    next analysis of a file document. *)
Definition next_index (fd : FileDoc) : nat :=
  js_add1 (default 0%nat (f_numAnalysis fd)).

Definition next_id (fileID : jstring) (fd : FileDoc) : jstring :=
  fileID ++ js "-" ++ dec (next_index fd).

Definition new_analysis (fileID : jstring) (fd : FileDoc) : Response :=
  {| status := 200; payload := NewAnalysisBody (next_id fileID fd) |}.

(** [id] is not the id derived for the next analysis of the file document
    [fd], whose count is below [2^53]. *)
Definition spares (fileID : jstring) (fd : FileDoc) (id : jstring) : Prop :=
  safe_count (default 0%nat (f_numAnalysis fd))
  /\ id <> fileID ++ js "-" ++ dec (S (default 0%nat (f_numAnalysis fd))).

(** The Analysis record both transactions create. *)
Definition analysis_record (owner fileID : jstring) (parsed : value)
    (now : timestamp) : AnalysisDoc :=
  {| a_owner := owner; a_fileID := fileID; a_content := parsed;
     a_generateTime := now; a_model := GENERATION_MODEL;
     a_userRating := None; a_userComment := None; a_nextAnalysis := None |}.

(** A file document [f] of user [u1] with [n] analyses listed in [index]. *)
Definition sample_file (n : nat) (index : gmap nat jstring) : FileDoc :=
  {| f_owner := Some (js "u1"); f_path := Some (js "u1/cv.pdf");
     f_numAnalysis := Some n; f_analysis := index;
     f_filename := Some (js "cv.pdf"); f_type := Some (js "Uploaded");
     f_lastUpdate := Some 0%nat; f_uploadDate := Some 0%nat |}.

Definition sample_analysis (next : option jstring) : AnalysisDoc :=
  {| a_owner := js "u1"; a_fileID := js "f"; a_content := VObj ∅;
     a_generateTime := 0%nat; a_model := GENERATION_MODEL;
     a_userRating := None; a_userComment := None; a_nextAnalysis := next |}.

(** A chain of length 1: [f-1] is the head. *)
Definition store_chain1 : Store :=
  {| files := {[ js "f" := sample_file 1 {[ 1%nat := js "f-1" ]} ]};
     analyses := {[ js "f-1" := sample_analysis None ]};
     users := ∅; versions := ∅ |}.

(** A chain of length 2: [f-1] points to [f-2], the head. *)
Definition store_chain2 : Store :=
  {| files := {[ js "f" := sample_file 2 (<[2%nat := js "f-2"]> {[ 1%nat := js "f-1" ]}) ]};
     analyses := <[js "f-2" := sample_analysis None]>
                   {[ js "f-1" := sample_analysis (Some (js "f-2")) ]};
     users := ∅; versions := ∅ |}.

(** A store in which a record already exists under the id derived next: the
    count of [f] is 1 and a record [f-2] is stored, pointing to [f-3]. *)
Definition store_stale : Store :=
  {| files := {[ js "f" := sample_file 1 {[ 1%nat := js "f-1" ]} ]};
     analyses := <[js "f-2" := sample_analysis (Some (js "f-3"))]>
                   {[ js "f-1" := sample_analysis (Some (js "f-2")) ]};
     users := ∅; versions := ∅ |}.

(** A regeneration request naming [f-1] as the predecessor. *)
Definition regen_request : option value :=
  request (js "f") (js "f-1") (VNum (Number false 4 0)) (VStr (js "more detail")).

(** *** Postconditions of runs *)

(** [Q] holds of the outcome of [p] run from [w]. *)
Definition wp {A} (env : Env) (p : prog A) (Q : result A -> World -> Prop)
    (w : World) : Prop :=
  Q (run env p w).1 (run env p w).2.

(** What a run of [generateNewAnalysis] from [w] can have done to the store:
    nothing, and then the answer is not 200, or exactly the commit of its
    transaction, built from the snapshot [fd] of the file document read
    from the store of [w]. *)
Definition regen_writes (env : Env) (body : option value) (w : World)
    (r : result Response) (w' : World) : Prop :=
  (w_store w' = w_store w /\ forall resp, r = Ok resp -> status resp <> 200%nat)
  \/ exists fid aid fd parsed w5,
       body_field body "fileID" = Ok (Some (VStr fid))
       /\ body_field body "analysisID" = Ok (Some (VStr aid))
       /\ files (w_store w) !! fid = Some fd
       /\ is_Some (analyses (w_store w) !! aid)
       /\ w_store w5 = w_store w
       /\ run_transaction env
            (regen_tx fid fid fd aid parsed (next_index fd) (next_id fid fd)) w5
          = (Ok tt, w')
       /\ r = Ok (new_analysis fid fd).

(** A regeneration request naming [f-2] as the predecessor. *)
Definition regen_request_head : option value :=
  request (js "f") (js "f-2") (VNum (Number false 5 0)) (VStr (js "shorter")).

(** Both invocations run up to their transaction (eight effects each: two
    reads, the download, the text extraction, the model call and the three
    document references), then both commit. *)
Definition lost_update_schedule : list nat :=
  replicate 8 0%nat ++ replicate 8 1%nat ++ [0%nat; 1%nat].

Definition is_commit (e : event) : bool :=
  match e with EvCommit _ => true | _ => false end.

Definition commits (w : World) : nat := length (filter (fun e => is_commit e = true) (w_trace w)).

(** Two regeneration requests for the same file, from different reviews. *)
Definition regen_request_2 : option value :=
  request (js "f") (js "f-1") (VNum (Number false 2 0)) (VStr (js "too long")).

(** *** Concurrent appends through [analyzeResumeText] *)

(** The store after one append to the file document [fileID], whose current
    record is [fd]: the writes of [analysis_tx] applied at time [now]. *)
Definition appended_store (fileID : jstring) (fd : FileDoc)
    (mk : timestamp -> AnalysisDoc) (now : timestamp) (s : Store) : Store :=
  {| files := <[fileID :=
                 {| f_owner := f_owner fd; f_path := f_path fd;
                    f_numAnalysis := Some (next_index fd);
                    f_analysis := <[next_index fd := next_id fileID fd]> (f_analysis fd);
                    f_filename := f_filename fd; f_type := f_type fd;
                    f_lastUpdate := Some now;
                    f_uploadDate := f_uploadDate fd |}]> (files s);
     analyses := <[next_id fileID fd := mk now]> (analyses s);
     users := users s; versions := versions s |}.

(** The positions written to the index by the commits of a trace. *)
Definition positions_of (ev : event) : list nat :=
  match ev with
  | EvCommit ws =>
      flat_map (fun w => match w with
                         | UpdateFile _ _ pos _ => [pos]
                         | _ => []
                         end) ws
  | _ => []
  end.

Definition allocated (w : World) : list nat := flat_map positions_of (w_trace w).

(** One step of an invocation appended one analysis to [fileID]. *)
Definition appended (fileID : jstring) (w w' : World) : Prop :=
  exists fd mk,
    files (w_store w) !! fileID = Some fd
    /\ w_store w' = appended_store fileID fd mk (w_clock w) (w_store w)
    /\ allocated w' = allocated w ++ [next_index fd].

(** [will fileID b p]: whenever the file document exists, every step of [p]
    either leaves the store and the commits of the trace alone, or is the one
    step that appends an analysis; [b] tells whether the append has already
    happened, and [p] returns only after it has. *)
Fixpoint will (fileID : jstring) (b : bool) (p : prog value) : Prop :=
  match p with
  | Ret _ => b = true
  | Throw _ => True
  | Vis e k =>
      forall env w, is_Some (files (w_store w) !! fileID) ->
        (w_store (handle env e w).2 = w_store w
         /\ allocated (handle env e w).2 = allocated w
         /\ will fileID b (k (handle env e w).1))
        \/ (b = false /\ appended fileID w (handle env e w).2
            /\ will fileID true (k (handle env e w).1))
  end.

(** The number of invocations that have appended. *)
Fixpoint done (bs : list bool) : nat :=
  match bs with
  | [] => 0%nat
  | b :: bs' => ((if b then 1 else 0) + done bs')%nat
  end.

(** The invariant of a schedule of invocations for the file [fileID] that
    started at count [n0] with the allocations [base]; the count stays
    below [2^53] when all have appended. *)
Definition append_inv (fileID : jstring) (n0 : nat) (base : list nat)
    (bs : list bool) (ps : list (prog value)) (w : World) : Prop :=
  Forall2 (will fileID) bs ps
  /\ safe_count (n0 + length bs)
  /\ exists fd,
       files (w_store w) !! fileID = Some fd
       /\ default 0%nat (f_numAnalysis fd) = (n0 + done bs)%nat
       /\ allocated w = base ++ seq (S n0) (done bs)
       /\ forall j, (n0 < j <= n0 + done bs)%nat ->
            f_analysis fd !! j = Some (fileID ++ js "-" ++ dec j)
            /\ is_Some (analyses (w_store w) !! (fileID ++ js "-" ++ dec j)).

(** *** Further abbreviations of the statements *)

Definition upload_error (e : jstring) : LogEntry :=
  {| lg_level := Error; lg_msg := js "onResumeUploaded error"; lg_detail := [e] |}.

Definition no_file_id : LogEntry :=
  {| lg_level := Error; lg_msg := js "File ID not found in metadata.";
     lg_detail := [] |}.

(** The provenance chain of the file document [fileID] with [n] analyses:
    the index names the ids [fileID-1 .. fileID-n] at the positions
    [1 .. n], each id names a record of this file, each record but the last
    points to the next one and the last points to nothing. *)
Definition chain (s : Store) (fileID : jstring) (n : nat) : Prop :=
  exists fd,
    files s !! fileID = Some fd
    /\ default 0%nat (f_numAnalysis fd) = n
    /\ forall k, (1 <= k <= n)%nat ->
         f_analysis fd !! k = Some (fileID ++ js "-" ++ dec k)
         /\ exists d,
              analyses s !! (fileID ++ js "-" ++ dec k) = Some d
              /\ a_fileID d = fileID
              /\ a_nextAnalysis d
                 = if (k <? n)%nat then Some (fileID ++ js "-" ++ dec (S k))
                   else None.

(** The validation of [generatePdf] (line 470). *)
Definition pdf_request_invalid (req : PdfRequest) : bool :=
  negb (nonempty (userId req))
  || (negb (nonempty (name req)) && negb (nonempty (summary req))).

Definition pdf_missing_parameters : Response :=
  {| status := 400;
     payload := ErrorBody
       (js "Missing required parameters: userId and resume content (name or summary).")
       None |}.

(** [arrayUnion(fileID)] applied to the [files] of a user document. *)
Definition array_union (fileID : jstring) (u : UserDoc) : UserDoc :=
  {| u_files := if bool_decide (fileID ∈ u_files u) then u_files u
                else u_files u ++ [fileID] |}.

(** The file document the metadata transaction of [generatePdf] creates. *)
Definition generated_file (uid pdfTitle filePath : jstring) (now : timestamp)
  : FileDoc :=
  {| f_owner := Some uid; f_path := Some filePath; f_numAnalysis := Some 0%nat;
     f_analysis := ∅; f_filename := Some pdfTitle;
     f_type := Some (js "Generated");
     f_lastUpdate := Some now; f_uploadDate := Some now |}.

(** The outcome of a run of [generatePdf]. *)
Definition pdf_outcome (req : PdfRequest) (w : World) (r : result Response)
    (w' : World) : Prop :=
  exists resp,
    r = Ok resp
    /\ ((resp = pdf_missing_parameters /\ w' = w /\ pdf_request_invalid req = true)
        \/ (status resp = 500%nat /\ w_store w' = w_store w
            /\ pdf_request_invalid req = false)
        \/ (status resp = 200%nat /\ pdf_request_invalid req = false
            /\ exists res fd u b,
                 payload resp = PdfBody true res
                 /\ files (w_store w') !! pr_fileID res = Some fd
                 /\ f_owner fd = userId req
                 /\ f_path fd = Some (pr_firebase_path res)
                 /\ f_filename fd = Some (pdf_title req)
                 /\ f_type fd = Some (js "Generated")
                 /\ users (w_store w') !! or_str (userId req) [] = Some u
                 /\ pr_fileID res ∈ u_files u
                 /\ w_blobs w' !! pr_firebase_path res = Some b
                 /\ Some (b_owner b) = userId req)).

(** The storage event of an object saved by [generatePdf]: the custom
    metadata written at lines 651-657 holds [owner], [originalTitle] and
    [generatedAt], and no [fileID]. *)
Definition finalized (bucket path : jstring) (b : Blob) : StorageObject :=
  {| o_name := Some path; o_bucket := Some bucket; o_fileID := None |}.

(** * Properties *)

(** ** Running programs *)

Lemma run_vis {A X} env (e : eff X) (k : X -> prog A) w :
  run env (Vis e k) w = let '(x, w') := handle env e w in run env (k x) w'.
Proof. reflexivity. Qed.

Lemma run_bind {A B} env (p : prog A) (f : A -> prog B) w :
  run env (bind p f) w =
  match run env p w with
  | (Ok a, w') => run env (f a) w'
  | (Thrown m, w') => (Thrown m, w')
  end.
Proof.
  revert w. induction p as [a | m | X e k IH]; intros w; simpl; try reflexivity.
  destruct (handle env e w) as [x w']. apply IH.
Qed.

Lemma run_try_catch {A} env (p : prog A) (h : jstring -> prog A) w :
  run env (try_catch p h) w =
  match run env p w with
  | (Ok a, w') => (Ok a, w')
  | (Thrown m, w') => run env (h m) w'
  end.
Proof.
  revert w. induction p as [a | m | X e k IH]; intros w; simpl; try reflexivity.
  destruct (handle env e w) as [x w']. apply IH.
Qed.

Lemma run_await {X} env (e : eff (result X)) w :
  run env (await e) w = handle env e w.
Proof.
  unfold await. rewrite run_vis. destruct (handle env e w) as [[x | m] w']; reflexivity.
Qed.

(** ** Counts

    Below [2^53] the sum [n + 1] is exact; at [2^53] it is [2^53] again. *)

Lemma to_double_safe x : x < 2 ^ 53 -> to_double x = x.
Proof. intros H. unfold to_double. apply N.ltb_lt in H. by rewrite H. Qed.

Lemma js_add1_safe n : safe_count n -> js_add1 n = S n.
Proof.
  unfold safe_count, js_add1. intros H. rewrite (to_double_safe _ H).
  destruct (N.eq_dec (N.of_nat n + 1) (2 ^ 53)) as [E | E].
  - rewrite E.
    assert (Hd : to_double (2 ^ 53) = 2 ^ 53) by (vm_compute; reflexivity).
    rewrite Hd, <- E. lia.
  - rewrite to_double_safe by lia. lia.
Qed.

Lemma js_add1_saturates n : N.of_nat n = 2 ^ 53 -> js_add1 n = n.
Proof.
  intros H. unfold js_add1. rewrite H.
  assert (Hd : to_double (to_double (2 ^ 53) + 1) = 2 ^ 53)
    by (vm_compute; reflexivity).
  rewrite Hd, <- H. apply Nat2N.id.
Qed.

Lemma next_index_safe fd :
  safe_count (default 0%nat (f_numAnalysis fd)) ->
  next_index fd = S (default 0%nat (f_numAnalysis fd)).
Proof. apply js_add1_safe. Qed.

Lemma next_id_safe fileID fd :
  safe_count (default 0%nat (f_numAnalysis fd)) ->
  next_id fileID fd = fileID ++ js "-" ++ dec (S (default 0%nat (f_numAnalysis fd))).
Proof. intros H. unfold next_id. by rewrite next_index_safe. Qed.

(** ** The model output parser *)

Example parse_summary :
  parse summary_json = VObj {[ js "summary" := VStr (js "x") ]}.
Proof. vm_compute. reflexivity. Qed.

Example parse_not_json :
  parse (js "not json") = VObj {[ js "rawText" := VStr (js "not json") ]}.
Proof. vm_compute. reflexivity. Qed.

(** *** The fuel of the JSON parser is enough *)

Lemma skip_ws_length s : (length (skip_ws s) <= length s)%nat.
Proof.
  induction s as [| c r IH]; cbn; [lia |]. destruct (is_ws c); cbn; lia.
Qed.

Lemma strip_prefix_length p s r :
  strip_prefix p s = Some r -> (length r <= length s)%nat.
Proof.
  revert s. induction p as [| a p IH]; intros [| b s]; cbn; try discriminate.
  - intros [= <-]. cbn. lia.
  - intros [= <-]. cbn. lia.
  - destruct (a =? b); [| discriminate]. intros H%IH. lia.
Qed.

Lemma take_digits_length s :
  (length (take_digits s).2 <= length s)%nat.
Proof.
  induction s as [| c r IH]; cbn; [lia |].
  destruct (digit_of c); [| cbn; lia].
  destruct (take_digits r) as [ds rest]. cbn in *. lia.
Qed.

Lemma lex_int_length s ds r :
  lex_int s = Some (ds, r) -> (length r < length s)%nat.
Proof.
  destruct s as [| c s]; cbn -[take_digits]; [discriminate |].
  destruct (c =? 48).
  - intros [= _ <-]. lia.
  - pose proof (take_digits_length (c :: s)) as Hl.
    cbn in *. destruct (digit_of c).
    + destruct (take_digits s) as [ds' rest] eqn:Ht.
      pose proof (take_digits_length s) as Hl'. rewrite Ht in Hl'.
      intros [= _ <-]. cbn in *. lia.
    + discriminate.
Qed.

Lemma lex_frac_length s ds r :
  lex_frac s = Some (ds, r) -> (length r <= length s)%nat.
Proof.
  destruct s as [| c s]; cbn -[take_digits].
  - intros [= _ <-]. cbn. lia.
  - destruct (isc c ".").
    + pose proof (take_digits_length s) as Hl.
      destruct (take_digits s) as [[| d ds'] rest]; [discriminate |].
      intros [= _ <-]. cbn in *. lia.
    + intros [= _ <-]. cbn. lia.
Qed.

Lemma lex_exp_length s e r :
  lex_exp s = Some (e, r) -> (length r <= length s)%nat.
Proof.
  destruct s as [| c s]; cbn -[take_digits].
  - intros [= _ <-]. cbn. lia.
  - destruct (isc c "e" || isc c "E"); [| intros [= _ <-]; cbn; lia].
    match goal with
    | |- (let '(neg, r') := ?sg in _) = _ -> _ =>
        assert (Hsg : (length sg.2 <= length s)%nat);
        [| destruct sg as [neg r'] ]
    end.
    { destruct s as [| sg s1]; [cbn; lia |].
      destruct (isc sg "-"); [cbn; lia |]. destruct (isc sg "+"); cbn; lia. }
    pose proof (take_digits_length r') as Hl.
    destruct (take_digits r') as [[| d ds] rest]; [discriminate |].
    intros [= _ <-]. cbn in *. lia.
Qed.

Lemma lex_number_length s n r :
  lex_number s = Some (n, r) -> (length r < length s)%nat.
Proof.
  unfold lex_number.
  assert (H1 : forall s1, (length s1 <= length s)%nat ->
             match lex_int s1 with
             | Some (ids, s2) =>
                 match lex_frac s2 with
                 | Some (fds, s3) =>
                     match lex_exp s3 with
                     | Some (e, s4) => (length s4 < length s)%nat
                     | None => True
                     end
                 | None => True
                 end
             | None => True
             end).
  { intros s1 Hs1. destruct (lex_int s1) as [[ids s2] |] eqn:Hi; [| exact I].
    apply lex_int_length in Hi.
    destruct (lex_frac s2) as [[fds s3] |] eqn:Hf; [| exact I].
    apply lex_frac_length in Hf.
    destruct (lex_exp s3) as [[e s4] |] eqn:He; [| exact I].
    apply lex_exp_length in He. lia. }
  destruct s as [| c s'].
  - specialize (H1 [] ltac:(lia)).
    destruct (lex_int []) as [[ids s2] |]; [| discriminate].
    destruct (lex_frac s2) as [[fds s3] |]; [| discriminate].
    destruct (lex_exp s3) as [[e s4] |]; [| discriminate].
    intros [= _ <-]. exact H1.
  - destruct (isc c "-").
    + specialize (H1 s' ltac:(cbn; lia)).
      destruct (lex_int s') as [[ids s2] |]; [| discriminate].
      destruct (lex_frac s2) as [[fds s3] |]; [| discriminate].
      destruct (lex_exp s3) as [[e s4] |]; [| discriminate].
      intros [= _ <-]. exact H1.
    + specialize (H1 (c :: s') ltac:(lia)).
      destruct (lex_int (c :: s')) as [[ids s2] |]; [| discriminate].
      destruct (lex_frac s2) as [[fds s3] |]; [| discriminate].
      destruct (lex_exp s3) as [[e s4] |]; [| discriminate].
      intros [= _ <-]. exact H1.
Qed.

Lemma lex_string_length n : forall s acc str r,
  (length s <= n)%nat -> lex_string s acc = Some (str, r) ->
  (length r < length s)%nat.
Proof.
  induction n as [| n IH]; intros [| c s] acc str r Hn; cbn [lex_string];
    try discriminate; cbn [length] in Hn; [lia |].
  intros H.
  repeat (case_match; try discriminate);
    try (injection H as _ <-; subst; cbn [length]; lia);
    subst; apply IH in H; cbn [length] in *; lia.
Qed.

Lemma skip_ws_cons s c r :
  skip_ws s = c :: r -> (S (length r) <= length s)%nat.
Proof. intros H. pose proof (skip_ws_length s) as Hl. rewrite H in Hl. exact Hl. Qed.

Lemma parse_fuel_mono n :
  (forall s x, parse_value n s = Some x -> parse_value (S n) s = Some x)
  /\ (forall s acc x, parse_elements n s acc = Some x ->
                     parse_elements (S n) s acc = Some x)
  /\ (forall s acc x, parse_members n s acc = Some x ->
                     parse_members (S n) s acc = Some x).
Proof.
  induction n as [| n (IHv & IHe & IHm)]; [repeat split; discriminate |].
  split; [| split].
  - intros s x H. cbn [parse_value] in H.
    remember (S n) as m eqn:Hm. cbn [parse_value]. subst m.
    destruct (skip_ws s) as [| c r]; [discriminate |].
    destruct (isc c "{").
    { destruct (skip_ws r) as [| c' r']; [discriminate |].
      destruct (isc c' "}"); [exact H | apply IHm; exact H]. }
    destruct (isc c "["); [| exact H].
    destruct (skip_ws r) as [| c' r']; [discriminate |].
    destruct (isc c' "]"); [exact H | apply IHe; exact H].
  - intros s acc x H. cbn [parse_elements] in H.
    remember (S n) as m eqn:Hm. cbn [parse_elements]. subst m.
    destruct (parse_value n s) as [[v r] |] eqn:Hv; [| discriminate].
    rewrite (IHv _ _ Hv).
    destruct (skip_ws r) as [| c r']; [discriminate |].
    destruct (isc c ","); [apply IHe; exact H | exact H].
  - intros s acc x H. cbn [parse_members] in H.
    remember (S n) as m eqn:Hm. cbn [parse_members]. subst m.
    destruct (skip_ws s) as [| c r]; [discriminate |].
    destruct (c =? dq); [| discriminate].
    destruct (lex_string r []) as [[k r1] |]; [| discriminate].
    destruct (skip_ws r1) as [| c1 r2]; [discriminate |].
    destruct (isc c1 ":"); [| discriminate].
    destruct (parse_value n r2) as [[v r3] |] eqn:Hv; [| discriminate].
    rewrite (IHv _ _ Hv).
    destruct (skip_ws r3) as [| c3 r4]; [discriminate |].
    destruct (isc c3 ","); [apply IHm; exact H | exact H].
Qed.

Lemma parse_fuel_le n m : (n <= m)%nat ->
  (forall s x, parse_value n s = Some x -> parse_value m s = Some x)
  /\ (forall s acc x, parse_elements n s acc = Some x ->
                     parse_elements m s acc = Some x)
  /\ (forall s acc x, parse_members n s acc = Some x ->
                     parse_members m s acc = Some x).
Proof.
  induction 1 as [| m _ (IHv & IHe & IHm)]; [auto |].
  destruct (parse_fuel_mono m) as (Mv & Me & Mm). repeat split; eauto.
Qed.

(** A successful parse consumes input. *)
Lemma parse_length n :
  (forall s v r, parse_value n s = Some (v, r) -> (length r < length s)%nat)
  /\ (forall s acc v r, parse_elements n s acc = Some (v, r) ->
                       (length r < length s)%nat)
  /\ (forall s acc v r, parse_members n s acc = Some (v, r) ->
                       (length r < length s)%nat).
Proof.
  induction n as [| n (IHv & IHe & IHm)]; [repeat split; discriminate |].
  split; [| split].
  - intros s v r H. cbn [parse_value] in H.
    destruct (skip_ws s) as [| c r0] eqn:Hs; [discriminate |].
    apply skip_ws_cons in Hs.
    destruct (isc c "{").
    { destruct (skip_ws r0) as [| c' r'] eqn:Hs'; [discriminate |].
      apply skip_ws_cons in Hs'.
      destruct (isc c' "}"); [injection H as _ <-; lia |].
      apply IHm in H. cbn [length] in H. lia. }
    destruct (isc c "[").
    { destruct (skip_ws r0) as [| c' r'] eqn:Hs'; [discriminate |].
      apply skip_ws_cons in Hs'.
      destruct (isc c' "]"); [injection H as _ <-; lia |].
      apply IHe in H. cbn [length] in H. lia. }
    destruct (c =? dq).
    { destruct (lex_string r0 []) as [[str rest] |] eqn:Hl; [| discriminate].
      apply (lex_string_length _ _ _ _ _ (le_n _)) in Hl.
      injection H as _ <-. lia. }
    destruct (isc c "t").
    { destruct (strip_prefix (js "rue") r0) as [rest |] eqn:Hp; [| discriminate].
      apply strip_prefix_length in Hp. injection H as _ <-. lia. }
    destruct (isc c "f").
    { destruct (strip_prefix (js "alse") r0) as [rest |] eqn:Hp; [| discriminate].
      apply strip_prefix_length in Hp. injection H as _ <-. lia. }
    destruct (isc c "n").
    { destruct (strip_prefix (js "ull") r0) as [rest |] eqn:Hp; [| discriminate].
      apply strip_prefix_length in Hp. injection H as _ <-. lia. }
    destruct (lex_number (c :: r0)) as [[x rest] |] eqn:Hn; [| discriminate].
    apply lex_number_length in Hn. injection H as _ <-. cbn [length] in Hn. lia.
  - intros s acc v r H. cbn [parse_elements] in H.
    destruct (parse_value n s) as [[v1 r1] |] eqn:Hv; [| discriminate].
    apply IHv in Hv.
    destruct (skip_ws r1) as [| c r'] eqn:Hs; [discriminate |].
    apply skip_ws_cons in Hs.
    destruct (isc c ",").
    + apply IHe in H. lia.
    + destruct (isc c "]"); [| discriminate]. injection H as _ <-. lia.
  - intros s acc v r H. cbn [parse_members] in H.
    destruct (skip_ws s) as [| c r0] eqn:Hs; [discriminate |].
    apply skip_ws_cons in Hs.
    destruct (c =? dq); [| discriminate].
    destruct (lex_string r0 []) as [[k r1] |] eqn:Hl; [| discriminate].
    apply (lex_string_length _ _ _ _ _ (le_n _)) in Hl.
    destruct (skip_ws r1) as [| c1 r2] eqn:Hs1; [discriminate |].
    apply skip_ws_cons in Hs1.
    destruct (isc c1 ":"); [| discriminate].
    destruct (parse_value n r2) as [[v1 r3] |] eqn:Hv; [| discriminate].
    apply IHv in Hv.
    destruct (skip_ws r3) as [| c3 r4] eqn:Hs3; [discriminate |].
    apply skip_ws_cons in Hs3.
    destruct (isc c3 ",").
    + apply IHm in H. lia.
    + destruct (isc c3 "}"); [| discriminate]. injection H as _ <-. lia.
Qed.

(** The fuel [2 * consumed] is enough. *)
Lemma parse_fuel_bound n :
  (forall s v r, parse_value n s = Some (v, r) ->
     parse_value (2 * (length s - length r)) s = Some (v, r))
  /\ (forall s acc v r, parse_elements n s acc = Some (v, r) ->
        parse_elements (2 * (length s - length r)) s acc = Some (v, r))
  /\ (forall s acc v r, parse_members n s acc = Some (v, r) ->
        parse_members (2 * (length s - length r)) s acc = Some (v, r)).
Proof.
  induction n as [| n (IHv & IHe & IHm)]; [repeat split; discriminate |].
  destruct (parse_length n) as (Lv & Le & Lm).
  split; [| split].
  - intros s v r H.
    pose proof (proj1 (parse_length (S n)) _ _ _ H) as Hlen.
    destruct (2 * (length s - length r))%nat as [| f] eqn:Hf; [lia |].
    cbn [parse_value] in H |- *.
    destruct (skip_ws s) as [| c r0] eqn:Hs; [discriminate |].
    apply skip_ws_cons in Hs.
    destruct (isc c "{").
    { destruct (skip_ws r0) as [| c' r'] eqn:Hs'; [discriminate |].
      apply skip_ws_cons in Hs'.
      destruct (isc c' "}"); [exact H |].
      pose proof (Lm _ _ _ _ H) as Hl. apply IHm in H.
      revert H. apply parse_fuel_le. cbn [length] in *. lia. }
    destruct (isc c "["); [| exact H].
    destruct (skip_ws r0) as [| c' r'] eqn:Hs'; [discriminate |].
    apply skip_ws_cons in Hs'.
    destruct (isc c' "]"); [exact H |].
    pose proof (Le _ _ _ _ H) as Hl. apply IHe in H.
    revert H. apply parse_fuel_le. cbn [length] in *. lia.
  - intros s acc v r H.
    pose proof (proj1 (proj2 (parse_length (S n))) _ _ _ _ H) as Hlen.
    destruct (2 * (length s - length r))%nat as [| f] eqn:Hf; [lia |].
    cbn [parse_elements] in H |- *.
    destruct (parse_value n s) as [[v1 r1] |] eqn:Hv; [| discriminate].
    pose proof (Lv _ _ _ Hv) as Hl1.
    destruct (skip_ws r1) as [| c r'] eqn:Hs; [discriminate |].
    pose proof (skip_ws_cons _ _ _ Hs) as Hs'.
    assert (Hr : (length r <= length r')%nat).
    { destruct (isc c ","); [apply Le in H; lia |].
      destruct (isc c "]"); [| discriminate]. injection H as _ <-. lia. }
    apply IHv in Hv.
    rewrite (proj1 (parse_fuel_le (2 * (length s - length r1)) f ltac:(lia))
               _ _ Hv), Hs.
    destruct (isc c ","); [| exact H].
    pose proof (Le _ _ _ _ H) as Hl. apply IHe in H.
    revert H. apply parse_fuel_le. lia.
  - intros s acc v r H.
    pose proof (proj2 (proj2 (parse_length (S n))) _ _ _ _ H) as Hlen.
    destruct (2 * (length s - length r))%nat as [| f] eqn:Hf; [lia |].
    cbn [parse_members] in H |- *.
    destruct (skip_ws s) as [| c r0] eqn:Hs; [discriminate |].
    apply skip_ws_cons in Hs.
    destruct (c =? dq); [| discriminate].
    destruct (lex_string r0 []) as [[k r1] |] eqn:Hl; [| discriminate].
    apply (lex_string_length _ _ _ _ _ (le_n _)) in Hl.
    destruct (skip_ws r1) as [| c1 r2] eqn:Hs1; [discriminate |].
    pose proof (skip_ws_cons _ _ _ Hs1) as Hs1'.
    destruct (isc c1 ":"); [| discriminate].
    destruct (parse_value n r2) as [[v1 r3] |] eqn:Hv; [| discriminate].
    pose proof (Lv _ _ _ Hv) as Hl1.
    destruct (skip_ws r3) as [| c3 r4] eqn:Hs3; [discriminate |].
    pose proof (skip_ws_cons _ _ _ Hs3) as Hs3'.
    assert (Hr : (length r <= length r4)%nat).
    { destruct (isc c3 ","); [apply Lm in H; lia |].
      destruct (isc c3 "}"); [| discriminate]. injection H as _ <-. lia. }
    apply IHv in Hv.
    rewrite (proj1 (parse_fuel_le (2 * (length r2 - length r3)) f ltac:(lia))
               _ _ Hv), Hs3.
    destruct (isc c3 ","); [| exact H].
    pose proof (Lm _ _ _ _ H) as Hl'. apply IHm in H.
    revert H. apply parse_fuel_le. lia.
Qed.

(** The fuel [JSON_parse] gives its parser never runs out: whatever any
    amount of fuel parses, [JSON_parse] parses. *)
Lemma JSON_parse_fuel n text v rest :
  parse_value n text = Some (v, rest) ->
  parse_value (2 * length text + 2) text = Some (v, rest).
Proof.
  intros H. apply (proj1 (parse_fuel_bound n)) in H.
  revert H. apply parse_fuel_le. lia.
Qed.

(** C8. [parse] is total: every raw text yields either the decoded value or
    the fallback object holding the text; the text [{"summary":"x"}] yields
    the structured result whose [summary] is [x], and the text [not json]
    yields the fallback whose [rawText] is [not json]. *)
Theorem parse_total :
  (forall raw : jstring,
     (exists v, JSON_parse raw = Ok v /\ parse raw = v) \/
     ((exists m, JSON_parse raw = Thrown m) /\
      parse raw = VObj {[ js "rawText" := VStr raw ]}))
  /\ parse summary_json = VObj {[ js "summary" := VStr (js "x") ]}
  /\ prop (parse summary_json) (js "summary") = Ok (Some (VStr (js "x")))
  /\ JSON_parse (js "not json") = Thrown (js "Unexpected token in JSON")
  /\ parse (js "not json") = VObj {[ js "rawText" := VStr (js "not json") ]}
  /\ prop (parse (js "not json")) (js "rawText") = Ok (Some (VStr (js "not json"))).
Proof.
  split.
  - intros raw. unfold parse. destruct (JSON_parse raw) as [v | m].
    + left. exists v. split; reflexivity.
    + right. split; [exists m |]; reflexivity.
  - repeat split; vm_compute; reflexivity.
Qed.

(** C9, as stated, fails: a text that decodes and a text that does not give
    the same result, so nothing in a result tells which case produced it. *)
Lemma parse_tag_counterexample :
  decodes raw_text_json = true /\ decodes (js "not json") = false
  /\ parse raw_text_json = parse (js "not json")
  /\ ~ exists tag : value -> bool, forall raw, tag (parse raw) = decodes raw.
Proof.
  assert (Hd1 : decodes raw_text_json = true) by (vm_compute; reflexivity).
  assert (Hd2 : decodes (js "not json") = false) by (vm_compute; reflexivity).
  assert (He : parse raw_text_json = parse (js "not json"))
    by (vm_compute; reflexivity).
  repeat split; try assumption.
  intros [tag Htag].
  pose proof (Htag raw_text_json) as H1. pose proof (Htag (js "not json")) as H2.
  rewrite He, Hd1 in H1. rewrite Hd2 in H2. congruence.
Qed.

(** C9, amended.  The result carries no tag.  When the text decodes the
    result is the decoded value itself; when it does not, the result is the
    object whose single field [rawText] is the text.  The two are told apart
    by the field alone: a result without a [rawText] field comes from a text
    that decoded. *)
Theorem parse_untagged (raw : jstring) :
  (forall v, JSON_parse raw = Ok v -> parse raw = v)
  /\ (decodes raw = false -> parse raw = VObj {[ js "rawText" := VStr raw ]})
  /\ (prop (parse raw) (js "rawText") = Ok None -> decodes raw = true).
Proof.
  unfold parse, decodes. destruct (JSON_parse raw) as [v | m].
  - repeat split; [congruence | discriminate].
  - repeat split; [discriminate |].
    unfold prop. rewrite lookup_singleton_eq. discriminate.
Qed.

Lemma parse_untagged_witness :
  parse (js "not json") = VObj {[ js "rawText" := VStr (js "not json") ]}
  /\ decodes summary_json = true.
Proof.
  split.
  - apply (parse_untagged (js "not json")). vm_compute. reflexivity.
  - apply (parse_untagged summary_json). vm_compute. reflexivity.
Defined.

(** ** Request validation of [generateNewAnalysis] *)

(** C10. A request whose [userRating] is the number 0 or whose
    [userComment] is the empty string is answered 400 "Missing required
    parameters."; the handler performs no effect at all (it is a bare
    return), so it leaves the store, the trace of reads, model calls and
    writes, and the log as they were. *)
Theorem generateNewAnalysis_rejects_falsy (m : gmap jstring value) :
  (exists n, m !! js "userRating" = Some (VNum n) /\ n_mant n = 0)
  \/ m !! js "userComment" = Some (VStr []) ->
  generateNewAnalysis (Some (VObj m)) = Ret missing_parameters
  /\ forall env w,
       run env (generateNewAnalysis (Some (VObj m))) w = (Ok missing_parameters, w).
Proof.
  intros H.
  assert (Hp : generateNewAnalysis (Some (VObj m)) = Ret missing_parameters).
  { unfold generateNewAnalysis, body_field, prop. cbn [lift bind try_catch].
    assert (Hc : negb (truthy (m !! js "fileID"))
                 || negb (truthy (m !! js "analysisID"))
                 || negb (truthy (m !! js "userRating"))
                 || negb (truthy (m !! js "userComment")) = true).
    { destruct H as [(n & Hr & Hz) | Hc].
      - rewrite Hr. cbn [truthy]. unfold number_is_zero. rewrite Hz.
        cbn. rewrite !orb_true_r. reflexivity.
      - rewrite Hc. cbn [truthy negb]. rewrite !orb_true_r. reflexivity. }
    rewrite Hc. reflexivity. }
  split; [exact Hp |]. intros env w. rewrite Hp. reflexivity.
Qed.

Lemma generateNewAnalysis_rejects_falsy_witness :
  generateNewAnalysis
    (request (js "f") (js "f-1") (VNum (Number false 0 0)) (VStr (js "good")))
  = Ret missing_parameters
  /\ generateNewAnalysis
       (request (js "f") (js "f-1") (VNum (Number false 4 0)) (VStr []))
     = Ret missing_parameters.
Proof.
  split.
  - apply generateNewAnalysis_rejects_falsy. left.
    exists (Number false 0 0). split; vm_compute; reflexivity.
  - apply generateNewAnalysis_rejects_falsy. right. vm_compute. reflexivity.
Defined.

(** ** Transactions and [analyzeResumeText] *)

(** A transaction that rejects has written nothing. *)
Lemma run_transaction_thrown {A} env (t : tx A) w m w' :
  run_transaction env t w = (Thrown m, w') -> w_store w' = w_store w.
Proof.
  unfold run_transaction.
  destruct (tx_run env (w_clock w) 0 (w_store w) t [] []) as [[[a | m0] ws] lg].
  - destruct (env_tx_fault env (w_clock w)) as [m1 |].
    + intros [= _ <-]. reflexivity.
    + destruct (commit (w_clock w) ws (w_store w)) as [s' |].
      * discriminate.
      * intros [= _ <-]. reflexivity.
  - intros [= _ <-]. reflexivity.
Qed.

(** [analyzeResumeText] unfolded along its steps. *)
Lemma run_analyzeResumeText env text fileID filePath w :
  run env (analyzeResumeText text fileID filePath) w =
  let w0 := warn_short text w in
  let w1 := add_event (EvModel (AnalysisPrompt text)) w0 in
  match env_model env (w_clock w0) (AnalysisPrompt text) with
  | Thrown m => (Thrown m, add_log [analysis_error m] w1)
  | Ok t =>
      let parsed := parse (or_str t (js "{}")) in
      if env_doc_path_ok env fileID then
        match run_transaction env (analysis_tx fileID fileID parsed) w1 with
        | (Ok _, w2) => (Ok parsed, add_log [analysis_saved fileID filePath] w2)
        | (Thrown m, w2) => (Thrown m, add_log [analysis_error m] w2)
        end
      else
        let m := js "not a valid resource path" in
        (Thrown m, add_log [analysis_error m] w1)
  end.
Proof.
  unfold analyzeResumeText.
  rewrite run_try_catch, run_bind.
  assert (Hw : run env (if (length (trim text) <? 100)%nat
                        then log Warn (js "Resume text too short or empty.") []
                        else Ret ()) w = (Ok tt, warn_short text w)).
  { unfold warn_short. destruct (length (trim text) <? 100)%nat; reflexivity. }
  rewrite Hw. clear Hw. cbn zeta.
  generalize (warn_short text w) as w0. intros w0.
  rewrite run_bind, run_await. cbn [handle].
  destruct (env_model env (w_clock w0) (AnalysisPrompt text)) as [t | m];
    [| reflexivity].
  rewrite run_bind, run_await. cbn [handle].
  destruct (env_doc_path_ok env fileID); [| reflexivity].
  rewrite run_bind, run_await. cbn [handle].
  destruct (run_transaction env _ _) as [[[] | m] w2]; reflexivity.
Qed.

Lemma warn_short_store text w : w_store (warn_short text w) = w_store w.
Proof. unfold warn_short. destruct (_ <? _)%nat; reflexivity. Qed.

(** When [analyzeResumeText] throws it has written nothing, and it has
    logged the error. *)
Lemma analyzeResumeText_thrown env text fileID filePath w e w' :
  run env (analyzeResumeText text fileID filePath) w = (Thrown e, w') ->
  w_store w' = w_store w /\ analysis_error e ∈ w_log w'.
Proof.
  rewrite run_analyzeResumeText. cbn zeta.
  destruct (env_model env _ _) as [t | m].
  - destruct (env_doc_path_ok env fileID).
    + destruct (run_transaction env _ _) as [[[] | m] w2] eqn:Htx; [discriminate |].
      intros [= <- <-]. apply run_transaction_thrown in Htx.
      split.
      * cbn. rewrite Htx. cbn. apply warn_short_store.
      * cbn. set_solver.
    + intros [= <- <-]. split; [cbn; apply warn_short_store | cbn; set_solver].
  - intros [= <- <-]. split; [cbn; apply warn_short_store | cbn; set_solver].
Qed.

(** ** The generation pipeline *)

Lemma request_accepted req :
  nonempty (userId req) = true ->
  nonempty (name req) || nonempty (summary req) = true ->
  negb (nonempty (userId req))
  || negb (nonempty (name req)) && negb (nonempty (summary req)) = false.
Proof.
  intros -> [-> | ->]%orb_true_iff; cbn; rewrite ?andb_false_r; reflexivity.
Qed.

(** C6. A run of [generatePdf] in which the rendering service answers with a
    status that is not 2xx ends with the error "PDF generation failed"
    carrying the body of that answer; the store and the bucket are as
    before, and the only outside calls made are the model call, the clock
    and the rendering call: no transaction is run. *)
Theorem generatePdf_rendering_failed
    env req w raw w1 iso w2 enhanced post w3 errorText :
  nonempty (userId req) = true ->
  nonempty (name req) || nonempty (summary req) = true ->
  handle env (Generate (PdfPrompt req (format_resume req))) w = (Ok raw, w1) ->
  handle env Now w1 = (iso, w2) ->
  prop (parse (or_str raw (js "{}"))) (js "enhanced_text") = Ok enhanced ->
  handle env (FetchPost pdfServiceUrl
                (mcp_payload req enhanced (format_resume req) (pdf_title req)))
    w2 = (Ok post, w3) ->
  r_ok post = false ->
  r_text post = Ok errorText ->
  let '(r, w') := run env (generatePdf req) w in
  r = Ok (rendering_failed errorText)
  /\ w_store w' = w_store w
  /\ w_blobs w' = w_blobs w
  /\ w_trace w' = w_trace w ++ [EvModel (PdfPrompt req (format_resume req));
                                EvNow; EvFetchPost pdfServiceUrl]
  /\ w_log w' = w_log w ++ [{| lg_level := Error;
                               lg_msg := js "PDF generation failed";
                               lg_detail := [errorText] |}].
Proof.
  intros Hu Hn Hg Hnow He Hf Hok Ht.
  unfold generatePdf. rewrite (request_accepted req Hu Hn).
  cbn [try_catch bind await perform].
  rewrite run_vis, Hg. cbn [try_catch bind].
  rewrite run_vis, Hnow. rewrite He. cbn [try_catch bind lift].
  unfold pdf_title in Hf. rewrite run_vis, Hf. cbn [try_catch bind].
  rewrite Hok. cbn [negb]. rewrite Ht.
  cbn [try_catch bind lift log perform send run].
  cbn in Hg, Hnow, Hf.
  injection Hg as _ <-. injection Hnow as _ <-. injection Hf as _ <-.
  cbn. rewrite <- !app_assoc. repeat split; reflexivity.
Qed.

Lemma generatePdf_rendering_failed_witness :
  let '(r, w') := run env_render_fails (generatePdf pdf_request) (world_of store_user) in
  r = Ok (rendering_failed (js "boom"))
  /\ w_store w' = store_user
  /\ w_blobs w' = ∅
  /\ w_trace w' = [EvModel (PdfPrompt pdf_request (format_resume pdf_request));
                   EvNow; EvFetchPost pdfServiceUrl]
  /\ w_log w' = [{| lg_level := Error; lg_msg := js "PDF generation failed";
                    lg_detail := [js "boom"] |}].
Proof.
  eapply (generatePdf_rendering_failed env_render_fails pdf_request
            (world_of store_user)); reflexivity.
Defined.

(** What a transaction that resolves has done. *)
Lemma run_transaction_ok {A} env (t : tx A) w a w' :
  run_transaction env t w = (Ok a, w') ->
  exists ws lg s',
    tx_run env (w_clock w) 0 (w_store w) t [] [] = (Ok a, ws, lg)
    /\ env_tx_fault env (w_clock w) = None
    /\ commit (w_clock w) ws (w_store w) = Some s'
    /\ w' = add_event (EvCommit ws) (set_store s' (add_log lg w)).
Proof.
  unfold run_transaction.
  destruct (tx_run env (w_clock w) 0 (w_store w) t [] []) as [[[a0 | m0] ws] lg];
    [| discriminate].
  destruct (env_tx_fault env (w_clock w)) as [m1 |]; [discriminate |].
  destruct (commit (w_clock w) ws (w_store w)) as [s' |] eqn:Hc; [| discriminate].
  intros [= <- <-]. exists ws, lg, s'. repeat split; assumption.
Qed.

(** Writes that do not touch [analysis] leave it as it was. *)
Lemma commit_analyses now ws s s' :
  Forall (fun w => writes_analysis w = false) ws ->
  commit now ws s = Some s' -> analyses s' = analyses s.
Proof.
  intros Hws. revert s. induction Hws as [| w ws Hw _ IH]; intros s; cbn.
  - intros [= <-]. reflexivity.
  - destruct (apply_write now w s) as [s1 |] eqn:Hw1; [| discriminate].
    intros Hc. rewrite (IH _ Hc).
    destruct w; try discriminate Hw; cbn in Hw1.
    + destruct (files s !! id); [| discriminate]. injection Hw1 as <-. reflexivity.
    + injection Hw1 as <-. reflexivity.
    + destruct (users s !! uid); [| discriminate]. injection Hw1 as <-. reflexivity.
    + injection Hw1 as <-. reflexivity.
Qed.

(** The metadata transaction of [generatePdf] writes no Analysis record. *)
Lemma metadata_tx_writes env clock s req uid pdfTitle filePath pdfData payload r ws lg :
  tx_run env clock 0 s (metadata_tx req uid pdfTitle filePath pdfData payload) [] []
  = (r, ws, lg) ->
  Forall (fun w => writes_analysis w = false) ws.
Proof.
  unfold metadata_tx. cbn [tx_run app].
  repeat (case_match; cbn [tx_run app]);
    intros [= _ <- _]; repeat constructor.
Qed.

(** C7. A run of [generatePdf] in which every step through the metadata
    transaction succeeds and the call of [analyzeResumeText] throws answers
    200 with the success payload naming the new file document; the failure
    is logged, and the collection [analysis] is what it was before the run,
    so the new document has no Analysis record unless one already named its
    id. *)
Theorem generatePdf_analysis_best_effort
    env req w raw w1 iso w2 enhanced post w3 pdfData url data w4 w5
    fileID w6 e w7 :
  nonempty (userId req) = true ->
  nonempty (name req) || nonempty (summary req) = true ->
  handle env (Generate (PdfPrompt req (format_resume req))) w = (Ok raw, w1) ->
  handle env Now w1 = (iso, w2) ->
  prop (parse (or_str raw (js "{}"))) (js "enhanced_text") = Ok enhanced ->
  handle env (FetchPost pdfServiceUrl
                (mcp_payload req enhanced (format_resume req) (pdf_title req)))
    w2 = (Ok post, w3) ->
  r_ok post = true ->
  r_json post = Ok pdfData ->
  prop pdfData (js "pdf_url") = Ok url ->
  handle env (FetchBuffer url) w3 = (Ok data, w4) ->
  handle env (FileSave (pdf_path req iso) (pdf_blob req iso data)) w4 = (Ok tt, w5) ->
  handle env (RunTransaction
                (metadata_tx req (or_str (userId req) []) (pdf_title req)
                   (pdf_path req iso) pdfData
                   (mcp_payload req enhanced (format_resume req) (pdf_title req))))
    (add_log [pdf_saved req iso] w5) = (Ok fileID, w6) ->
  run env (analyzeResumeText (format_resume req) fileID (pdf_path req iso)) w6
  = (Thrown e, w7) ->
  let '(r, w') := run env (generatePdf req) w in
  r = Ok (pdf_success req iso pdfData fileID)
  /\ w' = add_log [analysis_failed e] w7
  /\ analysis_failed e ∈ w_log w'
  /\ w_store w' = w_store w6
  /\ analyses (w_store w') = analyses (w_store w)
  /\ ((forall id d, analyses (w_store w) !! id = Some d -> a_fileID d <> fileID) ->
      forall id d, analyses (w_store w') !! id = Some d -> a_fileID d <> fileID).
Proof.
  intros Hu Hn Hg Hnow He Hf Hok Hj Hurl Hb Hs Htx Ha.
  destruct (analyzeResumeText_thrown _ _ _ _ _ _ _ Ha) as [Hstore _].
  assert (Han : analyses (w_store w6) = analyses (w_store w)).
  { cbn [handle] in Htx. apply run_transaction_ok in Htx.
    destruct Htx as (ws & lg & s' & Hrun & _ & Hc & ->).
    apply metadata_tx_writes in Hrun. cbn [add_event set_store w_store].
    rewrite (commit_analyses _ _ _ _ Hrun Hc).
    cbn in Hg, Hnow, Hf, Hb, Hs.
    destruct (env_save_fault env (w_clock w4)); [discriminate |].
    injection Hg as _ <-. injection Hnow as _ <-. injection Hf as _ <-.
    injection Hb as _ <-. injection Hs as <-. reflexivity. }
  unfold generatePdf. rewrite (request_accepted req Hu Hn).
  cbn [try_catch bind await perform].
  rewrite run_vis, Hg. cbn [try_catch bind].
  rewrite run_vis, Hnow. rewrite He. cbn [try_catch bind lift].
  unfold pdf_title in Hf. rewrite run_vis, Hf. cbn [try_catch bind].
  rewrite Hok. cbn [negb]. rewrite Hj. cbn [try_catch bind lift].
  rewrite Hurl. cbn [try_catch bind lift].
  rewrite run_vis, Hb. cbn [try_catch bind].
  unfold pdf_path, pdf_blob, pdf_title in Hs. rewrite run_vis, Hs.
  cbn [try_catch bind log perform].
  rewrite run_vis. cbn [handle].
  unfold pdf_saved, pdf_path, pdf_title in Htx.
  rewrite run_vis, Htx. cbn [try_catch bind].
  rewrite run_try_catch, run_bind, run_try_catch, run_bind.
  unfold pdf_path, pdf_title in Ha. rewrite Ha.
  cbn [run handle log perform send].
  repeat split.
  - cbn. set_solver.
  - cbn. exact Hstore.
  - cbn. rewrite Hstore. exact Han.
  - cbn. rewrite Hstore, Han. auto.
Qed.

Lemma generatePdf_analysis_best_effort_witness :
  exists w6 w7,
    let '(r, w') :=
      run env_analysis_fails (generatePdf pdf_request) (world_of store_user) in
    r = Ok (pdf_success pdf_request (js "2025-01-02T03:04:05.678Z") pdf_data
              (js "auto5x0"))
    /\ w' = add_log [analysis_failed (js "model unavailable")] w7
    /\ analysis_failed (js "model unavailable") ∈ w_log w'
    /\ w_store w' = w_store w6
    /\ analyses (w_store w') = analyses store_user
    /\ ((forall id d, analyses store_user !! id = Some d ->
                      a_fileID d <> js "auto5x0") ->
        forall id d, analyses (w_store w') !! id = Some d ->
                     a_fileID d <> js "auto5x0").
Proof.
  pose (env := env_analysis_fails). pose (req := pdf_request).
  pose (iso := js "2025-01-02T03:04:05.678Z").
  pose (payload := mcp_payload req None (format_resume req) (pdf_title req)).
  pose (post := {| r_ok := true; r_text := Ok (js "{}"); r_json := Ok pdf_data |}).
  pose (url := Some (VStr (js "https://pdf/1"))).
  pose (w1 := (handle env (Generate (PdfPrompt req (format_resume req)))
                 (world_of store_user)).2).
  pose (w2 := (handle env Now w1).2).
  pose (w3 := (handle env (FetchPost pdfServiceUrl payload) w2).2).
  pose (w4 := (handle env (FetchBuffer url) w3).2).
  pose (w5 := (handle env (FileSave (pdf_path req iso)
                             (pdf_blob req iso (js "%PDF"))) w4).2).
  pose (w6 := (handle env
                 (RunTransaction
                    (metadata_tx req (or_str (userId req) []) (pdf_title req)
                       (pdf_path req iso) pdf_data payload))
                 (add_log [pdf_saved req iso] w5)).2).
  pose (w7 := (run env (analyzeResumeText (format_resume req) (js "auto5x0")
                          (pdf_path req iso)) w6).2).
  exists w6, w7.
  apply (generatePdf_analysis_best_effort env req (world_of store_user)
           (Some summary_json) w1 iso w2 None post w3 pdf_data url (js "%PDF")
           w4 w5 (js "auto5x0") w6 (js "model unavailable") w7);
    vm_compute; reflexivity.
Defined.

(** ** A file document that does not exist *)

Lemma warn_short_clock text w : w_clock (warn_short text w) = w_clock w.
Proof. unfold warn_short. destruct (_ <? _)%nat; reflexivity. Qed.

(** C5, on the code.  When the file document does not exist and nothing
    else fails, [analyzeResumeText] does not throw: it logs that the
    document was not found, commits an empty transaction, logs "Analysis
    saved in Firestore for file" and returns the parsed result.  The store is
    unchanged. *)
Theorem analyzeResumeText_missing_file env text fileID filePath w t :
  files (w_store w) !! fileID = None ->
  env_model env (w_clock w) (AnalysisPrompt text) = Ok t ->
  env_doc_path_ok env fileID = true ->
  env_tx_fault env (S (w_clock w)) = None ->
  let '(r, w') := run env (analyzeResumeText text fileID filePath) w in
  r = Ok (parse (or_str t (js "{}")))
  /\ w_store w' = w_store w
  /\ file_not_found fileID ∈ w_log w'
  /\ analysis_saved fileID filePath ∈ w_log w'
  /\ exists l, w_trace w' = l ++ [EvCommit []].
Proof.
  intros Hf Hm Hd Hx. rewrite run_analyzeResumeText. cbn zeta.
  rewrite warn_short_clock, Hm, Hd.
  unfold run_transaction, analysis_tx.
  cbn [tx_run add_event w_store w_clock]. rewrite warn_short_store, Hf.
  cbn [tx_run]. rewrite warn_short_clock, Hx. cbn [commit].
  cbn [w_store w_log w_trace add_log add_event set_store].
  split; [reflexivity |]. split; [reflexivity |].
  split; [unfold file_not_found; set_solver |].
  split; [set_solver |]. eexists. reflexivity.
Qed.

Lemma analyzeResumeText_missing_file_witness :
  let '(r, w') :=
    run env_ok (analyzeResumeText (js "Jane Doe") (js "nofile") (js "u1/cv.pdf"))
      (world_of empty_store) in
  r = Ok (parse summary_json)
  /\ w_store w' = empty_store
  /\ file_not_found (js "nofile") ∈ w_log w'
  /\ analysis_saved (js "nofile") (js "u1/cv.pdf") ∈ w_log w'
  /\ exists l, w_trace w' = l ++ [EvCommit []].
Proof.
  apply (analyzeResumeText_missing_file env_ok (js "Jane Doe") (js "nofile")
           (js "u1/cv.pdf") (world_of empty_store) (Some summary_json));
    reflexivity.
Defined.

(** X1. The sibling path: [generateNewAnalysis] answers 404 "File document
    not found." when the predecessor exists and the file document does
    not, and writes nothing. *)
Lemma generateNewAnalysis_file_not_found env m w fileID analysisID ad w1 w2 :
  m !! js "fileID" = Some (VStr fileID) ->
  m !! js "analysisID" = Some (VStr analysisID) ->
  truthy (m !! js "fileID") = true ->
  truthy (m !! js "analysisID") = true ->
  truthy (m !! js "userRating") = true ->
  truthy (m !! js "userComment") = true ->
  env_doc_path_ok env analysisID = true ->
  env_doc_path_ok env fileID = true ->
  handle env (GetAnalysis analysisID) w = (Ok (Some ad), w1) ->
  handle env (GetFile fileID) w1 = (Ok None, w2) ->
  run env (generateNewAnalysis (Some (VObj m))) w
  = (Ok {| status := 404;
           payload := ErrorBody (js "File document not found.") None |}, w2)
  /\ w_store w2 = w_store w.
Proof.
  intros Hfid Haid Tf Ta Tr Tc Oa Of Hga Hgf. split.
  - unfold generateNewAnalysis, body_field, prop. cbn [lift bind try_catch].
    rewrite Tf, Ta, Tr, Tc. cbn [negb orb].
    cbn [try_catch bind await].
    rewrite run_vis. cbn [handle]. rewrite Haid, Oa. cbn [try_catch bind].
    rewrite run_vis, Hga. cbn [try_catch bind].
    rewrite run_vis. cbn [handle]. rewrite Hfid, Of. cbn [try_catch bind].
    rewrite run_vis, Hgf. reflexivity.
  - cbn [handle] in Hga, Hgf. unfold read in Hga, Hgf.
    injection Hga as _ <-. injection Hgf as _ <-. reflexivity.
Qed.

(** ** The transaction of [generateNewAnalysis] *)

(** What the update function of [generateNewAnalysis] buffers; the store it
    runs against does not appear. *)
Lemma regen_tx_run env clock s fileID fd analysisID parsed n newID :
  tx_run env clock 0 s (regen_tx fileID fileID fd analysisID parsed n newID) [] [] =
  if env_doc_path_ok env newID then
    match f_owner fd with
    | None =>
        (Thrown (js "Cannot use undefined as a Firestore value"),
         [UpdateFile fileID n n newID], [])
    | Some owner =>
        if env_doc_path_ok env analysisID then
          (Ok tt, [UpdateFile fileID n n newID;
                   SetAnalysis newID (analysis_record owner fileID parsed);
                   UpdateNextAnalysis analysisID newID], [])
        else
          (Thrown (js "not a valid resource path"),
           [UpdateFile fileID n n newID;
            SetAnalysis newID (analysis_record owner fileID parsed)], [])
    end
  else (Thrown (js "not a valid resource path"), [UpdateFile fileID n n newID], []).
Proof.
  unfold regen_tx. cbn [tx_run app].
  destruct (env_doc_path_ok env newID); [| reflexivity].
  destruct (f_owner fd) as [owner |]; [| reflexivity].
  cbn [tx_run app]. destruct (env_doc_path_ok env analysisID); reflexivity.
Qed.

(** The transaction of [generateNewAnalysis] leaves every Analysis record
    alone except the predecessor and the record under the new id. *)
Lemma regen_tx_frame env w fileID fd analysisID parsed n newID r w' id :
  run_transaction env (regen_tx fileID fileID fd analysisID parsed n newID) w
  = (r, w') ->
  id <> analysisID -> id <> newID ->
  analyses (w_store w') !! id = analyses (w_store w) !! id.
Proof.
  intros Hrun Ha Hn. destruct r as [[] | m].
  - apply run_transaction_ok in Hrun.
    destruct Hrun as (ws & lg & s' & Htx & _ & Hc & ->).
    rewrite regen_tx_run in Htx.
    destruct (env_doc_path_ok env newID); [| discriminate].
    destruct (f_owner fd) as [owner |]; [| discriminate].
    destruct (env_doc_path_ok env analysisID); [| discriminate].
    injection Htx as <- <-. cbn [commit apply_write] in Hc.
    destruct (files (w_store w) !! fileID) as [d |]; [| discriminate].
    cbn [commit apply_write analyses] in Hc.
    destruct (<[newID:=_]> (analyses (w_store w)) !! analysisID) as [d' |];
      [| discriminate].
    injection Hc as <-. cbn [add_event set_store w_store analyses].
    rewrite !lookup_insert_ne by congruence. reflexivity.
  - apply run_transaction_thrown in Hrun. rewrite Hrun. reflexivity.
Qed.

(** When the file document and the predecessor exist at commit time, the
    transaction commits: the file document takes the position computed from
    the snapshot [fd], a record is written under the new id, and the
    predecessor's [nextAnalysis] becomes the new id, whatever it was. *)
Lemma regen_tx_commits env w fileID fd analysisID parsed owner fd0 ad :
  env_doc_path_ok env (next_id fileID fd) = true ->
  env_doc_path_ok env analysisID = true ->
  f_owner fd = Some owner ->
  env_tx_fault env (w_clock w) = None ->
  files (w_store w) !! fileID = Some fd0 ->
  analyses (w_store w) !! analysisID = Some ad ->
  exists w',
    run_transaction env
      (regen_tx fileID fileID fd analysisID parsed (next_index fd)
         (next_id fileID fd)) w = (Ok tt, w')
    /\ a_nextAnalysis <$> analyses (w_store w') !! analysisID
       = Some (Some (next_id fileID fd))
    /\ is_Some (analyses (w_store w') !! next_id fileID fd)
    /\ f_numAnalysis <$> files (w_store w') !! fileID = Some (Some (next_index fd))
    /\ (f_analysis <$> files (w_store w') !! fileID)
       = Some (<[next_index fd := next_id fileID fd]> (f_analysis fd0)).
Proof.
  intros Hn Ha Ho Hx Hf Had.
  unfold run_transaction. rewrite regen_tx_run, Hn, Ho, Ha, Hx.
  cbn [commit apply_write]. rewrite Hf. cbn [commit apply_write analyses].
  destruct (<[next_id fileID fd:=_]> (analyses (w_store w)) !! analysisID)
    as [d' |] eqn:Hd.
  - eexists. split; [reflexivity |].
    cbn [add_event set_store w_store analyses files].
    rewrite !lookup_insert_eq. cbn.
    destruct (decide (analysisID = next_id fileID fd)) as [-> | Hne].
    + rewrite lookup_insert_eq. repeat split; eauto.
    + rewrite lookup_insert_ne, lookup_insert_eq by congruence. repeat split; eauto.
  - exfalso. destruct (decide (next_id fileID fd = analysisID)) as [<- | Hne].
    + rewrite lookup_insert_eq in Hd. discriminate.
    + rewrite lookup_insert_ne in Hd by assumption. congruence.
Qed.

(** ** Regeneration against a predecessor that is not the head *)

(** C3, as stated, fails.  On a chain of length 2, a request that names the
    analysis at position 1 (whose [nextAnalysis] is [f-2]) is answered 200
    with the new id [f-3]; the store has changed: the file document counts 3
    analyses and the [nextAnalysis] of position 1 now is [f-3]. *)
Lemma generateNewAnalysis_conflict_counterexample :
  a_nextAnalysis <$> analyses store_chain2 !! js "f-1" = Some (Some (js "f-2"))
  /\ let '(r, w') :=
       run env_ok (generateNewAnalysis regen_request) (world_of store_chain2) in
     r = Ok {| status := 200; payload := NewAnalysisBody (js "f-3") |}
     /\ w_store w' <> store_chain2
     /\ f_numAnalysis <$> files (w_store w') !! js "f" = Some (Some 3%nat)
     /\ a_nextAnalysis <$> analyses (w_store w') !! js "f-1" = Some (Some (js "f-3")).
Proof.
  split; [vm_compute; reflexivity |].
  assert (H : a_nextAnalysis <$>
                analyses (w_store (run env_ok (generateNewAnalysis regen_request)
                                     (world_of store_chain2)).2) !! js "f-1"
              = Some (Some (js "f-3"))) by (vm_compute; reflexivity).
  destruct (run env_ok (generateNewAnalysis regen_request) (world_of store_chain2))
    as [r w'] eqn:Hrun.
  cbn [snd] in H.
  split; [| split; [| split]].
  - apply (f_equal fst) in Hrun. cbn [fst] in Hrun. rewrite <- Hrun.
    vm_compute. reflexivity.
  - intros Heq. rewrite Heq in H. vm_compute in H. discriminate.
  - apply (f_equal snd) in Hrun. cbn [snd] in Hrun. rewrite <- Hrun.
    vm_compute. reflexivity.
  - exact H.
Qed.

(** C3, amended.  [generateNewAnalysis] makes no head check.  When the
    predecessor exists, whatever its [nextAnalysis], and the other steps
    succeed (the file document exists and has a path and an owner, its
    [numAnalysis] is a count [n] below [2^53], the download, the text
    extraction and the model call return, the transaction commits), the
    request is answered 200 with the new id [fileID-(n+1)], a record is
    written under the new id, the file document takes the position [n+1],
    and the predecessor's [nextAnalysis] is overwritten with the new id. *)
Theorem generateNewAnalysis_no_head_check
    env m w fileID analysisID ad w1 fd w2 c p owner data w3 t w4 r w5 :
  m !! js "fileID" = Some (VStr fileID) ->
  m !! js "analysisID" = Some (VStr analysisID) ->
  truthy (m !! js "fileID") = true ->
  truthy (m !! js "analysisID") = true ->
  truthy (m !! js "userRating") = true ->
  truthy (m !! js "userComment") = true ->
  env_doc_path_ok env analysisID = true ->
  env_doc_path_ok env fileID = true ->
  handle env (GetAnalysis analysisID) w = (Ok (Some ad), w1) ->
  handle env (GetFile fileID) w1 = (Ok (Some fd), w2) ->
  safe_count (default 0%nat (f_numAnalysis fd)) ->
  env_doc_path_ok env
    (fileID ++ js "-" ++ dec (S (default 0%nat (f_numAnalysis fd)))) = true ->
  f_path fd = Some (c :: p) ->
  f_owner fd = Some owner ->
  handle env (BucketDownload None (c :: p)) w2 = (Ok data, w3) ->
  handle env (PdfParse data) w3 = (Ok t, w4) ->
  handle env (Generate (RegenPrompt (or_str t []) (a_content ad)
                          (m !! js "userRating") (m !! js "userComment")))
    w4 = (Ok r, w5) ->
  env_tx_fault env (w_clock w5) = None ->
  let n := default 0%nat (f_numAnalysis fd) in
  let newID := fileID ++ js "-" ++ dec (S n) in
  let '(res, w') := run env (generateNewAnalysis (Some (VObj m))) w in
  res = Ok {| status := 200; payload := NewAnalysisBody newID |}
  /\ a_nextAnalysis <$> analyses (w_store w') !! analysisID = Some (Some newID)
  /\ is_Some (analyses (w_store w') !! newID)
  /\ f_numAnalysis <$> files (w_store w') !! fileID = Some (Some (S n)).
Proof.
  intros Hfid Haid Tf Ta Tr Tc Oa Of Hga Hgf Hsafe On Hp Ho Hd Hpp Hg Hx n newID.
  assert (Hix : next_index fd = S n) by exact (next_index_safe fd Hsafe).
  assert (Hid : next_id fileID fd = newID) by exact (next_id_safe fileID fd Hsafe).
  assert (Hs5 : w_store w5 = w_store w
                /\ files (w_store w) !! fileID = Some fd
                /\ analyses (w_store w) !! analysisID = Some ad).
  { cbn [handle] in Hga, Hgf, Hd, Hpp, Hg. unfold read in Hga, Hgf.
    destruct (env_read_fault env (w_clock w)); [discriminate |].
    destruct (env_read_fault env (w_clock w1)); [discriminate |].
    injection Hga as Hga <-. injection Hgf as Hgf <-.
    injection Hd as _ <-. injection Hpp as _ <-. injection Hg as _ <-.
    cbn [add_event w_store] in *. auto. }
  destruct Hs5 as (Hs5 & Hf & Ha).
  destruct (regen_tx_commits env w5 fileID fd analysisID
              (parse (or_str r (js "{}"))) owner fd ad)
    as (w6 & Htx & Hnext & Hnew & Hnum & _); try assumption;
    try (rewrite Hs5; assumption).
  { rewrite Hid. exact On. }
  unfold generateNewAnalysis, body_field, prop. cbn [lift bind try_catch].
  rewrite Tf, Ta, Tr, Tc. cbn [negb orb].
  cbn [try_catch bind await].
  rewrite run_vis. cbn [handle]. rewrite Haid, Oa. cbn [try_catch bind].
  rewrite run_vis, Hga. cbn [try_catch bind].
  rewrite run_vis. cbn [handle]. rewrite Hfid, Of. cbn [try_catch bind].
  rewrite run_vis, Hgf. cbn [try_catch bind]. rewrite Hp.
  cbn [try_catch bind await].
  rewrite run_vis, Hd. cbn [try_catch bind].
  rewrite run_vis, Hpp. cbn [try_catch bind].
  rewrite run_vis, Hg. cbn [try_catch bind].
  rewrite run_vis. cbn [handle]. rewrite Of. cbn [try_catch bind].
  rewrite run_vis. cbn [handle].
  unfold next_id, next_index in Htx. rewrite Htx.
  cbn [try_catch bind send run].
  fold (next_index fd). fold (next_id fileID fd).
  rewrite Hid, Hix in *. repeat split; assumption.
Qed.

Lemma generateNewAnalysis_no_head_check_witness :
  let '(res, w') :=
    run env_ok (generateNewAnalysis regen_request) (world_of store_chain2) in
  res = Ok {| status := 200; payload := NewAnalysisBody (js "f-3") |}
  /\ a_nextAnalysis <$> analyses (w_store w') !! js "f-1" = Some (Some (js "f-3"))
  /\ is_Some (analyses (w_store w') !! js "f-3")
  /\ f_numAnalysis <$> files (w_store w') !! js "f" = Some (Some 3%nat).
Proof.
  eapply (generateNewAnalysis_no_head_check env_ok _ (world_of store_chain2)
            (js "f") (js "f-1") (sample_analysis (Some (js "f-2"))) _
            (sample_file 2 (<[2%nat := js "f-2"]> {[ 1%nat := js "f-1" ]})) _
            _ _ (js "u1"));
    vm_compute; reflexivity.
Defined.

(** ** Postconditions of runs *)

Section wp.
Context {A : Type} (env : Env).
Implicit Types (Q : result A -> World -> Prop) (w : World).

Lemma wp_ret a Q w : Q (Ok a) w -> wp env (Ret a) Q w.
Proof. exact id. Qed.

Lemma wp_throw m Q w : Q (Thrown m) w -> wp env (Throw m) Q w.
Proof. exact id. Qed.

Lemma wp_bind {B} (p : prog B) (f : B -> prog A) Q w :
  wp env p (fun r w' => match r with
                        | Ok b => wp env (f b) Q w'
                        | Thrown m => Q (Thrown m) w'
                        end) w ->
  wp env (bind p f) Q w.
Proof.
  unfold wp. rewrite run_bind. destruct (run env p w) as [[b | m] w']; exact id.
Qed.

Lemma wp_try_catch (p : prog A) (h : jstring -> prog A) Q w :
  wp env p (fun r w' => match r with
                        | Ok a => Q (Ok a) w'
                        | Thrown m => wp env (h m) Q w'
                        end) w ->
  wp env (try_catch p h) Q w.
Proof.
  unfold wp. rewrite run_try_catch.
  destruct (run env p w) as [[b | m] w']; exact id.
Qed.

End wp.

Lemma wp_await {X} env (e : eff (result X)) (Q : result X -> World -> Prop) w :
  Q (handle env e w).1 (handle env e w).2 -> wp env (await e) Q w.
Proof. unfold wp. rewrite run_await. exact id. Qed.

Lemma wp_perform {X} env (e : eff X) (Q : result X -> World -> Prop) w :
  Q (Ok (handle env e w).1) (handle env e w).2 -> wp env (perform e) Q w.
Proof. unfold wp, perform. rewrite run_vis. destruct (handle env e w). exact id. Qed.

Lemma wp_lift {X} env (r : result X) (Q : result X -> World -> Prop) w :
  Q r w -> wp env (lift r) Q w.
Proof. destruct r; exact id. Qed.

Lemma wp_log env l m d (Q : result unit -> World -> Prop) w :
  Q (Ok tt) (add_log [{| lg_level := l; lg_msg := m; lg_detail := d |}] w) ->
  wp env (log l m d) Q w.
Proof. exact id. Qed.

Lemma wp_send env st p (Q : result Response -> World -> Prop) w :
  Q (Ok {| status := st; payload := p |}) w -> wp env (send st p) Q w.
Proof. exact id. Qed.

Ltac wp_step :=
  lazymatch goal with
  | |- wp _ (try_catch _ _) _ _ => apply wp_try_catch
  | |- wp _ (bind _ _) _ _ => apply wp_bind
  | |- wp _ (await _) _ _ => apply wp_await; cbn [handle fst snd]
  | |- wp _ (perform _) _ _ => apply wp_perform; cbn [handle fst snd]
  | |- wp _ (lift _) _ _ => apply wp_lift
  | |- wp _ (log _ _ _) _ _ => apply wp_log
  | |- wp _ (send _ _) _ _ => apply wp_send
  | |- wp _ (send_error _ _) _ _ => apply wp_send
  | |- wp _ (Ret _) _ _ => apply wp_ret
  | |- wp _ (Throw _) _ _ => apply wp_throw
  end.

Ltac wp_steps := repeat wp_step.

Ltac unchanged :=
  wp_steps; left; split; [reflexivity | intros ? [= <-]; discriminate].

(** ** The append-only chain *)

(** Every run of [generateNewAnalysis] either leaves the store as it was or
    commits its transaction once, answering 200. *)
Lemma generateNewAnalysis_writes env body w :
  wp env (generateNewAnalysis body) (regen_writes env body w) w.
Proof.
  unfold generateNewAnalysis. wp_steps.
  destruct (body_field body "fileID") as [fileID | e] eqn:Hf; [| unchanged].
  wp_steps.
  destruct (body_field body "analysisID") as [analysisID | e] eqn:Ha; [| unchanged].
  wp_steps.
  destruct (body_field body "userRating") as [userRating | e]; [| unchanged].
  wp_steps.
  destruct (body_field body "userComment") as [userComment | e]; [| unchanged].
  destruct (negb (truthy fileID) || _ || _ || _); [unchanged |].
  wp_steps.
  destruct analysisID as [[| | | aid | |] |]; try unchanged.
  destruct (env_doc_path_ok env aid); [| unchanged].
  wp_steps. unfold read. cbn [fst snd].
  destruct (env_read_fault env (w_clock w)); [unchanged |].
  destruct (analyses (w_store w) !! aid) as [ad |] eqn:Had; [| unchanged].
  wp_steps.
  destruct fileID as [[| | | fid | |] |]; try unchanged.
  destruct (env_doc_path_ok env fid) eqn:Hok; [| unchanged].
  wp_steps. unfold read. cbn [fst snd add_event w_clock w_store].
  destruct (env_read_fault env _); [unchanged |].
  destruct (files (w_store w) !! fid) as [fd |] eqn:Hfd; [| unchanged].
  destruct (f_path fd) as [[| c p] |]; try unchanged.
  wp_steps.
  destruct (env_download env _ None (c :: p)); [| unchanged].
  wp_steps.
  destruct (env_pdfParse env _ _); [| unchanged].
  wp_steps.
  destruct (env_model env _ _) as [r |]; [| unchanged].
  wp_steps. rewrite Hok. wp_steps.
  match goal with |- context [run_transaction env ?t ?w5] =>
    destruct (run_transaction env t w5) as [[[] | m] w6] eqn:Htx end.
  - cbn [fst snd]. wp_steps. right.
    exists fid, aid, fd, (parse (or_str r (js "{}"))). eexists.
    split; [exact Hf |]. split; [exact Ha |]. split; [exact Hfd |].
    split; [eauto |]. split; [| split; [exact Htx | reflexivity]]. reflexivity.
  - cbn [fst snd]. wp_steps. left. cbn.
    apply run_transaction_thrown in Htx. rewrite Htx.
    split; [reflexivity | intros ? [= <-]; discriminate].
Qed.

(** The transaction of [analyzeResumeText] writes one Analysis record, under
    the id derived from the file document it read. *)
Lemma analysis_tx_frame env w fileID parsed r w' id :
  run_transaction env (analysis_tx fileID fileID parsed) w = (r, w') ->
  (forall fd, files (w_store w) !! fileID = Some fd -> id <> next_id fileID fd) ->
  analyses (w_store w') !! id = analyses (w_store w) !! id.
Proof.
  intros Hrun Hid. destruct r as [[] | m].
  - apply run_transaction_ok in Hrun.
    destruct Hrun as (ws & lg & s' & Htx & _ & Hc & ->).
    unfold analysis_tx in Htx. cbn [tx_run] in Htx.
    destruct (files (w_store w) !! fileID) as [fd |] eqn:Hf.
    + specialize (Hid fd eq_refl). cbn [tx_run app] in Htx.
      destruct (env_doc_path_ok env _); [| discriminate].
      cbn [tx_run app] in Htx. injection Htx as <- <-.
      cbn [commit apply_write] in Hc. rewrite Hf in Hc.
      cbn [commit apply_write] in Hc. injection Hc as <-.
      cbn [add_event set_store w_store analyses].
      rewrite lookup_insert_ne; [reflexivity |].
      intros Heq. apply Hid. symmetry. exact Heq.
    + cbn [tx_run] in Htx. injection Htx as <- <-.
      cbn [commit] in Hc. injection Hc as <-. reflexivity.
  - apply run_transaction_thrown in Hrun. rewrite Hrun. reflexivity.
Qed.

Lemma analyzeResumeText_frame env text fileID filePath w id :
  (forall fd, files (w_store w) !! fileID = Some fd -> id <> next_id fileID fd) ->
  analyses (w_store (run env (analyzeResumeText text fileID filePath) w).2) !! id
  = analyses (w_store w) !! id.
Proof.
  intros Hid. rewrite run_analyzeResumeText. cbn zeta.
  destruct (env_model env _ _) as [t | m]; cbn; [| by rewrite warn_short_store].
  destruct (env_doc_path_ok env fileID); cbn; [| by rewrite warn_short_store].
  destruct (run_transaction env _ _) as [r w2] eqn:Htx.
  apply analysis_tx_frame with (id := id) in Htx.
  - cbn [add_event w_store] in Htx. rewrite warn_short_store in Htx.
    destruct r as [[] | m]; cbn; exact Htx.
  - cbn [add_event w_store]. rewrite warn_short_store. exact Hid.
Qed.

(** [analyzeResumeText] as a step of a larger run. *)
Lemma analyzeResumeText_wp env text fileID filePath w id
    (Q : result value -> World -> Prop) :
  (forall fd, files (w_store w) !! fileID = Some fd -> id <> next_id fileID fd) ->
  (forall r w', analyses (w_store w') !! id = analyses (w_store w) !! id -> Q r w') ->
  wp env (analyzeResumeText text fileID filePath) Q w.
Proof.
  intros Hid HQ. unfold wp. apply HQ. apply analyzeResumeText_frame. exact Hid.
Qed.

(** The metadata transaction creates the file document with no analyses. *)
Lemma metadata_tx_commit env clock s req uid pdfTitle filePath pdfData payload
    fileID ws lg now s' :
  tx_run env clock 0 s (metadata_tx req uid pdfTitle filePath pdfData payload) [] []
  = (Ok fileID, ws, lg) ->
  commit now ws s = Some s' ->
  analyses s' = analyses s
  /\ fileID = env_auto_id env clock 0
  /\ exists fd, files s' !! fileID = Some fd /\ f_numAnalysis fd = Some 0%nat.
Proof.
  intros Htx Hc. split.
  - eapply commit_analyses; [eapply metadata_tx_writes; exact Htx | exact Hc].
  - revert Htx Hc. unfold metadata_tx. cbn [tx_run app].
    destruct (env_doc_path_ok env uid); [| discriminate].
    cbn [tx_run app].
    destruct (nonempty (resumeId req) && nonempty (versionId req)).
    + cbn [tx_run app].
      repeat (case_match; cbn [tx_run app]; try discriminate).
      intros [= <- <- _]. cbn [commit apply_write users].
      destruct (users s !! uid); [| discriminate]. cbn [commit apply_write].
      intros [= <-]. cbn [files]. split; [reflexivity |].
      eexists. split; [apply lookup_insert_eq | reflexivity].
    + cbn [tx_run app]. intros [= <- <- _]. cbn [commit apply_write users].
      destruct (users s !! uid); [| discriminate]. cbn [commit apply_write].
      intros [= <-]. cbn [files]. split; [reflexivity |].
      eexists. split; [apply lookup_insert_eq | reflexivity].
Qed.

(** [generatePdf] touches the collection [analysis] only through the
    analysis of the document it has just created. *)
Lemma generatePdf_frame env req w id :
  (forall c n, id <> env_auto_id env c n ++ js "-" ++ dec 1) ->
  analyses (w_store (run env (generatePdf req) w).2) !! id
  = analyses (w_store w) !! id.
Proof.
  intros Hid.
  change (wp env (generatePdf req)
            (fun _ w' => analyses (w_store w') !! id = analyses (w_store w) !! id) w).
  unfold generatePdf. wp_steps.
  destruct (negb (nonempty (userId req)) || _); [wp_steps; reflexivity |].
  wp_steps.
  destruct (env_model env _ _) as [r |]; [| wp_steps; reflexivity].
  wp_steps.
  destruct (prop _ _) as [enhanced | e]; [| wp_steps; reflexivity].
  wp_steps.
  destruct (env_fetch_post env _ _ _) as [post | e]; [| wp_steps; reflexivity].
  destruct (negb (r_ok post)).
  { wp_steps. destruct (r_text post); wp_steps; reflexivity. }
  wp_steps.
  destruct (r_json post) as [pdfData | e]; [| wp_steps; reflexivity].
  wp_steps.
  destruct (prop pdfData (js "pdf_url")) as [url | e]; [| wp_steps; reflexivity].
  wp_steps.
  destruct (env_fetch_buffer env _ _) as [data | e]; [| wp_steps; reflexivity].
  wp_steps.
  destruct (env_save_fault env _); cbn [fst snd]; [wp_steps; reflexivity |].
  wp_steps.
  match goal with |- context [run_transaction env ?t ?w5] =>
    destruct (run_transaction env t w5) as [[fileID | m] w6] eqn:Htx end;
    cbn [fst snd].
  - pose proof Htx as Hok. apply run_transaction_ok in Hok.
    destruct Hok as (ws & lg & s' & Hrun & Hfault & Hc & ->).
    destruct (metadata_tx_commit _ _ _ _ _ _ _ _ _ _ _ _ _ _ Hrun Hc)
      as (Han & Hauto & fd & Hfd & Hnum).
    wp_steps. apply (analyzeResumeText_wp _ _ _ _ _ id).
    + cbn [add_event set_store add_log w_store]. intros fd' Hfd'.
      rewrite Hfd in Hfd'. injection Hfd' as <-.
      unfold next_id, next_index. rewrite Hnum, Hauto. apply Hid.
    + intros [v | e] w7 Hfr; wp_steps; cbn [add_log w_store]; rewrite Hfr;
        cbn [add_event set_store add_log w_store]; rewrite Han; reflexivity.
  - wp_steps. cbn. apply run_transaction_thrown in Htx. rewrite Htx. reflexivity.
Qed.

(** [onResumeUploaded] touches the collection [analysis] only through
    [analyzeResumeText]. *)
Lemma onResumeUploaded_frame env object w id :
  (forall fid fd, o_fileID object = Some fid ->
     files (w_store w) !! fid = Some fd -> id <> next_id fid fd) ->
  analyses (w_store (run env (onResumeUploaded object) w).2) !! id
  = analyses (w_store w) !! id.
Proof.
  intros Hid.
  change (wp env (onResumeUploaded object)
            (fun _ w' => analyses (w_store w') !! id = analyses (w_store w) !! id) w).
  unfold onResumeUploaded. wp_steps. cbn zeta.
  destruct (or_str (o_name object) []) as [| c filePath]; [wp_steps; reflexivity |].
  destruct (negb (ends_with _ _)); [wp_steps; reflexivity |].
  destruct (negb (nonempty _)); [wp_steps; reflexivity |].
  wp_steps.
  destruct (env_download env _ _ _) as [data | e]; [| wp_steps; reflexivity].
  wp_steps.
  destruct (env_pdfParse env _ _) as [t | e]; [| wp_steps; reflexivity].
  wp_steps.
  assert (Hw : forall w1 (Q : result unit -> World -> Prop),
             Q (Ok tt) (warn_short (or_str t []) w1) ->
             wp env (if (length (trim (or_str t [])) <? 100)%nat
                     then log Warn (js "Resume text too short or empty.") []
                     else Ret tt) Q w1).
  { intros w1 Q HQ. unfold warn_short in HQ.
    destruct (length (trim (or_str t [])) <? 100)%nat; wp_steps; exact HQ. }
  apply Hw.
  destruct (o_fileID object) as [[| c' fid] |] eqn:Hfid; try (wp_steps; cbn; by rewrite warn_short_store).
  wp_steps. apply (analyzeResumeText_wp _ _ _ _ _ id).
  - rewrite warn_short_store. cbn [add_event w_store]. intros fd Hfd.
    eapply Hid; [reflexivity | exact Hfd].
  - intros [v | e] w7 Hfr; wp_steps; cbn [add_log w_store]; rewrite Hfr;
      rewrite warn_short_store; reflexivity.
Qed.

(** The transaction of [analyzeResumeText] reads the file document itself:
    the position it writes is one more than the [numAnalysis] of the store
    it commits against. *)
Lemma analysis_tx_reads_inside env clock s fileID parsed fd :
  files s !! fileID = Some fd ->
  env_doc_path_ok env (next_id fileID fd) = true ->
  tx_run env clock 0 s (analysis_tx fileID fileID parsed) [] []
  = (Ok tt,
     [UpdateFile fileID (next_index fd) (next_index fd) (next_id fileID fd);
      SetAnalysis (next_id fileID fd)
        (analysis_record (or_str (f_owner fd) []) fileID parsed)],
     []).
Proof.
  intros Hf Hok. unfold analysis_tx. cbn [tx_run]. rewrite Hf. cbn [tx_run app].
  unfold next_id, next_index in Hok. rewrite Hok. reflexivity.
Qed.

(** The run of [analyzeResumeText] on a file document that exists, when
    the model answers and the transaction commits. *)
Lemma run_analyzeResumeText_ok env text fileID filePath w fd t :
  files (w_store w) !! fileID = Some fd ->
  env_model env (w_clock w) (AnalysisPrompt text) = Ok t ->
  env_doc_path_ok env fileID = true ->
  env_doc_path_ok env (next_id fileID fd) = true ->
  env_tx_fault env (S (w_clock w)) = None ->
  let parsed := parse (or_str t (js "{}")) in
  let mk := analysis_record (or_str (f_owner fd) []) fileID parsed in
  exists w',
    run env (analyzeResumeText text fileID filePath) w = (Ok parsed, w')
    /\ w_store w' = appended_store fileID fd mk (S (w_clock w)) (w_store w)
    /\ w_blobs w' = w_blobs w
    /\ w_log w' = w_log (warn_short text w) ++ [analysis_saved fileID filePath]
    /\ w_trace w'
       = w_trace w ++ [EvModel (AnalysisPrompt text);
                       EvCommit [UpdateFile fileID (next_index fd) (next_index fd)
                                   (next_id fileID fd);
                                 SetAnalysis (next_id fileID fd) mk]]
    /\ w_clock w' = S (S (w_clock w)).
Proof.
  intros Hf Hm Hd Hn Hx parsed mk. rewrite run_analyzeResumeText. cbn zeta.
  rewrite warn_short_clock, Hm, Hd. unfold run_transaction.
  cbn [add_event w_store w_clock]. rewrite warn_short_store, warn_short_clock.
  rewrite (analysis_tx_reads_inside env _ _ _ _ fd Hf Hn), Hx.
  cbn [commit apply_write]. rewrite Hf. cbn [commit apply_write].
  eexists. split; [reflexivity |].
  cbn [add_log add_event set_store w_store w_blobs w_log w_trace w_clock].
  split; [reflexivity |].
  split; [unfold warn_short; destruct (_ <? _)%nat; reflexivity |].
  split; [by rewrite app_nil_r |].
  split; [| by rewrite warn_short_clock].
  rewrite <- app_assoc. f_equal.
  unfold warn_short; destruct (_ <? _)%nat; reflexivity.
Qed.

(** What the transaction of [generateNewAnalysis] has done to the
    predecessor and to the record under the new id when it commits. *)
Lemma regen_tx_result env w fileID fd analysisID parsed n newID w' :
  run_transaction env (regen_tx fileID fileID fd analysisID parsed n newID) w
  = (Ok tt, w') ->
  a_nextAnalysis <$> analyses (w_store w') !! analysisID = Some (Some newID)
  /\ (analysisID <> newID ->
      a_nextAnalysis <$> analyses (w_store w') !! newID = Some None).
Proof.
  intros Hrun. apply run_transaction_ok in Hrun.
  destruct Hrun as (ws & lg & s' & Htx & _ & Hc & ->).
  rewrite regen_tx_run in Htx.
  destruct (env_doc_path_ok env newID); [| discriminate].
  destruct (f_owner fd) as [owner |]; [| discriminate].
  destruct (env_doc_path_ok env analysisID); [| discriminate].
  injection Htx as <- <-. cbn [commit apply_write] in Hc.
  destruct (files (w_store w) !! fileID) as [d |]; [| discriminate].
  cbn [commit apply_write analyses] in Hc.
  destruct (<[newID:=_]> (analyses (w_store w)) !! analysisID) as [d' |];
    [| discriminate].
  injection Hc as <-. cbn [add_event set_store w_store analyses].
  rewrite lookup_insert_eq. split; [reflexivity |].
  intros Hne. rewrite lookup_insert_ne, lookup_insert_eq by congruence.
  reflexivity.
Qed.

(** C4, as stated, fails.  From a chain of length 1, a first regeneration
    naming [f-1] sets its [nextAnalysis] to [f-2]; a second regeneration
    naming [f-1] again changes that field to [f-3]. *)
Lemma nextAnalysis_rewritten_counterexample :
  let w1 := (run env_ok (generateNewAnalysis regen_request) (world_of store_chain1)).2 in
  let w2 := (run env_ok (generateNewAnalysis regen_request) w1).2 in
  a_nextAnalysis <$> analyses (w_store w1) !! js "f-1" = Some (Some (js "f-2"))
  /\ a_nextAnalysis <$> analyses (w_store w2) !! js "f-1" = Some (Some (js "f-3")).
Proof. split; vm_compute; reflexivity. Qed.

(** C4, amended.  [nextAnalysis] is not written once.  (1) A
    [generateNewAnalysis] request that is answered 200 named a predecessor
    that existed and has set its [nextAnalysis] to the new id, whether or
    not the field was already set; the record under the new id, if it is
    not the predecessor itself, has [nextAnalysis] null.  (2) Apart from
    the predecessor of a regeneration, the four functions change an
    Analysis record only under the id they derive for the analysis they
    create: every record under another id is left as it was.  (3) A record
    that already exists under the derived id is replaced: after a
    successful [analyzeResumeText] the record under the derived id has
    [nextAnalysis] null, whatever was stored there.  The derived id is
    [fileID-(n+1)] for a file document whose count [n] is below [2^53],
    and the id of the first analysis of the new document for
    [generatePdf]. *)
Theorem nextAnalysis_changed_only_by_regeneration env w id :
  (forall body resp w',
     run env (generateNewAnalysis body) w = (Ok resp, w') ->
     status resp = 200%nat ->
     exists fid aid fd,
       body_field body "fileID" = Ok (Some (VStr fid))
       /\ body_field body "analysisID" = Ok (Some (VStr aid))
       /\ files (w_store w) !! fid = Some fd
       /\ is_Some (analyses (w_store w) !! aid)
       /\ (safe_count (default 0%nat (f_numAnalysis fd)) ->
           let newID := fid ++ js "-" ++ dec (S (default 0%nat (f_numAnalysis fd))) in
           a_nextAnalysis <$> analyses (w_store w') !! aid = Some (Some newID)
           /\ (aid <> newID ->
               a_nextAnalysis <$> analyses (w_store w') !! newID = Some None)))
  /\ (forall body,
       body_field body "analysisID" <> Ok (Some (VStr id)) ->
       (forall fid fd, body_field body "fileID" = Ok (Some (VStr fid)) ->
          files (w_store w) !! fid = Some fd -> spares fid fd id) ->
       analyses (w_store (run env (generateNewAnalysis body) w).2) !! id
       = analyses (w_store w) !! id)
  /\ (forall text fileID filePath,
       (forall fd, files (w_store w) !! fileID = Some fd -> spares fileID fd id) ->
       analyses (w_store (run env (analyzeResumeText text fileID filePath) w).2) !! id
       = analyses (w_store w) !! id)
  /\ (forall object,
       (forall fid fd, o_fileID object = Some fid ->
          files (w_store w) !! fid = Some fd -> spares fid fd id) ->
       analyses (w_store (run env (onResumeUploaded object) w).2) !! id
       = analyses (w_store w) !! id)
  /\ (forall req,
       (forall c n, id <> env_auto_id env c n ++ js "-" ++ dec 1) ->
       analyses (w_store (run env (generatePdf req) w).2) !! id
       = analyses (w_store w) !! id)
  /\ (forall text fileID filePath fd t,
       files (w_store w) !! fileID = Some fd ->
       safe_count (default 0%nat (f_numAnalysis fd)) ->
       env_model env (w_clock w) (AnalysisPrompt text) = Ok t ->
       env_doc_path_ok env fileID = true ->
       env_doc_path_ok env
         (fileID ++ js "-" ++ dec (S (default 0%nat (f_numAnalysis fd)))) = true ->
       env_tx_fault env (S (w_clock w)) = None ->
       a_nextAnalysis <$>
         analyses (w_store (run env (analyzeResumeText text fileID filePath) w).2)
           !! (fileID ++ js "-" ++ dec (S (default 0%nat (f_numAnalysis fd))))
       = Some None).
Proof.
  assert (Hsp : forall fid fd, spares fid fd id -> id <> next_id fid fd).
  { intros fid fd [Hsafe Hne]. by rewrite next_id_safe. }
  split; [| split; [| split; [| split; [| split]]]].
  - intros body resp w' Hrun Hst.
    pose proof (generateNewAnalysis_writes env body w) as H. unfold wp in H.
    rewrite Hrun in H. cbn [fst snd] in H.
    destruct H as [[_ Hno] | (fid & aid & fd & parsed & w5 & Hf & Ha & Hfd & Had & _
                              & Htx & _)].
    { exfalso. exact (Hno resp eq_refl Hst). }
    exists fid, aid, fd. repeat (split; [assumption |]).
    intros Hsafe newID. apply regen_tx_result in Htx.
    rewrite (next_id_safe fid fd Hsafe) in Htx. exact Htx.
  - intros body Hpred Hnew.
    pose proof (generateNewAnalysis_writes env body w) as H. unfold wp in H.
    destruct H as [[-> _] | (fid & aid & fd & parsed & w5 & Hf & Ha & Hfd & _ & Hs
                             & Htx & _)];
      [reflexivity |].
    rewrite <- Hs. eapply regen_tx_frame; [exact Htx | | eauto].
    intros ->. apply Hpred. exact Ha.
  - intros text fileID filePath Hnew. apply analyzeResumeText_frame. eauto.
  - intros object Hnew. apply onResumeUploaded_frame. eauto.
  - intros req Hnew. apply generatePdf_frame. exact Hnew.
  - intros text fileID filePath fd t Hf Hsafe Hm Hd Hn Hx.
    rewrite <- (next_id_safe fileID fd Hsafe) in Hn |- *.
    destruct (run_analyzeResumeText_ok env text fileID filePath w fd t)
      as (w' & -> & Hs & _); try assumption.
    cbn [snd]. rewrite Hs. cbn [appended_store analyses].
    rewrite lookup_insert_eq. reflexivity.
Qed.

Lemma nextAnalysis_changed_only_by_regeneration_witness :
  a_nextAnalysis <$>
    analyses (w_store (run env_ok (generateNewAnalysis regen_request)
                         (world_of store_chain2)).2) !! js "f-1"
  = Some (Some (js "f" ++ js "-" ++ dec 3))
  /\ a_nextAnalysis <$>
       analyses (w_store (run env_ok (generateNewAnalysis regen_request_head)
                            (world_of store_chain2)).2) !! js "f-1"
     = Some (Some (js "f-2"))
  /\ analyses (w_store (run env_ok (analyzeResumeText (js "Jane Doe") (js "f")
                                      (js "u1/cv.pdf"))
                          (world_of store_chain2)).2) !! js "f-2"
     = Some (sample_analysis None)
  /\ a_nextAnalysis <$> analyses store_stale !! js "f-2" = Some (Some (js "f-3"))
  /\ a_nextAnalysis <$>
       analyses (w_store (run env_ok (analyzeResumeText (js "Jane Doe") (js "f")
                                        (js "u1/cv.pdf"))
                            (world_of store_stale)).2) !! js "f-2"
     = Some None.
Proof.
  destruct (nextAnalysis_changed_only_by_regeneration env_ok
              (world_of store_chain2) (js "f-1")) as (Hpred & Hregen & _).
  destruct (nextAnalysis_changed_only_by_regeneration env_ok
              (world_of store_chain2) (js "f-2")) as (_ & _ & Hanalyze & _).
  destruct (nextAnalysis_changed_only_by_regeneration env_ok
              (world_of store_stale) (js "f-2")) as (_ & _ & _ & _ & _ & Hset).
  split; [| split; [| split; [| split]]].
  - set (out := run env_ok (generateNewAnalysis regen_request)
                  (world_of store_chain2)).
    assert (Hout : out = (Ok {| status := 200;
                                payload := NewAnalysisBody (js "f-3") |}, out.2))
      by (vm_compute; reflexivity).
    destruct (Hpred regen_request _ out.2 Hout eq_refl)
      as (fid & aid & fd & Hfid & Haid & Hfd & _ & Hnew).
    vm_compute in Hfid. injection Hfid as <-.
    vm_compute in Haid. injection Haid as <-.
    assert (Hfd' : files (w_store (world_of store_chain2)) !! js "f"
                   = Some (sample_file 2 (<[2%nat := js "f-2"]>
                                            {[ 1%nat := js "f-1" ]})))
      by (vm_compute; reflexivity).
    change [102] with (js "f") in Hfd. rewrite Hfd' in Hfd. injection Hfd as <-.
    destruct Hnew as [Hnew _]; [vm_compute; reflexivity |].
    exact Hnew.
  - rewrite Hregen.
    + vm_compute. reflexivity.
    + vm_compute. discriminate.
    + intros fid fd Hfid Hfd. vm_compute in Hfid. injection Hfid as <-.
      vm_compute in Hfd. injection Hfd as <-.
      split; [vm_compute; reflexivity | vm_compute; discriminate].
  - rewrite Hanalyze.
    + vm_compute. reflexivity.
    + intros fd Hfd. vm_compute in Hfd. injection Hfd as <-.
      split; [vm_compute; reflexivity | vm_compute; discriminate].
  - vm_compute. reflexivity.
  - apply (Hset (js "Jane Doe") (js "f") (js "u1/cv.pdf")
             (sample_file 1 {[ 1%nat := js "f-1" ]}) (Some summary_json));
      vm_compute; reflexivity.
Defined.

(** ** Concurrent appends *)

Lemma allocated_event ev w :
  allocated (add_event ev w) = allocated w ++ positions_of ev.
Proof. unfold allocated. cbn. rewrite flat_map_app. cbn. by rewrite app_nil_r. Qed.

(** The versioning transaction of [analyzeResumeText] on a file document
    that exists: it rejects and writes nothing, or it appends one analysis. *)
Lemma run_analysis_tx env w fileID parsed fd :
  files (w_store w) !! fileID = Some fd ->
  (exists m w',
     run_transaction env (analysis_tx fileID fileID parsed) w = (Thrown m, w')
     /\ w_store w' = w_store w
     /\ allocated w' = allocated w)
  \/ (exists w',
        run_transaction env (analysis_tx fileID fileID parsed) w = (Ok tt, w')
        /\ appended fileID w w').
Proof.
  intros Hf. unfold run_transaction.
  destruct (env_doc_path_ok env (next_id fileID fd)) eqn:Hok.
  - rewrite (analysis_tx_reads_inside env _ _ _ parsed fd Hf Hok).
    destruct (env_tx_fault env (w_clock w)) as [m |].
    + left. do 2 eexists. split; [reflexivity |]. split; [reflexivity |].
      rewrite allocated_event. apply app_nil_r.
    + cbn [commit apply_write]. rewrite Hf. cbn [commit apply_write].
      right. eexists. split; [reflexivity |].
      exists fd, (analysis_record (or_str (f_owner fd) []) fileID parsed).
      split; [exact Hf |]. split; [reflexivity |].
      rewrite allocated_event. reflexivity.
  - unfold analysis_tx. cbn [tx_run]. rewrite Hf. cbn [tx_run app].
    unfold next_id, next_index in Hok. rewrite Hok.
    left. do 2 eexists. split; [reflexivity |]. split; [reflexivity |].
    rewrite allocated_event. apply app_nil_r.
Qed.

Lemma will_analyzeResumeText text fileID filePath :
  will fileID false (analyzeResumeText text fileID filePath).
Proof.
  unfold analyzeResumeText.
  assert (Hrest : forall u : unit, will fileID false
    (try_catch
       ((fun _ : unit =>
          t <- await (Generate (AnalysisPrompt text)) ;;
          let raw := or_str t (js "{}") in
          let parsed := parse raw in
          fileRef <- await (Doc (js "file") (Some (VStr fileID))) ;;
          await (RunTransaction (analysis_tx fileID fileRef parsed)) ;;
          log Info (js "Analysis saved in Firestore for file") [fileID; filePath] ;;
          Ret parsed) u)
       (fun error =>
          log Error (js "analyzeResumeText error:") [error] ;;
          Throw error))).
  { intros _. cbn [try_catch bind await will handle fst snd log perform].
    intros env w Hf. left. split; [reflexivity |].
    split; [rewrite allocated_event; apply app_nil_r |].
    destruct (env_model env (w_clock w) (AnalysisPrompt text)) as [t | m].
    - cbn [try_catch bind await will handle fst snd log perform].
      clear w Hf. intros env' w Hf. left. split; [reflexivity |].
      split; [reflexivity |].
      destruct (env_doc_path_ok env' fileID).
      + cbn [try_catch bind await will handle fst snd log perform].
        clear w Hf. intros env'' w [fd Hf].
        destruct (run_analysis_tx env'' w fileID (parse (or_str t (js "{}"))) fd Hf)
          as [(m & w' & -> & Hs & Htr) | (w' & -> & Happ)].
        * left. split; [exact Hs |]. split; [exact Htr |].
          cbn [try_catch bind await will handle fst snd log perform].
          intros. left. repeat split; reflexivity.
        * right. split; [reflexivity |]. split; [exact Happ |].
          cbn [try_catch bind await will handle fst snd log perform].
          intros. left. repeat split; reflexivity.
      + cbn [try_catch bind await will handle fst snd log perform].
        intros. left. repeat split; reflexivity.
    - cbn [try_catch bind await will handle fst snd log perform].
      intros. left. repeat split; reflexivity. }
  destruct (length (trim text) <? 100)%nat.
  - cbn [try_catch bind await will handle fst snd log perform].
    intros env w Hf. left. split; [reflexivity |]. split; [reflexivity |].
    apply (Hrest tt).
  - apply (Hrest tt).
Qed.

Lemma done_insert bs i :
  bs !! i = Some false -> done (<[i := true]> bs) = S (done bs).
Proof.
  revert i. induction bs as [| b bs IH]; intros [| i] H; try discriminate.
  - injection H as ->. reflexivity.
  - change (<[S i := true]> (b :: bs)) with (b :: <[i := true]> bs).
    cbn [done]. rewrite (IH i H). destruct b; lia.
Qed.

Lemma done_le bs : (done bs <= length bs)%nat.
Proof. induction bs as [| [] bs IH]; cbn; lia. Qed.

Lemma done_all bs : Forall (fun b => b = true) bs -> done bs = length bs.
Proof. induction 1 as [| b bs -> _ IH]; cbn; [reflexivity | by rewrite IH]. Qed.

Lemma done_replicate n : done (replicate n false) = 0%nat.
Proof. induction n as [| n IH]; cbn; [reflexivity | exact IH]. Qed.

Lemma run_schedule_length {A} env sched : forall (ps : list (prog A)) w,
  length (run_schedule env sched ps w).1 = length ps.
Proof.
  induction sched as [| i sched IH]; intros ps w; cbn [run_schedule]; [reflexivity |].
  destruct (ps !! i) as [p |]; [| apply IH].
  destruct (step env p w) as [p' w']. rewrite IH. apply length_insert.
Qed.

Lemma append_inv_step env fileID n0 base bs ps w i p :
  append_inv fileID n0 base bs ps w ->
  ps !! i = Some p ->
  exists bs', append_inv fileID n0 base bs' (<[i := (step env p w).1]> ps)
                (step env p w).2.
Proof.
  intros (Hall & Hsafe & fd & Hf & Hn & Ha & Hidx) Hp.
  destruct (Forall2_lookup_r _ _ _ _ _ Hall Hp) as (b & Hb & Hw).
  destruct p as [v | m | X e k].
  - exists bs. cbn. rewrite list_insert_id by exact Hp.
    split; [exact Hall |]. split; [exact Hsafe |]. exists fd. auto.
  - exists bs. cbn. rewrite list_insert_id by exact Hp.
    split; [exact Hall |]. split; [exact Hsafe |]. exists fd. auto.
  - cbn [will] in Hw. specialize (Hw env w (ex_intro _ fd Hf)).
    cbn [step]. destruct (handle env e w) as [x w'] eqn:He. cbn [fst snd] in *.
    destruct Hw as [(Hs & Hal & Hk) | (-> & (fd0 & mk & Hf0 & Hs & Hal) & Hk)].
    + exists bs. split; [| split; [exact Hsafe |]].
      * rewrite <- (list_insert_id bs i b Hb). apply Forall2_insert; assumption.
      * exists fd. rewrite Hs, Hal. auto.
    + exists (<[i := true]> bs). split; [apply Forall2_insert; assumption |].
      split; [by rewrite length_insert |].
      rewrite Hf in Hf0. injection Hf0 as <-.
      pose proof (done_insert _ _ Hb) as Hdone.
      pose proof (done_le (<[i := true]> bs)) as Hle.
      rewrite length_insert, Hdone in Hle.
      rewrite Hdone, Hs, Hal. cbn [appended_store files analyses].
      eexists. split; [apply lookup_insert_eq |]. cbn [f_numAnalysis f_analysis].
      assert (Hnext : next_index fd = S (n0 + done bs)).
      { rewrite next_index_safe; rewrite Hn; [reflexivity |].
        unfold safe_count in *. lia. }
      split; [cbn; lia |]. split.
      * rewrite Ha, seq_S, Hnext, app_assoc. do 2 f_equal; lia.
      * intros j Hj. destruct (decide (j = next_index fd)) as [-> | Hne].
        -- rewrite !lookup_insert_eq. split; [reflexivity | eauto].
        -- rewrite lookup_insert_ne by congruence.
           destruct (Hidx j ltac:(lia)) as [Hi Hs'].
           split; [exact Hi |]. apply lookup_insert_is_Some'. right. exact Hs'.
Qed.

Lemma append_inv_run env fileID n0 base sched : forall bs ps w,
  append_inv fileID n0 base bs ps w ->
  exists bs', append_inv fileID n0 base bs' (run_schedule env sched ps w).1
                (run_schedule env sched ps w).2.
Proof.
  induction sched as [| i sched IH]; intros bs ps w Hinv; cbn [run_schedule].
  - exists bs. exact Hinv.
  - destruct (ps !! i) as [p |] eqn:Hp; [| eauto].
    destruct (append_inv_step env _ _ _ _ _ _ _ _ Hinv Hp) as [bs' Hinv'].
    destruct (step env p w) as [p' w']. eauto.
Qed.

(** X2. No append is lost through [analyzeResumeText]: for every environment
    and every schedule, [N] concurrent invocations for one file document
    whose count [n0] satisfies [n0 + N < 2^53], once they have all
    returned, leave [numAnalysis] increased by their number, were assigned
    the positions [n0+1 .. n0+N], each once, and the index and the analysis
    collection hold these positions. *)
Theorem concurrent_analysis_keeps_count
    env sched (jobs : list (jstring * jstring)) fileID w fd :
  files (w_store w) !! fileID = Some fd ->
  safe_count (default 0%nat (f_numAnalysis fd) + length jobs) ->
  let n0 := default 0%nat (f_numAnalysis fd) in
  let '(ps', w') :=
    run_schedule env sched
      ((fun job => analyzeResumeText job.1 fileID job.2) <$> jobs) w in
  Forall (fun p => exists v, p = Ret v) ps' ->
  exists fd',
    files (w_store w') !! fileID = Some fd'
    /\ default 0%nat (f_numAnalysis fd') = (n0 + length jobs)%nat
    /\ allocated w' = allocated w ++ seq (S n0) (length jobs)
    /\ forall j, (n0 < j <= n0 + length jobs)%nat ->
         f_analysis fd' !! j = Some (fileID ++ js "-" ++ dec j)
         /\ is_Some (analyses (w_store w') !! (fileID ++ js "-" ++ dec j)).
Proof.
  intros Hf Hsafe n0.
  set (ps := (fun job => analyzeResumeText job.1 fileID job.2) <$> jobs).
  assert (Hinv : append_inv fileID n0 (allocated w) (replicate (length jobs) false)
                   ps w).
  { pose proof (done_replicate (length jobs)) as Hd.
    split; [| split].
    - subst ps. clear. induction jobs as [| job jobs IH]; cbn; constructor.
      + apply will_analyzeResumeText.
      + exact IH.
    - rewrite length_replicate. exact Hsafe.
    - exists fd. rewrite Hd, Nat.add_0_r, app_nil_r. cbn [seq].
      repeat split; try reflexivity; [exact Hf | lia | lia]. }
  destruct (append_inv_run env fileID n0 (allocated w) sched _ _ _ Hinv)
    as (bs' & Hall & _ & fd' & Hf' & Hn & Ha & Hidx).
  pose proof (run_schedule_length env sched ps w) as Hlen.
  destruct (run_schedule env sched ps w) as [ps' w']. cbn [fst snd] in *.
  intros Hret.
  assert (Hlen' : length ps' = length jobs).
  { rewrite Hlen. subst ps. apply length_fmap. }
  assert (Hdone : done bs' = length jobs).
  { rewrite <- Hlen', <- (Forall2_length _ _ _ Hall). apply done_all.
    clear -Hall Hret. induction Hall as [| b p bs ps Hw _ IH]; constructor.
    - apply Forall_inv in Hret. destruct Hret as [v ->]. exact Hw.
    - apply IH. eapply Forall_inv_tail. exact Hret. }
  rewrite Hdone in *. exists fd'. auto.
Qed.

(** C1, on the code.  Two concurrent [generateNewAnalysis] requests for the
    file [f], which has one analysis: both read the file document before
    either commits, both transactions commit, both requests are answered
    200 with the same id [f-2], and the file document ends with
    [numAnalysis = 2] and index positions 1 and 2 only: one of the two
    appends is lost. *)
Theorem concurrent_regeneration_loses_update :
  let final :=
    run_schedule env_ok lost_update_schedule
      [generateNewAnalysis regen_request; generateNewAnalysis regen_request_2]
      (world_of store_chain1) in
  outcome <$> final.1
  = [Some (Ok {| status := 200; payload := NewAnalysisBody (js "f-2") |});
     Some (Ok {| status := 200; payload := NewAnalysisBody (js "f-2") |})]
  /\ commits final.2 = 2%nat
  /\ f_numAnalysis <$> files (w_store final.2) !! js "f" = Some (Some 2%nat)
  /\ f_analysis <$> files (w_store final.2) !! js "f"
     = Some (<[2%nat := js "f-2"]> {[ 1%nat := js "f-1" ]})
  /\ dom (analyses (w_store final.2)) = {[ js "f-1"; js "f-2" ]}.
Proof. repeat split; vm_compute; reflexivity. Qed.

(** ** Where the position is read *)

(** C2, on the code.  The transaction of [generateNewAnalysis] performs no
    read: what it buffers is the same against every store, the position
    being fixed before it starts.  So when another append commits between
    the read of the file document and the transaction, the position written
    is the stale one: here the request reads [numAnalysis = 1], an
    [analyzeResumeText] then commits position 2, and the request still
    writes [numAnalysis = 2] and the id [f-2]. *)
Theorem regeneration_reads_outside_transaction :
  (forall env clock s s' fileID fd analysisID parsed n newID,
     tx_run env clock 0 s
       (regen_tx fileID fileID fd analysisID parsed n newID) [] []
     = tx_run env clock 0 s'
         (regen_tx fileID fileID fd analysisID parsed n newID) [] [])
  /\ let before := run_schedule env_ok (replicate 8 0%nat)
                     [generateNewAnalysis regen_request] (world_of store_chain1) in
     let between := run env_ok (analyzeResumeText (js "Jane Doe") (js "f")
                                  (js "u1/cv.pdf")) before.2 in
     let after := run_schedule env_ok [0%nat] before.1 between.2 in
     outcome <$> before.1 = [None]
     /\ w_store before.2 = store_chain1
     /\ f_numAnalysis <$> files (w_store between.2) !! js "f" = Some (Some 2%nat)
     /\ outcome <$> after.1
        = [Some (Ok {| status := 200; payload := NewAnalysisBody (js "f-2") |})]
     /\ commits after.2 = 2%nat
     /\ f_numAnalysis <$> files (w_store after.2) !! js "f" = Some (Some 2%nat).
Proof.
  split.
  - intros. rewrite !regen_tx_run. reflexivity.
  - repeat split; vm_compute; reflexivity.
Qed.

(** * Further properties of the functions *)

(** ** A successful analysis *)

(** X3. When the file document exists with a count [n] below [2^53], the
    model answers and the transaction commits, [analyzeResumeText] returns
    the parsed answer and appends one analysis: the file document counts
    [n+1] analyses and lists the new id [fileID-(n+1)] at the position
    [n+1], keeping its owner and path; the record under the new id holds
    the owner of the file (the empty string when it has none), the parsed
    content, and [null] for [userRating], [userComment] and [nextAnalysis];
    every other file document and Analysis record, the users and the bucket
    are as before, and "Analysis saved in Firestore for file" is logged. *)
Theorem analyzeResumeText_appends env text fileID filePath w fd t :
  files (w_store w) !! fileID = Some fd ->
  safe_count (default 0%nat (f_numAnalysis fd)) ->
  env_model env (w_clock w) (AnalysisPrompt text) = Ok t ->
  env_doc_path_ok env fileID = true ->
  env_doc_path_ok env
    (fileID ++ js "-" ++ dec (default 0%nat (f_numAnalysis fd) + 1)%nat) = true ->
  env_tx_fault env (S (w_clock w)) = None ->
  let n := default 0%nat (f_numAnalysis fd) in
  let newID := fileID ++ js "-" ++ dec (n + 1)%nat in
  let parsed := parse (or_str t (js "{}")) in
  let '(r, w') := run env (analyzeResumeText text fileID filePath) w in
  r = Ok parsed
  /\ (exists fd',
        files (w_store w') !! fileID = Some fd'
        /\ f_numAnalysis fd' = Some (n + 1)%nat
        /\ f_analysis fd' = <[(n + 1)%nat := newID]> (f_analysis fd)
        /\ f_owner fd' = f_owner fd /\ f_path fd' = f_path fd)
  /\ analyses (w_store w') !! newID
     = Some {| a_owner := or_str (f_owner fd) []; a_fileID := fileID;
               a_content := parsed; a_generateTime := S (w_clock w);
               a_model := GENERATION_MODEL; a_userRating := None;
               a_userComment := None; a_nextAnalysis := None |}
  /\ (forall id, id <> fileID -> files (w_store w') !! id = files (w_store w) !! id)
  /\ (forall id, id <> newID ->
        analyses (w_store w') !! id = analyses (w_store w) !! id)
  /\ users (w_store w') = users (w_store w)
  /\ w_blobs w' = w_blobs w
  /\ analysis_saved fileID filePath ∈ w_log w'.
Proof.
  intros Hf Hsafe Hm Hd Hn Hx n newID parsed. subst n newID.
  rewrite Nat.add_1_r in *.
  pose proof (next_index_safe fd Hsafe) as Hix.
  pose proof (next_id_safe fileID fd Hsafe) as Hid.
  rewrite <- Hid in Hn.
  destruct (run_analyzeResumeText_ok env text fileID filePath w fd t Hf Hm Hd Hn Hx)
    as (w' & -> & Hs & Hb & Hl & _).
  rewrite Hs, Hl. cbn [appended_store files analyses users].
  rewrite Hix, Hid.
  split; [reflexivity |]. split.
  { eexists. split; [apply lookup_insert_eq |]. cbn. auto. }
  split; [apply lookup_insert_eq |].
  split; [intros id Hne; apply lookup_insert_ne; congruence |].
  split; [intros id Hne; apply lookup_insert_ne; congruence |].
  split; [reflexivity |]. split; [exact Hb |]. set_solver.
Qed.

Lemma analyzeResumeText_appends_witness :
  let w' := (run env_ok (analyzeResumeText (js "Jane Doe") (js "f") (js "u1/cv.pdf"))
               (world_of store_chain1)).2 in
  f_numAnalysis <$> files (w_store w') !! js "f" = Some (Some 2%nat)
  /\ a_nextAnalysis <$> analyses (w_store w') !! js "f-2" = Some None.
Proof.
  pose (fd := sample_file 1 {[ 1%nat := js "f-1" ]}).
  assert (Hid : js "f" ++ js "-" ++ dec (default 0%nat (f_numAnalysis fd) + 1)%nat = js "f-2")
    by (vm_compute; reflexivity).
  pose proof (analyzeResumeText_appends env_ok (js "Jane Doe") (js "f")
                (js "u1/cv.pdf") (world_of store_chain1) fd (Some summary_json)) as H.
  cbv zeta in H.
  destruct (run env_ok (analyzeResumeText (js "Jane Doe") (js "f") (js "u1/cv.pdf"))
              (world_of store_chain1)) as [r w'].
  destruct H as (_ & (fd' & Hf & Hn & _) & Ha & _); [vm_compute; reflexivity .. |].
  cbn [snd]. rewrite Hf, <- Hid, Ha. cbn [fmap option_fmap option_map].
  rewrite Hn. split; reflexivity.
Defined.

(** ** The first analysis of a document *)

(** X4. The first analysis of a file document (one whose [numAnalysis] is
    absent or 0) leaves a provenance chain of length 1: position 1 of the
    index names [fileID-1], whose record belongs to the file and points to
    nothing. *)
Theorem first_analysis_starts_chain env text fileID filePath w fd t :
  files (w_store w) !! fileID = Some fd ->
  default 0%nat (f_numAnalysis fd) = 0%nat ->
  env_model env (w_clock w) (AnalysisPrompt text) = Ok t ->
  env_doc_path_ok env fileID = true ->
  env_doc_path_ok env (fileID ++ js "-" ++ dec 1) = true ->
  env_tx_fault env (S (w_clock w)) = None ->
  chain (w_store (run env (analyzeResumeText text fileID filePath) w).2) fileID 1.
Proof.
  intros Hf Hn Hm Hd Hnew Hx.
  assert (Hi : next_index fd = 1%nat) by (unfold next_index; rewrite Hn; reflexivity).
  assert (Hid : next_id fileID fd = fileID ++ js "-" ++ dec 1)
    by (unfold next_id; rewrite Hi; reflexivity).
  destruct (run_analyzeResumeText_ok env text fileID filePath w fd t)
    as (w' & -> & Hs & _); try assumption; [by rewrite Hid |].
  cbn [snd]. rewrite Hs. unfold appended_store. rewrite Hid, Hi.
  eexists. cbn [files analyses]. split; [apply lookup_insert_eq |].
  cbn [f_numAnalysis f_analysis]. split; [reflexivity |].
  intros k Hk. assert (k = 1%nat) as -> by lia.
  rewrite !lookup_insert_eq. split; [reflexivity |].
  eexists. split; [reflexivity |]. split; reflexivity.
Qed.

Lemma first_analysis_starts_chain_witness :
  chain
    (w_store
       (run env_ok (analyzeResumeText (js "Jane Doe") (js "g") (js "u1/g.pdf"))
          (world_of {| files := {[ js "g" := sample_file 0 ∅ ]}; analyses := ∅;
                       users := ∅; versions := ∅ |})).2)
    (js "g") 1.
Proof.
  apply (first_analysis_starts_chain env_ok (js "Jane Doe") (js "g") (js "u1/g.pdf")
           (world_of {| files := {[ js "g" := sample_file 0 ∅ ]}; analyses := ∅;
                        users := ∅; versions := ∅ |})
           (sample_file 0 ∅) (Some summary_json));
    vm_compute; reflexivity.
Defined.

(** ** A failed analysis *)

Lemma run_transaction_blobs {A} env (t : tx A) w :
  w_blobs (run_transaction env t w).2 = w_blobs w.
Proof.
  unfold run_transaction.
  destruct (tx_run env (w_clock w) 0 (w_store w) t [] []) as [[[a | m] ws] lg];
    [| reflexivity].
  destruct (env_tx_fault env (w_clock w)); [reflexivity |].
  destruct (commit (w_clock w) ws (w_store w)); reflexivity.
Qed.

Lemma warn_short_blobs text w : w_blobs (warn_short text w) = w_blobs w.
Proof. unfold warn_short. destruct (_ <? _)%nat; reflexivity. Qed.

(** X5. Whenever [analyzeResumeText] throws, whatever the cause (the model,
    the document path or the transaction), Firestore and the bucket are as
    they were before the call, and the last entry of the log is
    "analyzeResumeText error:" with the error thrown. *)
Theorem analyzeResumeText_failure_writes_nothing env text fileID filePath w e w' :
  run env (analyzeResumeText text fileID filePath) w = (Thrown e, w') ->
  w_store w' = w_store w
  /\ w_blobs w' = w_blobs w
  /\ last (w_log w') = Some (analysis_error e).
Proof.
  rewrite run_analyzeResumeText. cbn zeta.
  destruct (env_model env _ _) as [t | m].
  - destruct (env_doc_path_ok env fileID).
    + destruct (run_transaction env _ _) as [[[] | m] w2] eqn:Htx; [discriminate |].
      intros [= <- <-].
      pose proof (run_transaction_blobs env
                    (analysis_tx fileID fileID (parse (or_str t (js "{}"))))
                    (add_event (EvModel (AnalysisPrompt text)) (warn_short text w)))
        as Hb.
      rewrite Htx in Hb. cbn [snd] in Hb. apply run_transaction_thrown in Htx.
      cbn [add_log w_store w_blobs w_log]. rewrite Htx, Hb, last_snoc.
      cbn [add_event w_store w_blobs].
      rewrite warn_short_store, warn_short_blobs. auto.
    + intros [= <- <-]. cbn [add_log add_event w_store w_blobs w_log].
      rewrite last_snoc, warn_short_store, warn_short_blobs. auto.
  - intros [= <- <-]. cbn [add_log add_event w_store w_blobs w_log].
    rewrite last_snoc, warn_short_store, warn_short_blobs. auto.
Qed.

Lemma analyzeResumeText_failure_writes_nothing_witness :
  let w' := (run env_analysis_fails
               (analyzeResumeText (js "Jane Doe") (js "f") (js "u1/cv.pdf"))
               (world_of store_chain1)).2 in
  w_store w' = store_chain1
  /\ w_blobs w' = ∅
  /\ last (w_log w') = Some (analysis_error (js "model unavailable")).
Proof.
  apply (analyzeResumeText_failure_writes_nothing env_analysis_fails (js "Jane Doe")
           (js "f") (js "u1/cv.pdf") (world_of store_chain1)).
  vm_compute. reflexivity.
Defined.

(** ** Concurrent appends, on an example *)

Lemma concurrent_analysis_keeps_count_witness :
  let final :=
    run_schedule env_ok [0; 1; 0; 1; 0; 1; 0; 1; 0; 1]%nat
      [analyzeResumeText (js "Jane Doe") (js "f") (js "u1/cv.pdf");
       analyzeResumeText (js "Jane Doe, engineer") (js "f") (js "u1/cv.pdf")]
      (world_of store_chain1) in
  exists fd',
    files (w_store final.2) !! js "f" = Some fd'
    /\ default 0%nat (f_numAnalysis fd') = 3%nat
    /\ allocated final.2 = [2; 3]%nat.
Proof.
  intros final.
  assert (Hf0 : files (w_store (world_of store_chain1)) !! js "f"
                = Some (sample_file 1 {[ 1%nat := js "f-1" ]}))
    by (vm_compute; reflexivity).
  pose proof (concurrent_analysis_keeps_count env_ok [0; 1; 0; 1; 0; 1; 0; 1; 0; 1]%nat
                [(js "Jane Doe", js "u1/cv.pdf");
                 (js "Jane Doe, engineer", js "u1/cv.pdf")]
                (js "f") (world_of store_chain1)
                (sample_file 1 {[ 1%nat := js "f-1" ]}) Hf0
                ltac:(vm_compute; reflexivity)) as H.
  cbv zeta in H. cbn [fmap list_fmap fst snd] in H. fold final in H.
  assert (Hps : final.1 = [Ret (parse summary_json); Ret (parse summary_json)])
    by (vm_compute; reflexivity).
  destruct final as [ps' w']. cbn [fst snd] in *. subst ps'.
  destruct H as (fd' & Hf & Hn & Ha & _).
  { repeat constructor; eexists; reflexivity. }
  exists fd'. split; [exact Hf |]. split; [exact Hn |]. exact Ha.
Defined.

(** ** The upload trigger *)

(** [onResumeUploaded] unfolded along its steps. *)
Lemma run_onResumeUploaded env object w :
  run env (onResumeUploaded object) w =
  match or_str (o_name object) [] with
  | [] =>
      (Ok tt, add_log [{| lg_level := Warn;
                          lg_msg := js "No object.name in event; exiting.";
                          lg_detail := [] |}] w)
  | c :: p =>
      let filePath := c :: p in
      if negb (ends_with (js ".pdf") filePath) then
        (Ok tt, add_log [{| lg_level := Debug;
                            lg_msg := js "Skipping non-PDF file: " ++ filePath;
                            lg_detail := [] |}] w)
      else if negb (nonempty (o_bucket object)) then
        (Ok tt, add_log [{| lg_level := Error;
                            lg_msg := js "Missing bucket in event data.";
                            lg_detail := [] |}] w)
      else
        let w1 := add_event (EvDownload filePath) w in
        match env_download env (w_clock w) (o_bucket object) filePath with
        | Thrown e => (Thrown e, add_log [upload_error e] w1)
        | Ok data =>
            let w2 := add_event EvPdfParse w1 in
            match env_pdfParse env (w_clock w1) data with
            | Thrown e => (Thrown e, add_log [upload_error e] w2)
            | Ok t =>
                let w3 := warn_short (or_str t []) w2 in
                match o_fileID object with
                | Some (c' :: s) =>
                    match run env (analyzeResumeText (or_str t []) (c' :: s) filePath)
                            w3 with
                    | (Ok _, w4) => (Ok tt, w4)
                    | (Thrown e, w4) => (Thrown e, add_log [upload_error e] w4)
                    end
                | _ => (Ok tt, add_log [no_file_id] w3)
                end
            end
        end
  end.
Proof.
  unfold onResumeUploaded. rewrite run_try_catch. cbn zeta.
  destruct (or_str (o_name object) []) as [| c p]; [reflexivity |].
  destruct (negb (ends_with _ _)); [reflexivity |].
  destruct (negb (nonempty _)); [reflexivity |].
  rewrite run_bind, run_await. cbn [handle].
  destruct (env_download env _ _ _) as [data | e]; [| reflexivity].
  rewrite run_bind, run_await. cbn [handle].
  destruct (env_pdfParse env _ _) as [t | e]; [| reflexivity].
  rewrite run_bind.
  assert (Hw : forall w0, run env (if (length (trim (or_str t [])) <? 100)%nat
                        then log Warn (js "Resume text too short or empty.") []
                        else Ret ()) w0 = (Ok tt, warn_short (or_str t []) w0)).
  { intros w0. unfold warn_short. destruct (_ <? _)%nat; reflexivity. }
  rewrite Hw.
  destruct (o_fileID object) as [[| c' s] |]; try reflexivity.
  rewrite run_bind.
  destruct (run env (analyzeResumeText _ _ _) _) as [[v | e] w4]; reflexivity.
Qed.

(** X6. An upload event without an object name, with a name that does not
    end in [.pdf], or without a bucket is dropped: [onResumeUploaded]
    returns normally, and all it has done is write one log entry; nothing
    is downloaded, the model is not called and nothing is written. *)
Theorem onResumeUploaded_skips env object w :
  nonempty (o_name object) = false
  \/ ends_with (js ".pdf") (or_str (o_name object) []) = false
  \/ nonempty (o_bucket object) = false ->
  exists entry, run env (onResumeUploaded object) w = (Ok tt, add_log [entry] w).
Proof.
  intros H. rewrite run_onResumeUploaded.
  destruct (o_name object) as [[| c p] |]; cbn [or_str nonempty] in *; eauto.
  cbn zeta. destruct (ends_with (js ".pdf") (c :: p)); cbn [negb]; eauto.
  destruct (nonempty (o_bucket object)); cbn [negb]; eauto.
  destruct H as [H | [H | H]]; discriminate.
Qed.

Lemma onResumeUploaded_skips_witness :
  exists entry,
    run env_ok (onResumeUploaded {| o_name := Some (js "u1/cv.docx");
                                    o_bucket := Some (js "b");
                                    o_fileID := Some (js "f") |})
      (world_of store_chain1)
    = (Ok tt, add_log [entry] (world_of store_chain1)).
Proof.
  apply onResumeUploaded_skips. right. left. vm_compute. reflexivity.
Defined.

(** X7. The [fileID] of the metadata is checked only after the download:
    for a PDF whose metadata has no [fileID] (or an empty one),
    [onResumeUploaded] downloads the object and extracts its text, then
    logs "File ID not found in metadata." and returns normally; the model
    is not called and the store is unchanged. *)
Theorem onResumeUploaded_without_fileID env object w c p data t :
  o_name object = Some (c :: p) ->
  ends_with (js ".pdf") (c :: p) = true ->
  nonempty (o_bucket object) = true ->
  nonempty (o_fileID object) = false ->
  env_download env (w_clock w) (o_bucket object) (c :: p) = Ok data ->
  env_pdfParse env (S (w_clock w)) data = Ok t ->
  let '(r, w') := run env (onResumeUploaded object) w in
  r = Ok tt
  /\ w_store w' = w_store w
  /\ w_trace w' = w_trace w ++ [EvDownload (c :: p); EvPdfParse]
  /\ last (w_log w') = Some no_file_id.
Proof.
  intros Hn He Hb Hf Hd Hp. rewrite run_onResumeUploaded, Hn. cbn [or_str].
  cbn zeta. rewrite He, Hb. cbn [negb]. rewrite Hd. cbn [add_event w_clock].
  rewrite Hp.
  assert (Hw : w_trace (warn_short (or_str t [])
                          (add_event EvPdfParse (add_event (EvDownload (c :: p)) w)))
               = w_trace w ++ [EvDownload (c :: p); EvPdfParse]).
  { unfold warn_short. destruct (_ <? _)%nat; cbn; by rewrite <- app_assoc. }
  destruct (o_fileID object) as [[| c' s] |]; [| (cbn in Hf; discriminate Hf) |];
    cbn [add_log w_store w_trace w_log]; rewrite last_snoc, warn_short_store, Hw;
    auto.
Qed.

Lemma onResumeUploaded_without_fileID_witness :
  let '(r, w') :=
    run env_ok (onResumeUploaded {| o_name := Some (js "u1/cv.pdf");
                                    o_bucket := Some (js "b");
                                    o_fileID := None |})
      (world_of store_chain1) in
  r = Ok tt
  /\ w_store w' = w_store (world_of store_chain1)
  /\ w_trace w' = w_trace (world_of store_chain1)
                  ++ [EvDownload (117 :: js "1/cv.pdf"); EvPdfParse]
  /\ last (w_log w') = Some no_file_id.
Proof.
  apply (onResumeUploaded_without_fileID env_ok
           {| o_name := Some (js "u1/cv.pdf"); o_bucket := Some (js "b");
              o_fileID := None |}
           (world_of store_chain1) 117 (js "1/cv.pdf") (js "%PDF")
           (Some (js "Jane Doe, engineer")));
    vm_compute; reflexivity.
Defined.

(** X8. [onResumeUploaded] surfaces every failure: whenever it throws (the
    download, the text extraction or [analyzeResumeText] failed), the store
    is as before and the last entry of the log is "onResumeUploaded error"
    with the error it rethrows. *)
Theorem onResumeUploaded_surfaces_errors env object w e w' :
  run env (onResumeUploaded object) w = (Thrown e, w') ->
  w_store w' = w_store w
  /\ last (w_log w') = Some (upload_error e).
Proof.
  rewrite run_onResumeUploaded.
  destruct (or_str (o_name object) []) as [| c p]; [discriminate |]. cbn zeta.
  destruct (negb (ends_with _ _)); [discriminate |].
  destruct (negb (nonempty _)); [discriminate |].
  destruct (env_download env _ _ _) as [data | m].
  - destruct (env_pdfParse env _ _) as [t | m].
    + destruct (o_fileID object) as [[| c' s] |]; try discriminate.
      destruct (run env (analyzeResumeText _ _ _) _) as [[v | m] w4] eqn:Ha;
        [discriminate |].
      intros [= <- <-]. apply analyzeResumeText_thrown in Ha as [Hs _].
      cbn [add_log w_store w_log]. rewrite last_snoc, Hs, warn_short_store. auto.
    + intros [= <- <-]. cbn [add_log w_store w_log]. rewrite last_snoc. auto.
  - intros [= <- <-]. cbn [add_log w_store w_log]. rewrite last_snoc. auto.
Qed.

Lemma onResumeUploaded_surfaces_errors_witness :
  let w' := (run env_analysis_fails
               (onResumeUploaded {| o_name := Some (js "u1/cv.pdf");
                                    o_bucket := Some (js "b");
                                    o_fileID := Some (js "f") |})
               (world_of store_chain1)).2 in
  w_store w' = store_chain1
  /\ last (w_log w') = Some (upload_error (js "model unavailable")).
Proof.
  apply (onResumeUploaded_surfaces_errors env_analysis_fails
           {| o_name := Some (js "u1/cv.pdf"); o_bucket := Some (js "b");
              o_fileID := Some (js "f") |}
           (world_of store_chain1)).
  vm_compute. reflexivity.
Defined.

(** X9. An uploaded PDF whose metadata names a file document that exists,
    with a count [n] below [2^53], is analysed once: when the download, the
    text extraction and the model call succeed and the transaction commits,
    [onResumeUploaded] returns normally, the store is what it was with one
    analysis appended to that file document (position [n+1], id
    [fileID-(n+1)]), its content being the parsed answer of the model for
    the extracted text, and the outside calls are the download, the text
    extraction, one model call and one commit, in this order. *)
Theorem onResumeUploaded_analyses_upload
    env object w c p fileID data t fd r :
  o_name object = Some (c :: p) ->
  ends_with (js ".pdf") (c :: p) = true ->
  nonempty (o_bucket object) = true ->
  o_fileID object = Some fileID ->
  fileID <> [] ->
  env_download env (w_clock w) (o_bucket object) (c :: p) = Ok data ->
  env_pdfParse env (S (w_clock w)) data = Ok t ->
  files (w_store w) !! fileID = Some fd ->
  safe_count (default 0%nat (f_numAnalysis fd)) ->
  env_model env (S (S (w_clock w))) (AnalysisPrompt (or_str t [])) = Ok r ->
  env_doc_path_ok env fileID = true ->
  env_doc_path_ok env
    (fileID ++ js "-" ++ dec (default 0%nat (f_numAnalysis fd) + 1)%nat) = true ->
  env_tx_fault env (S (S (S (w_clock w)))) = None ->
  let parsed := parse (or_str r (js "{}")) in
  let '(res, w') := run env (onResumeUploaded object) w in
  res = Ok tt
  /\ next_index fd = (default 0%nat (f_numAnalysis fd) + 1)%nat
  /\ next_id fileID fd
     = fileID ++ js "-" ++ dec (default 0%nat (f_numAnalysis fd) + 1)%nat
  /\ w_store w'
     = appended_store fileID fd
         (analysis_record (or_str (f_owner fd) []) fileID parsed)
         (S (S (S (w_clock w)))) (w_store w)
  /\ w_trace w'
     = w_trace w ++ [EvDownload (c :: p); EvPdfParse;
                     EvModel (AnalysisPrompt (or_str t []));
                     EvCommit [UpdateFile fileID (next_index fd) (next_index fd)
                                 (next_id fileID fd);
                               SetAnalysis (next_id fileID fd)
                                 (analysis_record (or_str (f_owner fd) []) fileID
                                    parsed)]].
Proof.
  intros Hn He Hb Hf Hne Hd Hp Hfd Hsafe Hm Hok Hnew Hx parsed.
  rewrite Nat.add_1_r in *.
  pose proof (next_index_safe fd Hsafe) as Hix.
  pose proof (next_id_safe fileID fd Hsafe) as Hid.
  rewrite <- Hid in Hnew.
  rewrite run_onResumeUploaded, Hn. cbn [or_str]. cbn zeta.
  rewrite He, Hb. cbn [negb]. rewrite Hd. cbn [add_event w_clock]. rewrite Hp, Hf.
  destruct fileID as [| c' s]; [congruence |].
  set (w3 := warn_short (or_str t []) _).
  assert (Hw3 : w_store w3 = w_store w /\ w_clock w3 = S (S (w_clock w))
                /\ w_trace w3 = w_trace w ++ [EvDownload (c :: p); EvPdfParse]).
  { subst w3. rewrite warn_short_store, warn_short_clock.
    split; [reflexivity |]. split; [reflexivity |].
    unfold warn_short. destruct (_ <? _)%nat; cbn; by rewrite <- app_assoc. }
  destruct Hw3 as (Hs3 & Hc3 & Ht3).
  destruct (run_analyzeResumeText_ok env (or_str t []) (c' :: s) (c :: p) w3 fd r)
    as (w4 & -> & Hs4 & _ & _ & Ht4 & _); rewrite ?Hs3, ?Hc3; try assumption.
  split; [reflexivity |]. split; [exact Hix |]. split; [exact Hid |].
  rewrite Hs4, Ht4, Hs3, Hc3, Ht3.
  split; [reflexivity |]. by rewrite <- app_assoc.
Qed.

Lemma onResumeUploaded_analyses_upload_witness :
  let w' := (run env_ok
               (onResumeUploaded {| o_name := Some (js "u1/cv.pdf");
                                    o_bucket := Some (js "b");
                                    o_fileID := Some (js "f") |})
               (world_of store_chain1)).2 in
  f_numAnalysis <$> files (w_store w') !! js "f" = Some (Some 2%nat).
Proof.
  pose (fd := sample_file 1 {[ 1%nat := js "f-1" ]}).
  pose proof (onResumeUploaded_analyses_upload env_ok
                {| o_name := Some (js "u1/cv.pdf"); o_bucket := Some (js "b");
                   o_fileID := Some (js "f") |}
                (world_of store_chain1) 117 (js "1/cv.pdf") (js "f") (js "%PDF")
                (Some (js "Jane Doe, engineer")) fd (Some summary_json)) as H.
  cbv zeta in H |- *.
  destruct (run env_ok _ _) as [res w'].
  destruct H as (_ & _ & _ & Hs & _);
    [vm_compute; reflexivity | vm_compute; reflexivity | reflexivity
    | reflexivity | discriminate | vm_compute; reflexivity .. |].
  cbn [snd]. rewrite Hs. vm_compute. reflexivity.
Defined.

(** ** The answers of [generateNewAnalysis] *)

(** X10. [generateNewAnalysis] never throws: in every environment and for
    every request body it sends a response, whose status is 200, 400, 404
    or 500.  Unless the status is 200 the store is as before the request;
    the bucket is never written. *)
Theorem generateNewAnalysis_always_answers env body w :
  exists resp,
    (run env (generateNewAnalysis body) w).1 = Ok resp
    /\ (status resp = 200 \/ status resp = 400 \/ status resp = 404
        \/ status resp = 500)%nat
    /\ (status resp <> 200%nat ->
        w_store (run env (generateNewAnalysis body) w).2 = w_store w)
    /\ w_blobs (run env (generateNewAnalysis body) w).2 = w_blobs w.
Proof.
  change (wp env (generateNewAnalysis body)
            (fun r w' => exists resp, r = Ok resp
               /\ (status resp = 200 \/ status resp = 400 \/ status resp = 404
                   \/ status resp = 500)%nat
               /\ (status resp <> 200%nat -> w_store w' = w_store w)
               /\ w_blobs w' = w_blobs w) w).
  assert (Herr : forall m w0, w_store w0 = w_store w -> w_blobs w0 = w_blobs w ->
            wp env (log Console (js "Detailed error:") [m] ;;
                    send 500 (ErrorBody m None))
              (fun r w' => exists resp, r = Ok resp
                 /\ (status resp = 200 \/ status resp = 400 \/ status resp = 404
                     \/ status resp = 500)%nat
                 /\ (status resp <> 200%nat -> w_store w' = w_store w)
                 /\ w_blobs w' = w_blobs w) w0).
  { intros m w0 Hs Hb. wp_steps. eexists. split; [reflexivity |].
    cbn [status add_log w_store w_blobs]. auto 10. }
  assert (Hsend : forall st msg w0, w_store w0 = w_store w -> w_blobs w0 = w_blobs w ->
            (st = 400 \/ st = 404)%nat ->
            exists resp, Ok {| status := st; payload := ErrorBody msg None |} = Ok resp
              /\ (status resp = 200 \/ status resp = 400 \/ status resp = 404
                  \/ status resp = 500)%nat
              /\ (status resp <> 200%nat -> w_store w0 = w_store w)
              /\ w_blobs w0 = w_blobs w).
  { intros st msg w0 Hs Hb Hst. eexists. split; [reflexivity |].
    cbn [status]. split; [tauto | auto]. }
  unfold generateNewAnalysis. wp_steps.
  destruct (body_field body "fileID") as [fileID | e]; [| by apply Herr].
  wp_steps.
  destruct (body_field body "analysisID") as [analysisID | e]; [| by apply Herr].
  wp_steps.
  destruct (body_field body "userRating") as [userRating | e]; [| by apply Herr].
  wp_steps.
  destruct (body_field body "userComment") as [userComment | e]; [| by apply Herr].
  destruct (negb (truthy fileID) || _ || _ || _); [wp_steps; apply Hsend; auto |].
  wp_steps.
  destruct analysisID as [[| | | aid | |] |]; try by apply Herr.
  destruct (env_doc_path_ok env aid); [| by apply Herr].
  wp_steps. unfold read. cbn [fst snd].
  destruct (env_read_fault env (w_clock w)); [by apply Herr |].
  destruct (analyses (w_store w) !! aid) as [ad |]; [| wp_steps; apply Hsend; auto].
  wp_steps.
  destruct fileID as [[| | | fid | |] |]; try by apply Herr.
  destruct (env_doc_path_ok env fid) eqn:Hok; [| by apply Herr].
  wp_steps. unfold read. cbn [fst snd add_event w_clock w_store].
  destruct (env_read_fault env _); [by apply Herr |].
  destruct (files (w_store w) !! fid) as [fd |]; [| wp_steps; apply Hsend; auto].
  destruct (f_path fd) as [[| c p] |]; try (wp_steps; apply Hsend; auto).
  wp_steps.
  destruct (env_download env _ None (c :: p)); [| by apply Herr].
  wp_steps.
  destruct (env_pdfParse env _ _); [| by apply Herr].
  wp_steps.
  destruct (env_model env _ _) as [r |]; [| by apply Herr].
  wp_steps. rewrite Hok. wp_steps.
  match goal with |- context [run_transaction env ?t ?w5] =>
    pose proof (run_transaction_blobs env t w5) as Hb;
    destruct (run_transaction env t w5) as [[[] | m] w6] eqn:Htx end;
    cbn [fst snd] in *.
  - wp_steps. eexists. split; [reflexivity |]. cbn [status].
    split; [auto |]. split; [congruence | exact Hb].
  - apply Herr; [| exact Hb].
    apply run_transaction_thrown in Htx. rewrite Htx. reflexivity.
Qed.

(** X11. A well-formed request whose [analysisID] names no Analysis record
    is answered 404 "Analysis document not found."; the read of that record
    is the only thing the handler did: the file document is not read,
    nothing is downloaded, the model is not called and nothing is
    written. *)
Theorem generateNewAnalysis_analysis_not_found env m w analysisID :
  m !! js "analysisID" = Some (VStr analysisID) ->
  truthy (m !! js "fileID") = true ->
  truthy (m !! js "analysisID") = true ->
  truthy (m !! js "userRating") = true ->
  truthy (m !! js "userComment") = true ->
  env_doc_path_ok env analysisID = true ->
  env_read_fault env (w_clock w) = None ->
  analyses (w_store w) !! analysisID = None ->
  run env (generateNewAnalysis (Some (VObj m))) w
  = (Ok {| status := 404;
           payload := ErrorBody (js "Analysis document not found.") None |},
     add_event (EvRead (js "analysis") analysisID) w).
Proof.
  intros Haid Tf Ta Tr Tc Oa Hr Hnone.
  unfold generateNewAnalysis, body_field, prop. cbn [lift bind try_catch].
  rewrite Tf, Ta, Tr, Tc. cbn [negb orb].
  cbn [try_catch bind await].
  rewrite run_vis. cbn [handle]. rewrite Haid, Oa. cbn [try_catch bind].
  rewrite run_vis. cbn [handle]. unfold read. rewrite Hr, Hnone. reflexivity.
Qed.

Lemma generateNewAnalysis_analysis_not_found_witness :
  run env_ok (generateNewAnalysis
                (request (js "f") (js "f-9") (VNum (Number false 4 0))
                   (VStr (js "more detail"))))
    (world_of store_chain1)
  = (Ok {| status := 404;
           payload := ErrorBody (js "Analysis document not found.") None |},
     add_event (EvRead (js "analysis") (js "f-9")) (world_of store_chain1)).
Proof.
  apply (generateNewAnalysis_analysis_not_found env_ok _ (world_of store_chain1)
           (js "f-9"));
    vm_compute; reflexivity.
Defined.

Lemma generateNewAnalysis_file_not_found_witness :
  (run env_ok (generateNewAnalysis
                 (request (js "g") (js "f-1") (VNum (Number false 4 0))
                    (VStr (js "more detail"))))
     (world_of store_chain1)).1
  = Ok {| status := 404;
          payload := ErrorBody (js "File document not found.") None |}.
Proof.
  pose (w1 := (handle env_ok (GetAnalysis (js "f-1")) (world_of store_chain1)).2).
  pose (w2 := (handle env_ok (GetFile (js "g")) w1).2).
  destruct (generateNewAnalysis_file_not_found env_ok
              (<[js "fileID" := VStr (js "g")]>
               (<[js "analysisID" := VStr (js "f-1")]>
               (<[js "userRating" := VNum (Number false 4 0)]>
               {[ js "userComment" := VStr (js "more detail") ]})))
              (world_of store_chain1) (js "g") (js "f-1")
              (sample_analysis None) w1 w2) as [H _];
    [vm_compute; reflexivity .. |].
  unfold request. rewrite H. reflexivity.
Defined.

(** X12. When the file document exists but has no [path] (or an empty
    one), the request is answered 400 "File path not found in document.";
    the two reads are the only outside calls and the store is unchanged. *)
Theorem generateNewAnalysis_path_missing env m w fileID analysisID ad w1 fd w2 :
  m !! js "fileID" = Some (VStr fileID) ->
  m !! js "analysisID" = Some (VStr analysisID) ->
  truthy (m !! js "fileID") = true ->
  truthy (m !! js "analysisID") = true ->
  truthy (m !! js "userRating") = true ->
  truthy (m !! js "userComment") = true ->
  env_doc_path_ok env analysisID = true ->
  env_doc_path_ok env fileID = true ->
  handle env (GetAnalysis analysisID) w = (Ok (Some ad), w1) ->
  handle env (GetFile fileID) w1 = (Ok (Some fd), w2) ->
  nonempty (f_path fd) = false ->
  run env (generateNewAnalysis (Some (VObj m))) w
  = (Ok {| status := 400;
           payload := ErrorBody (js "File path not found in document.") None |}, w2)
  /\ w_store w2 = w_store w
  /\ w_trace w2 = w_trace w ++ [EvRead (js "analysis") analysisID;
                                EvRead (js "file") fileID].
Proof.
  intros Hfid Haid Tf Ta Tr Tc Oa Of Hga Hgf Hp. split.
  - unfold generateNewAnalysis, body_field, prop. cbn [lift bind try_catch].
    rewrite Tf, Ta, Tr, Tc. cbn [negb orb].
    cbn [try_catch bind await].
    rewrite run_vis. cbn [handle]. rewrite Haid, Oa. cbn [try_catch bind].
    rewrite run_vis, Hga. cbn [try_catch bind].
    rewrite run_vis. cbn [handle]. rewrite Hfid, Of. cbn [try_catch bind].
    rewrite run_vis, Hgf. cbn [try_catch bind].
    destruct (f_path fd) as [[| c p] |]; [reflexivity | discriminate Hp | reflexivity].
  - cbn [handle] in Hga, Hgf. unfold read in Hga, Hgf.
    injection Hga as _ <-. injection Hgf as _ <-.
    cbn [add_event w_store w_trace]. rewrite <- app_assoc. auto.
Qed.

Lemma generateNewAnalysis_path_missing_witness :
  let s := {| files := {[ js "f" :=
                 {| f_owner := Some (js "u1"); f_path := None;
                    f_numAnalysis := Some 1%nat;
                    f_analysis := {[ 1%nat := js "f-1" ]};
                    f_filename := None; f_type := None;
                    f_lastUpdate := None; f_uploadDate := None |} ]};
              analyses := {[ js "f-1" := sample_analysis None ]};
              users := ∅; versions := ∅ |} in
  (run env_ok (generateNewAnalysis regen_request) (world_of s)).1
  = Ok {| status := 400;
          payload := ErrorBody (js "File path not found in document.") None |}.
Proof.
  intros s.
  pose (fd := {| f_owner := Some (js "u1"); f_path := None;
                 f_numAnalysis := Some 1%nat;
                 f_analysis := {[ 1%nat := js "f-1" ]};
                 f_filename := None; f_type := None;
                 f_lastUpdate := None; f_uploadDate := None |}).
  pose (w1 := (handle env_ok (GetAnalysis (js "f-1")) (world_of s)).2).
  pose (w2 := (handle env_ok (GetFile (js "f")) w1).2).
  destruct (generateNewAnalysis_path_missing env_ok
              (<[js "fileID" := VStr (js "f")]>
               (<[js "analysisID" := VStr (js "f-1")]>
               (<[js "userRating" := VNum (Number false 4 0)]>
               {[ js "userComment" := VStr (js "more detail") ]})))
              (world_of s) (js "f") (js "f-1")
              (sample_analysis None) w1 fd w2) as [H _];
    [vm_compute; reflexivity .. |].
  unfold regen_request, request. rewrite H. reflexivity.
Defined.

(** ** Analysis ids *)

Lemma js_inj s1 s2 : js s1 = js s2 -> s1 = s2.
Proof.
  unfold js. revert s2. induction s1 as [| a s1 IH]; intros [| b s2] H;
    try discriminate; [reflexivity |].
  cbn in H. injection H as Ha Hs.
  f_equal; [| by apply IH].
  rewrite <- (ascii_N_embedding a), <- (ascii_N_embedding b), Ha. reflexivity.
Qed.

Lemma dec_inj n1 n2 : dec n1 = dec n2 -> n1 = n2.
Proof. intros H. apply js_inj in H. by apply (inj pretty) in H. Qed.

(** The decimal rendering of a number holds no [-]. *)
Lemma pretty_N_go_no_dash x : forall s,
  Forall (fun a => a <> "-"%char) (list_ascii_of_string s) ->
  Forall (fun a => a <> "-"%char) (list_ascii_of_string (pretty_N_go x s)).
Proof.
  induction (N.lt_wf_0 x) as [x _ IH]. intros s Hs.
  assert (x = 0 \/ 0 < x)%N as [-> | Hx] by lia.
  - by rewrite pretty_N_go_0.
  - rewrite pretty_N_go_step by done. apply IH.
    + by apply N.div_lt.
    + cbn. constructor; [| exact Hs].
      unfold pretty_N_char. by repeat case_match.
Qed.

Lemma dec_no_dash n : N_of_ascii "-" ∉ dec n.
Proof.
  unfold dec, js, pretty, pretty_nat, pretty, pretty_N.
  assert (H : Forall (fun a => a <> "-"%char)
                (list_ascii_of_string
                   (if decide (N.of_nat n = 0) then "0"%string
                    else pretty_N_go (N.of_nat n) ""))).
  { case_decide; [repeat constructor; discriminate |].
    apply pretty_N_go_no_dash. constructor. }
  intros Hin. apply list_elem_of_fmap in Hin as (a & Ha & Hin).
  rewrite Forall_forall in H. apply (H a Hin).
  rewrite <- (ascii_N_embedding a), <- Ha. reflexivity.
Qed.

(** A string is cut in one way only at the last occurrence of a character. *)
Lemma last_occurrence_inj (x : N) a1 a2 d1 d2 :
  x ∉ d1 -> x ∉ d2 -> a1 ++ x :: d1 = a2 ++ x :: d2 -> a1 = a2 /\ d1 = d2.
Proof.
  revert a2. induction a1 as [| c a1 IH]; intros [| c2 a2] H1 H2 H; cbn in H.
  - injection H as ->. auto.
  - injection H as _ Hd. exfalso. apply H1. rewrite Hd.
    apply elem_of_app. right. apply list_elem_of_here.
  - injection H as _ Hd. exfalso. apply H2. rewrite <- Hd.
    apply elem_of_app. right. apply list_elem_of_here.
  - injection H as -> H. destruct (IH a2 H1 H2 H) as [-> ->]. auto.
Qed.

(** X13. The analysis ids [`${fileID}-${position}`] are unambiguous: two
    different pairs of a file id and a position never give the same id,
    even when file ids themselves contain [-] or digits. *)
Theorem analysis_id_injective fileID1 n1 fileID2 n2 :
  (fileID1, n1) <> (fileID2, n2) ->
  fileID1 ++ js "-" ++ dec n1 <> fileID2 ++ js "-" ++ dec n2.
Proof.
  intros Hne Heq. apply Hne.
  change (js "-") with [N_of_ascii "-"] in Heq. cbn [app] in Heq.
  apply last_occurrence_inj in Heq as [-> Hd]; [| apply dec_no_dash ..].
  apply dec_inj in Hd as ->. reflexivity.
Qed.

Lemma analysis_id_injective_witness :
  js "a-1" ++ js "-" ++ dec 2 <> js "a" ++ js "-" ++ dec 12.
Proof.
  apply analysis_id_injective. vm_compute. discriminate.
Defined.

(** ** The provenance chain *)

(** The store after the transaction of [generateNewAnalysis] has committed. *)
Lemma regen_tx_store env w fileID fd analysisID parsed owner fd0 ad :
  env_doc_path_ok env (next_id fileID fd) = true ->
  env_doc_path_ok env analysisID = true ->
  f_owner fd = Some owner ->
  env_tx_fault env (w_clock w) = None ->
  files (w_store w) !! fileID = Some fd0 ->
  analyses (w_store w) !! analysisID = Some ad ->
  analysisID <> next_id fileID fd ->
  exists w',
    run_transaction env
      (regen_tx fileID fileID fd analysisID parsed (next_index fd)
         (next_id fileID fd)) w = (Ok tt, w')
    /\ files (w_store w')
       = <[fileID := {| f_owner := f_owner fd0; f_path := f_path fd0;
                        f_numAnalysis := Some (next_index fd);
                        f_analysis := <[next_index fd := next_id fileID fd]>
                                        (f_analysis fd0);
                        f_filename := f_filename fd0; f_type := f_type fd0;
                        f_lastUpdate := Some (w_clock w);
                        f_uploadDate := f_uploadDate fd0 |}]> (files (w_store w))
    /\ analyses (w_store w')
       = <[analysisID := {| a_owner := a_owner ad; a_fileID := a_fileID ad;
                            a_content := a_content ad;
                            a_generateTime := a_generateTime ad;
                            a_model := a_model ad;
                            a_userRating := a_userRating ad;
                            a_userComment := a_userComment ad;
                            a_nextAnalysis := Some (next_id fileID fd) |}]>
           (<[next_id fileID fd := analysis_record owner fileID parsed (w_clock w)]>
              (analyses (w_store w))).
Proof.
  intros Hn Ha Ho Hx Hf Had Hne.
  unfold run_transaction. rewrite regen_tx_run, Hn, Ho, Ha, Hx.
  cbn [commit apply_write]. rewrite Hf. cbn [commit apply_write analyses].
  rewrite lookup_insert_ne by congruence. rewrite Had.
  eexists. split; [reflexivity |]. split; reflexivity.
Qed.

(** A run of [generateNewAnalysis] whose reads, download, text extraction
    and model call succeed ends with its transaction. *)
Lemma run_generateNewAnalysis_tx
    env m w fileID analysisID ad w1 fd w2 c p data w3 t w4 r w5 :
  m !! js "fileID" = Some (VStr fileID) ->
  m !! js "analysisID" = Some (VStr analysisID) ->
  truthy (m !! js "fileID") = true ->
  truthy (m !! js "analysisID") = true ->
  truthy (m !! js "userRating") = true ->
  truthy (m !! js "userComment") = true ->
  env_doc_path_ok env analysisID = true ->
  env_doc_path_ok env fileID = true ->
  handle env (GetAnalysis analysisID) w = (Ok (Some ad), w1) ->
  handle env (GetFile fileID) w1 = (Ok (Some fd), w2) ->
  f_path fd = Some (c :: p) ->
  handle env (BucketDownload None (c :: p)) w2 = (Ok data, w3) ->
  handle env (PdfParse data) w3 = (Ok t, w4) ->
  handle env (Generate (RegenPrompt (or_str t []) (a_content ad)
                          (m !! js "userRating") (m !! js "userComment")))
    w4 = (Ok r, w5) ->
  (forall w6,
     run_transaction env
       (regen_tx fileID fileID fd analysisID (parse (or_str r (js "{}")))
          (next_index fd) (next_id fileID fd)) w5 = (Ok tt, w6) ->
     run env (generateNewAnalysis (Some (VObj m))) w
     = (Ok (new_analysis fileID fd), w6))
  /\ w_store w5 = w_store w
  /\ files (w_store w) !! fileID = Some fd
  /\ analyses (w_store w) !! analysisID = Some ad.
Proof.
  intros Hfid Haid Tf Ta Tr Tc Oa Of Hga Hgf Hp Hd Hpp Hg.
  split.
  - intros w6 Htx.
    unfold generateNewAnalysis, body_field, prop. cbn [lift bind try_catch].
    rewrite Tf, Ta, Tr, Tc. cbn [negb orb].
    cbn [try_catch bind await].
    rewrite run_vis. cbn [handle]. rewrite Haid, Oa. cbn [try_catch bind].
    rewrite run_vis, Hga. cbn [try_catch bind].
    rewrite run_vis. cbn [handle]. rewrite Hfid, Of. cbn [try_catch bind].
    rewrite run_vis, Hgf. cbn [try_catch bind]. rewrite Hp.
    cbn [try_catch bind await].
    rewrite run_vis, Hd. cbn [try_catch bind].
    rewrite run_vis, Hpp. cbn [try_catch bind].
    rewrite run_vis, Hg. cbn [try_catch bind].
    rewrite run_vis. cbn [handle]. rewrite Of. cbn [try_catch bind].
    rewrite run_vis. cbn [handle].
    unfold next_id, next_index in Htx. rewrite Htx. reflexivity.
  - cbn [handle] in Hga, Hgf, Hd, Hpp, Hg. unfold read in Hga, Hgf.
    destruct (env_read_fault env (w_clock w)); [discriminate |].
    destruct (env_read_fault env (w_clock w1)); [discriminate |].
    injection Hga as Hga <-. injection Hgf as Hgf <-.
    injection Hd as _ <-. injection Hpp as _ <-. injection Hg as _ <-.
    cbn [add_event w_store] in *. auto.
Qed.

(** X14. Regenerating from the head keeps the provenance chain linear: when
    the file document carries a chain of length [n], [1 <= n < 2^53], and
    the request names its head [fileID-n], a run of [generateNewAnalysis]
    whose steps all succeed answers 200 with [fileID-(n+1)] and leaves a
    chain of length [n+1]: the old head points to the new record, the new
    record points to nothing, and the earlier records still point to their
    successors. *)
Theorem regeneration_from_head_extends_chain
    env m w fileID n ad w1 fd w2 c p owner data w3 t w4 r w5 :
  chain (w_store w) fileID n ->
  (1 <= n)%nat ->
  safe_count n ->
  m !! js "fileID" = Some (VStr fileID) ->
  m !! js "analysisID" = Some (VStr (fileID ++ js "-" ++ dec n)) ->
  truthy (m !! js "fileID") = true ->
  truthy (m !! js "analysisID") = true ->
  truthy (m !! js "userRating") = true ->
  truthy (m !! js "userComment") = true ->
  env_doc_path_ok env (fileID ++ js "-" ++ dec n) = true ->
  env_doc_path_ok env fileID = true ->
  env_doc_path_ok env (fileID ++ js "-" ++ dec (S n)) = true ->
  handle env (GetAnalysis (fileID ++ js "-" ++ dec n)) w = (Ok (Some ad), w1) ->
  handle env (GetFile fileID) w1 = (Ok (Some fd), w2) ->
  f_path fd = Some (c :: p) ->
  f_owner fd = Some owner ->
  handle env (BucketDownload None (c :: p)) w2 = (Ok data, w3) ->
  handle env (PdfParse data) w3 = (Ok t, w4) ->
  handle env (Generate (RegenPrompt (or_str t []) (a_content ad)
                          (m !! js "userRating") (m !! js "userComment")))
    w4 = (Ok r, w5) ->
  env_tx_fault env (w_clock w5) = None ->
  let '(res, w') := run env (generateNewAnalysis (Some (VObj m))) w in
  res = Ok {| status := 200;
              payload := NewAnalysisBody (fileID ++ js "-" ++ dec (S n)) |}
  /\ chain (w_store w') fileID (S n).
Proof.
  intros Hchain Hn1 Hsafe Hfid Haid Tf Ta Tr Tc Oa Of On Hga Hgf Hp Ho Hd Hpp
    Hg Hx.
  set (analysisID := fileID ++ js "-" ++ dec n) in *.
  destruct (run_generateNewAnalysis_tx env m w fileID analysisID ad w1 fd w2 c p
              data w3 t w4 r w5) as (Hrun & Hs5 & Hf & Ha); try assumption.
  destruct Hchain as (fd0 & Hf0 & Hnum & Hidx).
  rewrite Hf in Hf0. injection Hf0 as <-.
  assert (Hnext : next_index fd = S n)
    by (rewrite next_index_safe; rewrite Hnum; [reflexivity | exact Hsafe]).
  assert (Hnew : next_id fileID fd = fileID ++ js "-" ++ dec (S n))
    by (unfold next_id; rewrite Hnext; reflexivity).
  assert (Hne : forall j k, j <> k ->
            fileID ++ js "-" ++ dec j <> fileID ++ js "-" ++ dec k).
  { intros j k Hjk Heq. apply Hjk. apply app_inv_head in Heq.
    apply app_inv_head in Heq. by apply dec_inj. }
  destruct (regen_tx_store env w5 fileID fd analysisID
              (parse (or_str r (js "{}"))) owner fd ad)
    as (w6 & Htx & Hfiles & Han); try assumption;
    try (rewrite Hs5; assumption).
  { rewrite Hnew. exact On. }
  { rewrite Hnew. apply Hne. lia. }
  rewrite (Hrun w6 Htx). split.
  { unfold new_analysis. rewrite Hnew. reflexivity. }
  eexists. rewrite Hfiles, Han. split; [apply lookup_insert_eq |].
  cbn [f_numAnalysis f_analysis]. rewrite Hnext, Hnew.
  split; [reflexivity |]. intros k Hk.
  destruct (decide (k = S n)) as [-> | Hk1].
  - rewrite lookup_insert_eq. split; [reflexivity |].
    rewrite lookup_insert_ne by (apply Hne; lia). rewrite lookup_insert_eq.
    eexists. split; [reflexivity |]. cbn [analysis_record a_fileID a_nextAnalysis].
    rewrite Nat.ltb_irrefl. auto.
  - rewrite lookup_insert_ne by congruence.
    destruct (Hidx k ltac:(lia)) as (Hi & d & Hd' & Hdf & Hdn).
    split; [exact Hi |].
    destruct (decide (k = n)) as [-> | Hk2].
    + fold analysisID. rewrite lookup_insert_eq. eexists. split; [reflexivity |].
      cbn [a_fileID a_nextAnalysis].
      fold analysisID in Hd'. rewrite Hs5 in *. rewrite Ha in Hd'.
      injection Hd' as <-.
      split; [exact Hdf |]. destruct (Nat.ltb_spec n (S n)); [reflexivity | lia].
    + rewrite !lookup_insert_ne by (apply Hne; lia).
      rewrite Hs5. exists d. split; [exact Hd' |]. split; [exact Hdf |].
      rewrite Hdn. destruct (Nat.ltb_spec k n); destruct (Nat.ltb_spec k (S n));
        try reflexivity; lia.
Qed.

Lemma regeneration_from_head_extends_chain_witness :
  let '(res, w') :=
    run env_ok (generateNewAnalysis regen_request) (world_of store_chain1) in
  res = Ok {| status := 200; payload := NewAnalysisBody (js "f" ++ js "-" ++ dec 2) |}
  /\ chain (w_store w') (js "f") 2.
Proof.
  assert (Hchain : chain (w_store (world_of store_chain1)) (js "f") 1).
  { exists (sample_file 1 {[ 1%nat := js "f-1" ]}).
    split; [vm_compute; reflexivity |]. split; [reflexivity |].
    intros k Hk. assert (k = 1%nat) as -> by lia.
    split; [vm_compute; reflexivity |].
    exists (sample_analysis None). repeat split; vm_compute; reflexivity. }
  pose (ad := sample_analysis None).
  pose (fd := sample_file 1 {[ 1%nat := js "f-1" ]}).
  pose (w0 := world_of store_chain1).
  pose (w1 := (handle env_ok (GetAnalysis (js "f-1")) w0).2).
  pose (w2 := (handle env_ok (GetFile (js "f")) w1).2).
  pose (w3 := (handle env_ok (BucketDownload None (js "u1/cv.pdf")) w2).2).
  pose (w4 := (handle env_ok (PdfParse (js "%PDF")) w3).2).
  pose (w5 := (handle env_ok
                 (Generate (RegenPrompt (js "Jane Doe, engineer") (VObj ∅)
                              (Some (VNum (Number false 4 0)))
                              (Some (VStr (js "more detail"))))) w4).2).
  apply (regeneration_from_head_extends_chain env_ok
           (<[js "fileID" := VStr (js "f")]>
            (<[js "analysisID" := VStr (js "f-1")]>
            (<[js "userRating" := VNum (Number false 4 0)]>
            {[ js "userComment" := VStr (js "more detail") ]})))
           w0 (js "f") 1 ad w1 fd w2 117 (js "1/cv.pdf") (js "u1") (js "%PDF") w3
           (Some (js "Jane Doe, engineer")) w4 (Some summary_json) w5 Hchain);
    [lia | vm_compute; reflexivity ..].
Defined.

(** ** The answers of [generatePdf] *)

(** X15. A [generatePdf] request without [userId], or with neither [name]
    nor [summary] (absent or empty), is answered 400 "Missing required
    parameters: userId and resume content (name or summary)."; the handler
    is a bare return, so no service is called and nothing is logged or
    written. *)
Theorem generatePdf_rejects_missing_fields req :
  nonempty (userId req) = false
  \/ (nonempty (name req) = false /\ nonempty (summary req) = false) ->
  generatePdf req = Ret pdf_missing_parameters
  /\ forall env w, run env (generatePdf req) w = (Ok pdf_missing_parameters, w).
Proof.
  intros H.
  assert (Hp : generatePdf req = Ret pdf_missing_parameters).
  { unfold generatePdf.
    assert (Hc : negb (nonempty (userId req))
                 || negb (nonempty (name req)) && negb (nonempty (summary req))
                 = true).
    { destruct H as [-> | [-> ->]]; [reflexivity | apply orb_true_r]. }
    rewrite Hc. reflexivity. }
  split; [exact Hp |]. intros env w. rewrite Hp. reflexivity.
Qed.

Lemma generatePdf_rejects_missing_fields_witness :
  generatePdf {| name := Some (js "Jane Doe"); phone := None; email := None;
                 summary := Some (js "Engineer");
                 education := None; workExperience := None;
                 projectExperience := None; skills := None; publications := None;
                 title := None; pageSize := None; margins := None;
                 fontFamily := None; lineHeight := None; headerHtml := None;
                 footerHtml := None; pageNumbers := None;
                 userId := Some []; resumeId := None; versionId := None |}
  = Ret pdf_missing_parameters.
Proof.
  apply generatePdf_rejects_missing_fields. left. reflexivity.
Defined.

(** What the metadata transaction commits. *)
Lemma metadata_tx_store env clock s req uid pdfTitle filePath pdfData payload
    fileID ws lg now s' :
  tx_run env clock 0 s (metadata_tx req uid pdfTitle filePath pdfData payload) [] []
  = (Ok fileID, ws, lg) ->
  commit now ws s = Some s' ->
  files s' = <[fileID := generated_file uid pdfTitle filePath now]> (files s)
  /\ analyses s' = analyses s
  /\ exists u, users s !! uid = Some u
       /\ users s' = <[uid := array_union fileID u]> (users s).
Proof.
  unfold metadata_tx. cbn [tx_run app].
  destruct (env_doc_path_ok env uid); [| discriminate].
  cbn [tx_run app].
  destruct (nonempty (resumeId req) && nonempty (versionId req)).
  - cbn [tx_run app].
    repeat (case_match; cbn [tx_run app]; try discriminate).
    intros [= <- <- _]. cbn [commit apply_write users].
    destruct (users s !! uid) as [u |] eqn:Hu; [| discriminate].
    cbn [commit apply_write].
    intros [= <-]. cbn [files analyses users]. eauto.
  - cbn [tx_run app]. intros [= <- <- _]. cbn [commit apply_write users].
    destruct (users s !! uid) as [u |] eqn:Hu; [| discriminate].
    cbn [commit apply_write].
    intros [= <-]. cbn [files analyses users]. eauto.
Qed.

(** The versioning transaction keeps every file document, with its owner,
    path, name and type, and touches neither the users nor the bucket. *)
Lemma analysis_tx_keeps env w fileID parsed r w' :
  run_transaction env (analysis_tx fileID fileID parsed) w = (r, w') ->
  users (w_store w') = users (w_store w)
  /\ forall id fd, files (w_store w) !! id = Some fd ->
       exists fd', files (w_store w') !! id = Some fd'
         /\ f_owner fd' = f_owner fd /\ f_path fd' = f_path fd
         /\ f_filename fd' = f_filename fd /\ f_type fd' = f_type fd.
Proof.
  intros Hrun. destruct r as [[] | m].
  - apply run_transaction_ok in Hrun.
    destruct Hrun as (ws & lg & s' & Htx & _ & Hc & ->).
    unfold analysis_tx in Htx. cbn [tx_run] in Htx.
    destruct (files (w_store w) !! fileID) as [fd0 |] eqn:Hf.
    + cbn [tx_run app] in Htx.
      destruct (env_doc_path_ok env _); [| discriminate].
      cbn [tx_run app] in Htx. injection Htx as <- <-.
      cbn [commit apply_write] in Hc. rewrite Hf in Hc.
      cbn [commit apply_write] in Hc. injection Hc as <-.
      cbn [add_event set_store w_store files users].
      split; [reflexivity |]. intros id fd Hfd.
      destruct (decide (id = fileID)) as [-> | Hne].
      * rewrite lookup_insert_eq. rewrite Hf in Hfd. injection Hfd as <-.
        eexists. split; [reflexivity |]. cbn. auto.
      * rewrite lookup_insert_ne by congruence. eauto 10.
    + cbn [tx_run] in Htx. injection Htx as <- <-.
      cbn [commit] in Hc. injection Hc as <-.
      cbn [add_event set_store w_store]. eauto 10.
  - apply run_transaction_thrown in Hrun. rewrite Hrun. eauto 10.
Qed.

Lemma analyzeResumeText_keeps env text fileID filePath w :
  let w' := (run env (analyzeResumeText text fileID filePath) w).2 in
  users (w_store w') = users (w_store w)
  /\ w_blobs w' = w_blobs w
  /\ forall id fd, files (w_store w) !! id = Some fd ->
       exists fd', files (w_store w') !! id = Some fd'
         /\ f_owner fd' = f_owner fd /\ f_path fd' = f_path fd
         /\ f_filename fd' = f_filename fd /\ f_type fd' = f_type fd.
Proof.
  rewrite run_analyzeResumeText. cbn zeta.
  destruct (env_model env _ _) as [t | m]; cbn [snd].
  2: { cbn [add_log add_event w_store w_blobs].
       rewrite warn_short_store, warn_short_blobs. eauto 10. }
  destruct (env_doc_path_ok env fileID); cbn [snd].
  2: { cbn [add_log add_event w_store w_blobs].
       rewrite warn_short_store, warn_short_blobs. eauto 10. }
  match goal with |- context [run_transaction env ?t ?w1] =>
    pose proof (run_transaction_blobs env t w1) as Hb;
    destruct (run_transaction env t w1) as [r w2] eqn:Htx end.
  apply analysis_tx_keeps in Htx. cbn [snd add_event w_store w_blobs] in Htx, Hb.
  rewrite warn_short_store in Htx. rewrite warn_short_blobs in Hb.
  destruct r as [[] | m]; cbn [snd add_log w_store w_blobs]; rewrite Hb;
    destruct Htx as [Hu Hf]; auto.
Qed.

Lemma generatePdf_outcome env req w :
  wp env (generatePdf req) (pdf_outcome req w) w.
Proof.
  assert (Herr : forall m w0,
            w_store w0 = w_store w -> pdf_request_invalid req = false ->
            wp env (log Error (js "generatePdf error:") [m] ;;
                    send 500 (ErrorBody m None)) (pdf_outcome req w) w0).
  { intros m w0 Hs Hv. wp_steps. eexists. split; [reflexivity |].
    right. left. cbn [status add_log w_store]. auto. }
  unfold generatePdf. wp_steps. fold (pdf_request_invalid req).
  destruct (pdf_request_invalid req) eqn:Hv.
  { wp_steps. eexists. split; [reflexivity |]. left. auto. }
  assert (Huid : userId req = Some (or_str (userId req) [])).
  { unfold pdf_request_invalid in Hv. apply orb_false_elim in Hv as [Hv _].
    destruct (userId req) as [[| c s] |]; try discriminate. reflexivity. }
  wp_steps.
  destruct (env_model env _ _) as [r |]; [| by apply Herr].
  wp_steps.
  destruct (prop _ _) as [enhanced | e]; [| by apply Herr].
  wp_steps.
  destruct (env_fetch_post env _ _ _) as [post | e]; [| by apply Herr].
  destruct (negb (r_ok post)).
  { wp_steps. destruct (r_text post); [| by apply Herr].
    wp_steps. eexists. split; [reflexivity |]. right. left.
    cbn [status add_log add_event w_store]. auto. }
  wp_steps.
  destruct (r_json post) as [pdfData | e]; [| by apply Herr].
  wp_steps.
  destruct (prop pdfData (js "pdf_url")) as [url | e]; [| by apply Herr].
  wp_steps.
  destruct (env_fetch_buffer env _ _) as [data | e]; [| by apply Herr].
  wp_steps.
  destruct (env_save_fault env _); cbn [fst snd]; [by apply Herr |].
  wp_steps.
  match goal with |- context [run_transaction env ?t ?w5] =>
    pose proof (run_transaction_blobs env t w5) as Hb;
    destruct (run_transaction env t w5) as [[fileID | m] w6] eqn:Htx end;
    cbn [fst snd] in *.
  2: { apply Herr; [| reflexivity].
       apply run_transaction_thrown in Htx. rewrite Htx. reflexivity. }
  apply run_transaction_ok in Htx.
  destruct Htx as (ws & lg & s' & Hrun & _ & Hc & ->).
  destruct (metadata_tx_store _ _ _ _ _ _ _ _ _ _ _ _ _ _ Hrun Hc)
    as (Hfiles & _ & u & Hu & Husers).
  wp_steps.
  match goal with |- wp env (analyzeResumeText ?text ?fid ?path) ?Q ?w6 =>
    pose proof (analyzeResumeText_keeps env text fid path w6) as Hk;
    change (Q (run env (analyzeResumeText text fid path) w6).1
              (run env (analyzeResumeText text fid path) w6).2);
    destruct (run env (analyzeResumeText text fid path) w6) as [ra w7]
  end.
  cbn [fst snd] in *. destruct Hk as (Hu7 & Hb7 & Hf7).
  cbn [add_event set_store add_log w_store w_blobs put_blob] in Hu7, Hb7, Hf7, Hb.
  destruct (Hf7 fileID _ ltac:(rewrite Hfiles; apply lookup_insert_eq))
    as (fd' & Hfd' & Ho & Hp & Hn & Ht).
  destruct ra as [v | e]; wp_steps; (eexists; split; [reflexivity |]);
    right; right; cbn [status payload];
    (split; [reflexivity |]); (split; [exact Hv |]);
    do 4 eexists; (split; [reflexivity |]);
    cbn [pr_fileID pr_firebase_path add_log w_store w_blobs];
    rewrite Hu7, Hb7, Hfd', Husers, Ho, Hp, Hn, Ht, !lookup_insert_eq;
    unfold array_union, generated_file;
    cbn [f_owner f_path f_filename f_type u_files b_owner];
    (repeat split; try reflexivity; try (symmetry; exact Huid));
    (case_bool_decide; [assumption |]); apply elem_of_app; right;
    apply list_elem_of_here.
Qed.

(** X16. [generatePdf] never throws: in every environment and for every
    request it sends a response, whose status is 200, 400 or 500; the
    status is 400 exactly when the validation of the request fails, and
    unless the status is 200 the Firestore collections are as before the
    request. *)
Theorem generatePdf_always_answers env req w :
  exists resp,
    (run env (generatePdf req) w).1 = Ok resp
    /\ (status resp = 200 \/ status resp = 400 \/ status resp = 500)%nat
    /\ (status resp = 400%nat <-> pdf_request_invalid req = true)
    /\ (status resp <> 200%nat ->
        w_store (run env (generatePdf req) w).2 = w_store w).
Proof.
  destruct (generatePdf_outcome env req w) as (resp & Hr & H).
  exists resp. split; [exact Hr |].
  destruct H as [(-> & -> & Hv) | [(Hst & Hs & Hv) | (Hst & Hv & _)]];
    rewrite ?Hst, ?Hv; cbn [status pdf_missing_parameters];
    repeat split; auto; try discriminate; try congruence.
Qed.

(** X17. A 200 answer of [generatePdf] names what was stored: the [fileID]
    of the payload is a file document of type "Generated" owned by the
    [userId] of the request, whose [path] is the [firebase_path] of the
    payload and whose [filename] is the title; the user document of
    [userId] lists that [fileID] among its [files]; and the bucket holds an
    object under [firebase_path] whose metadata names the same owner. *)
Theorem generatePdf_success_records_document env req w resp w' :
  run env (generatePdf req) w = (Ok resp, w') ->
  status resp = 200%nat ->
  exists res fd u b,
    payload resp = PdfBody true res
    /\ files (w_store w') !! pr_fileID res = Some fd
    /\ f_owner fd = userId req
    /\ f_path fd = Some (pr_firebase_path res)
    /\ f_filename fd = Some (pdf_title req)
    /\ f_type fd = Some (js "Generated")
    /\ users (w_store w') !! or_str (userId req) [] = Some u
    /\ pr_fileID res ∈ u_files u
    /\ w_blobs w' !! pr_firebase_path res = Some b
    /\ Some (b_owner b) = userId req.
Proof.
  intros Hrun Hst.
  destruct (generatePdf_outcome env req w) as (resp' & Hr & H).
  rewrite Hrun in Hr, H. cbn [fst snd] in Hr, H. injection Hr as <-.
  destruct H as [(-> & _) | [(H5 & _) | (_ & _ & H)]];
    [discriminate Hst | congruence | exact H].
Qed.

Lemma generatePdf_success_records_document_witness :
  let w' := (run env_ok (generatePdf pdf_request) (world_of store_user)).2 in
  exists fd u,
    files (w_store w') !! js "auto5x0" = Some fd
    /\ f_owner fd = Some (js "u1")
    /\ users (w_store w') !! js "u1" = Some u
    /\ js "auto5x0" ∈ u_files u.
Proof.
  intros w'.
  destruct (generatePdf_success_records_document env_ok pdf_request
              (world_of store_user)
              (pdf_success pdf_request (js "2025-01-02T03:04:05.678Z") pdf_data
                 (js "auto5x0")) w')
    as (res & fd & u & b & Hp & Hf & Ho & _ & _ & _ & Hu & Hin & _);
    [vm_compute; reflexivity | reflexivity |].
  injection Hp as <-. exists fd, u. auto.
Defined.

(** ** A user without a user document *)

(** The metadata transaction rejects when the user document does not exist. *)
Lemma metadata_tx_rejects env req uid pdfTitle filePath pdfData payload w :
  users (w_store w) !! uid = None ->
  exists e w',
    run_transaction env (metadata_tx req uid pdfTitle filePath pdfData payload) w
    = (Thrown e, w').
Proof.
  intros Hu. unfold run_transaction.
  destruct (tx_run env (w_clock w) 0 (w_store w)
              (metadata_tx req uid pdfTitle filePath pdfData payload) [] [])
    as [[[fileID | m] ws] lg] eqn:Htx; [| eauto].
  destruct (env_tx_fault env (w_clock w)); [eauto |].
  destruct (commit (w_clock w) ws (w_store w)) as [s' |] eqn:Hc; [| eauto].
  destruct (metadata_tx_store _ _ _ _ _ _ _ _ _ _ _ _ _ _ Htx Hc)
    as (_ & _ & u & Hu' & _).
  congruence.
Qed.

(** X18. For a [userId] that has no document in the collection [user],
    [generatePdf] stores the PDF in the bucket and then fails: once the
    model, the rendering service, the download of the artifact and
    [file.save] have succeeded, the metadata transaction rejects (its
    [update] of the user document finds nothing), the request is answered
    500, Firestore is unchanged (no file document is created), and the
    object stays in the bucket. *)
Theorem generatePdf_without_user_document
    env req w raw w1 iso w2 enhanced post w3 pdfData url data w4 w5 :
  nonempty (userId req) = true ->
  nonempty (name req) || nonempty (summary req) = true ->
  users (w_store w) !! or_str (userId req) [] = None ->
  handle env (Generate (PdfPrompt req (format_resume req))) w = (Ok raw, w1) ->
  handle env Now w1 = (iso, w2) ->
  prop (parse (or_str raw (js "{}"))) (js "enhanced_text") = Ok enhanced ->
  handle env (FetchPost pdfServiceUrl
                (mcp_payload req enhanced (format_resume req) (pdf_title req)))
    w2 = (Ok post, w3) ->
  r_ok post = true ->
  r_json post = Ok pdfData ->
  prop pdfData (js "pdf_url") = Ok url ->
  handle env (FetchBuffer url) w3 = (Ok data, w4) ->
  handle env (FileSave (pdf_path req iso) (pdf_blob req iso data)) w4 = (Ok tt, w5) ->
  let '(r, w') := run env (generatePdf req) w in
  (exists e, r = Ok {| status := 500; payload := ErrorBody e None |})
  /\ w_store w' = w_store w
  /\ w_blobs w' !! pdf_path req iso = Some (pdf_blob req iso data).
Proof.
  intros Hu Hn Hnone Hg Hnow He Hf Hok Hj Hurl Hb Hs.
  assert (Hw5 : w_store w5 = w_store w
                /\ w_blobs w5 !! pdf_path req iso = Some (pdf_blob req iso data)).
  { cbn in Hg, Hnow, Hf, Hb, Hs.
    destruct (env_save_fault env (w_clock w4)); [discriminate |].
    injection Hg as _ <-. injection Hnow as _ <-. injection Hf as _ <-.
    injection Hb as _ <-. injection Hs as <-. cbn.
    split; [reflexivity | apply lookup_insert_eq]. }
  destruct Hw5 as [Hs5 Hb5].
  destruct (metadata_tx_rejects env req (or_str (userId req) []) (pdf_title req)
              (pdf_path req iso) pdfData
              (mcp_payload req enhanced (format_resume req) (pdf_title req))
              (add_log [pdf_saved req iso] w5)) as (e & w6 & Htx).
  { cbn [add_log w_store]. rewrite Hs5. exact Hnone. }
  pose proof (run_transaction_blobs env
                (metadata_tx req (or_str (userId req) []) (pdf_title req)
                   (pdf_path req iso) pdfData
                   (mcp_payload req enhanced (format_resume req) (pdf_title req)))
                (add_log [pdf_saved req iso] w5)) as Hb6.
  rewrite Htx in Hb6. cbn [snd add_log w_blobs] in Hb6.
  pose proof (run_transaction_thrown _ _ _ _ _ Htx) as Hs6.
  cbn [add_log w_store] in Hs6.
  unfold generatePdf. rewrite (request_accepted req Hu Hn).
  cbn [try_catch bind await perform].
  rewrite run_vis, Hg. cbn [try_catch bind].
  rewrite run_vis, Hnow. rewrite He. cbn [try_catch bind lift].
  unfold pdf_title in Hf. rewrite run_vis, Hf. cbn [try_catch bind].
  rewrite Hok. cbn [negb]. rewrite Hj. cbn [try_catch bind lift].
  rewrite Hurl. cbn [try_catch bind lift].
  rewrite run_vis, Hb. cbn [try_catch bind].
  unfold pdf_path, pdf_blob, pdf_title in Hs. rewrite run_vis, Hs.
  cbn [try_catch bind log perform].
  rewrite run_vis. cbn [handle].
  unfold pdf_saved, pdf_path, pdf_title in Htx.
  rewrite run_vis. cbn [handle]. rewrite Htx.
  cbn [try_catch bind log perform send run handle add_log w_store w_blobs].
  split; [eauto |]. split; [congruence |]. rewrite Hb6. exact Hb5.
Qed.

Lemma generatePdf_without_user_document_witness :
  let w' := (run env_ok (generatePdf pdf_request) (world_of empty_store)).2 in
  w_store w' = empty_store
  /\ w_blobs w' !! pdf_path pdf_request (js "2025-01-02T03:04:05.678Z")
     = Some (pdf_blob pdf_request (js "2025-01-02T03:04:05.678Z") (js "%PDF")).
Proof.
  pose (env := env_ok). pose (req := pdf_request).
  pose (iso := js "2025-01-02T03:04:05.678Z").
  pose (payload := mcp_payload req None (format_resume req) (pdf_title req)).
  pose (post := {| r_ok := true; r_text := Ok (js "{}"); r_json := Ok pdf_data |}).
  pose (url := Some (VStr (js "https://pdf/1"))).
  pose (w0 := world_of empty_store).
  pose (w1 := (handle env (Generate (PdfPrompt req (format_resume req))) w0).2).
  pose (w2 := (handle env Now w1).2).
  pose (w3 := (handle env (FetchPost pdfServiceUrl payload) w2).2).
  pose (w4 := (handle env (FetchBuffer url) w3).2).
  pose (w5 := (handle env (FileSave (pdf_path req iso)
                             (pdf_blob req iso (js "%PDF"))) w4).2).
  pose proof (generatePdf_without_user_document env req w0
                (Some summary_json) w1 iso w2 None post w3 pdf_data url (js "%PDF")
                w4 w5) as H.
  subst env req w0. cbv zeta.
  destruct (run env_ok (generatePdf pdf_request) (world_of empty_store))
    as [r w'].
  destruct H as (_ & Hs & Hb); [vm_compute; reflexivity .. |].
  split; [exact Hs | exact Hb].
Defined.

(** ** The text sent to the rendering service *)

Lemma format_resume_nonempty req :
  nonempty (name req) || nonempty (summary req) = true ->
  format_resume req <> [].
Proof.
  intros H Hnil. unfold format_resume in Hnil.
  apply app_eq_nil in Hnil as [Hname Hnil].
  apply app_eq_nil in Hnil as [_ Hnil].
  apply app_eq_nil in Hnil as [_ Hnil].
  apply app_eq_nil in Hnil as [Hsum _].
  destruct (name req) as [[| c s] |]; cbn [nonempty orb when_set] in H, Hname;
    try discriminate Hname;
    (destruct (summary req) as [[| c' s'] |]; cbn [nonempty when_set] in H, Hsum;
     try discriminate H;
     apply app_eq_nil in Hsum as [Hsum _]; vm_compute in Hsum; discriminate Hsum).
Qed.

(** X19. The rendering service is never sent an empty text: for a request
    that has a [name] or a [summary], the [text] of the payload is truthy,
    whatever the model returned as [enhanced_text] (absent, empty or
    [null] fall back to the text formatted from the request, which is not
    empty). *)
Theorem generatePdf_never_renders_empty_text req enhanced :
  nonempty (name req) || nonempty (summary req) = true ->
  truthy (Some (mp_text (mcp_payload req enhanced (format_resume req)
                           (pdf_title req)))) = true.
Proof.
  intros Hn. pose proof (format_resume_nonempty req Hn) as Hne.
  unfold mcp_payload. cbn [mp_text].
  assert (Ht : truthy (Some (VStr (format_resume req))) = true).
  { cbn [truthy]. destruct (format_resume req); [congruence | reflexivity]. }
  destruct enhanced as [v |]; [| exact Ht].
  destruct (truthy (Some v)) eqn:Hv; [exact Hv | exact Ht].
Qed.

Lemma generatePdf_never_renders_empty_text_witness :
  truthy (Some (mp_text (mcp_payload pdf_request (Some (VStr []))
                           (format_resume pdf_request) (pdf_title pdf_request))))
  = true.
Proof.
  apply generatePdf_never_renders_empty_text; reflexivity.
Defined.

(** ** The storage path of a generated PDF *)

Lemma replace_all_Forall (P : N -> Prop) c d s :
  Forall P d -> Forall (fun x => isc x c = false -> P x) s ->
  Forall P (replace_all c d s).
Proof.
  intros Hd Hs. unfold replace_all. induction Hs as [| x s Hx _ IH]; cbn.
  - constructor.
  - apply Forall_app. split; [| exact IH].
    destruct (isc x c); [exact Hd | constructor; [by apply Hx | constructor]].
Qed.

Lemma replace_first_Forall (P : N -> Prop) c d s :
  Forall P d -> Forall P s -> Forall P (replace_first c d s).
Proof.
  intros Hd Hs. induction Hs as [| x s Hx Hs IH]; cbn.
  - constructor.
  - destruct (isc x c); [apply Forall_app; auto | constructor; auto].
Qed.

Lemma strip_prefix_app p r : strip_prefix p (p ++ r) = Some r.
Proof. induction p as [| a p IH]; cbn; [reflexivity | by rewrite N.eqb_refl]. Qed.

Lemma ends_with_app suffix s : ends_with suffix (s ++ suffix) = true.
Proof. unfold ends_with. by rewrite rev_app_distr, strip_prefix_app. Qed.

(** X20. The storage path of a generated PDF is
    [userId/title-timestamp.pdf]: it starts with the user id and a slash
    and ends with the suffix [.pdf], and the timestamp derived from the ISO
    date contains neither [:] nor [.], whatever the clock returned. *)
Theorem generated_path_shape req iso :
  Forall (fun c => c <> N_of_ascii ":" /\ c <> N_of_ascii ".") (file_timestamp iso)
  /\ strip_prefix (or_str (userId req) [] ++ js "/") (pdf_path req iso)
     = Some (pdf_title req ++ js "-" ++ file_timestamp iso ++ js ".pdf")
  /\ ends_with (js ".pdf") (pdf_path req iso) = true.
Proof.
  split; [| split].
  - unfold file_timestamp.
    apply replace_first_Forall; [constructor |].
    apply replace_first_Forall; [repeat constructor; discriminate |].
    apply replace_all_Forall; [repeat constructor; discriminate |].
    assert (H : Forall (fun c => c <> N_of_ascii ":")
                  (replace_all ":" (js "-") iso)).
    { apply replace_all_Forall; [repeat constructor; discriminate |].
      apply Forall_forall. intros x _ Hx. unfold isc in Hx.
      by apply N.eqb_neq in Hx. }
    eapply Forall_impl; [exact H |]. intros x Hx Hc. split; [exact Hx |].
    unfold isc in Hc. by apply N.eqb_neq in Hc.
  - unfold pdf_path. rewrite app_assoc. apply strip_prefix_app.
  - unfold pdf_path. rewrite !app_assoc. apply ends_with_app.
Qed.

(** ** A generated PDF and the upload trigger *)

(** X21. The object [generatePdf] saves passes the [.pdf] filter of
    [onResumeUploaded] but carries no [fileID] in its metadata: when the
    upload trigger fires for it and the download and the text extraction
    succeed, "File ID not found in metadata." is logged and the trigger
    returns without calling the model or writing anything.  The analysis of
    a generated PDF comes from [generatePdf] alone. *)
Theorem generated_pdf_not_analysed_by_trigger env req iso data bucket w buf t :
  bucket <> [] ->
  env_download env (w_clock w) (Some bucket) (pdf_path req iso) = Ok buf ->
  env_pdfParse env (S (w_clock w)) buf = Ok t ->
  let '(r, w') :=
    run env (onResumeUploaded
               (finalized bucket (pdf_path req iso) (pdf_blob req iso data))) w in
  r = Ok tt
  /\ w_store w' = w_store w
  /\ w_trace w' = w_trace w ++ [EvDownload (pdf_path req iso); EvPdfParse]
  /\ last (w_log w') = Some no_file_id.
Proof.
  intros Hb Hd Hp. rewrite run_onResumeUploaded. unfold finalized.
  cbn [o_name o_bucket o_fileID or_str].
  assert (He : ends_with (js ".pdf") (pdf_path req iso) = true).
  { unfold pdf_path. rewrite !app_assoc. apply ends_with_app. }
  destruct (pdf_path req iso) as [| c p] eqn:Hpath.
  { unfold pdf_path in Hpath. apply app_eq_nil in Hpath as [_ Hpath].
    apply app_eq_nil in Hpath as [Hpath _]. vm_compute in Hpath. discriminate. }
  cbn zeta. rewrite He. destruct bucket as [| b bs]; [congruence |].
  cbn [nonempty negb]. rewrite Hd. cbn [add_event w_clock]. rewrite Hp.
  cbn [add_log w_store w_trace w_log]. rewrite last_snoc, warn_short_store.
  split; [reflexivity |]. split; [reflexivity |]. split; [| reflexivity].
  unfold warn_short. destruct (_ <? _)%nat; cbn; by rewrite <- app_assoc.
Qed.

Lemma generated_pdf_not_analysed_by_trigger_witness :
  let iso := js "2025-01-02T03:04:05.678Z" in
  let '(r, w') :=
    run env_ok (onResumeUploaded
                  (finalized (js "b") (pdf_path pdf_request iso)
                     (pdf_blob pdf_request iso (js "%PDF"))))
      (world_of store_user) in
  r = Ok tt
  /\ w_store w' = w_store (world_of store_user)
  /\ w_trace w' = w_trace (world_of store_user)
                  ++ [EvDownload (pdf_path pdf_request iso); EvPdfParse]
  /\ last (w_log w') = Some no_file_id.
Proof.
  apply (generated_pdf_not_analysed_by_trigger env_ok pdf_request
           (js "2025-01-02T03:04:05.678Z") (js "%PDF") (js "b")
           (world_of store_user) (js "%PDF") (Some (js "Jane Doe, engineer")));
    [discriminate | reflexivity | reflexivity].
Defined.
